(** * skpro: the InverseGamma distribution family and the workflow DataManager

    A shallow embedding of [skpro/distributions/inversegamma.py] and of
    [skpro/workflow/manager/data.py], with the properties their
    specification states about them.

    Python objects are modelled the way the code uses them: a [dict] is a
    finite map keyed by strings, a list literal is a list, an instance is
    the finite map of its attributes, and a numpy array lives in a store
    and is referred to by its location, so that a copy and its original
    are different objects holding equal contents.  A float is modelled by
    the rational number its literal denotes; no statement below depends on
    rounding. *)

From Stdlib Require Import ZArith QArith String Ascii.
From stdpp Require Import gmap strings list fin_maps.

Local Set Warnings "-register-all".
Local Close Scope Q_scope.

(** ** The inverse gamma family ([skpro/distributions/inversegamma.py]) *)

Module InverseGamma.

(** Python values that occur as tags and as constructor arguments. *)
Inductive pyval :=
| PNone
| PInt (z : Z)
| PFloat (q : Q)
| PStr (s : string)
| PList (items : list pyval)
| PIndex (labels : list pyval).

(** The class attribute [_tags]. *)
Definition _tags : gmap string pyval :=
  <["capabilities:approx" := PList [PStr "energy"; PStr "pdfnorm"]]> (
  <["capabilities:exact" :=
      PList [PStr "mean"; PStr "var"; PStr "pdf"; PStr "log_pdf";
             PStr "cdf"; PStr "ppf"]]> (
  <["distr:measuretype" := PStr "continuous"]> (
  <["distr:paramtype" := PStr "parametric"]> (
  <["broadcast_init" := PStr "on"]> ∅)))).

(** The names held by a tag whose value is a list of strings; a tag that is
    absent, or is not such a list, registers nothing. *)
Definition str_items (v : pyval) : list string :=
  match v with
  | PList items =>
      omap (fun x => match x with PStr s => Some s | _ => None end) items
  | _ => []
  end.

Definition capabilities (tag : string) : list string :=
  match _tags !! tag with
  | Some v => str_items v
  | None => []
  end.

Definition exact_capabilities : list string := capabilities "capabilities:exact".
Definition approx_capabilities : list string := capabilities "capabilities:approx".

(** How many capability tags a statistic carries. *)
Definition occurrences (s : string) (l : list string) : nat :=
  length (filter (fun x => x = s) l).

Definition tag_count (s : string) : nat :=
  occurrences s exact_capabilities + occurrences s approx_capabilities.

(** [get_test_params(cls, parameter_set="default")]: a class method; the
    body reads neither argument. *)
Definition params1 : gmap string pyval :=
  <["alpha" := PList [PInt 6; PFloat (5 # 2)]]> (
  <["beta" := PList [PList [PInt 1; PInt 1];
                     PList [PInt 2; PInt 3];
                     PList [PInt 4; PInt 5]]]> ∅).

Definition params2 : gmap string pyval :=
  <["alpha" := PInt 2]> (
  <["beta" := PInt 3]> (
  <["index" := PIndex [PInt 1; PInt 2; PInt 5]]> (
  <["columns" := PIndex [PStr "a"; PStr "b"]]> ∅))).

Definition params3 : gmap string pyval :=
  <["alpha" := PFloat (3 # 2)]> (<["beta" := PFloat (21 # 10)]> ∅).

Definition get_test_params (parameter_set : string) : list (gmap string pyval) :=
  [params1; params2; params3].

(** Shapes of argument values, as the fixture comments speak of them. *)
Definition is_scalar (v : pyval) : bool :=
  match v with PInt _ | PFloat _ => true | _ => false end.

Definition is_array (v : pyval) : bool :=
  match v with PList _ => true | _ => false end.

Definition array_case (d : gmap string pyval) : bool :=
  match d !! "alpha", d !! "beta" with
  | Some a, Some b => is_array a && is_array b
  | _, _ => false
  end.

Definition scalar_case (d : gmap string pyval) : bool :=
  match d !! "alpha", d !! "beta" with
  | Some a, Some b => is_scalar a && is_scalar b
  | _, _ => false
  end.

Definition has_indices (d : gmap string pyval) : bool :=
  bool_decide (is_Some (d !! "index")) && bool_decide (is_Some (d !! "columns")).

Definition no_indices (d : gmap string pyval) : bool :=
  bool_decide (d !! "index" = None) && bool_decide (d !! "columns" = None).

(** *** Errors and results

    The error kinds are those the specification lists for construction and
    for queries; [KeyError] is Python's own, raised by a failed dict
    lookup. *)
Inductive axis := Rows | Columns.

Inductive error :=
| ShapeError (dim : axis) (have want : nat)
| DomainError (param : string)
| UnsupportedStatisticError (stat : string)
| KeyError (key : string).

Inductive result (A : Type) :=
| Ok (a : A)
| Err (e : error).
Arguments Ok {A} a.
Arguments Err {A} e.

#[export] Instance result_ret : MRet result := fun A a => Ok a.
#[export] Instance result_bind : MBind result := fun A B f m =>
  match m with
  | Ok a => f a
  | Err e => Err e
  end.

(** *** Raw parameters *)

(** A raw parameter is a scalar, a 1-D sequence or a 2-D array of numbers;
    an array of numbers holds floats, so an integer literal stands for the
    number it denotes. *)
Inductive raw :=
| Scalar (x : Q)
| Seq (xs : list Q)
| Arr (rows : list (list Q)).

Definition number (v : pyval) : option Q :=
  match v with
  | PInt z => Some (inject_Z z)
  | PFloat q => Some q
  | _ => None
  end.

Definition number_row (v : pyval) : option (list Q) :=
  match v with
  | PList ys => mapM number ys
  | _ => None
  end.

Definition as_raw (v : pyval) : option raw :=
  match v with
  | PInt _ | PFloat _ => Scalar <$> number v
  | PList items =>
      match mapM number items with
      | Some xs => Some (Seq xs)
      | None => Arr <$> mapM number_row items
      end
  | _ => None
  end.

(** An optional index argument: absent or [None], or a sequence of labels. *)
Definition as_index (v : option pyval) : option (option (list pyval)) :=
  match v with
  | None | Some PNone => Some None
  | Some (PIndex labels) | Some (PList labels) => Some (Some labels)
  | Some _ => None
  end.

(** *** The parameter broadcaster *)

Definition shape : Type := nat * nat.
Definition tensor : Type := list (list Q).

(** Modelled from the spec: the shape a raw parameter contributes to
    broadcasting; the base class that computes it is not among the sources.
    A dimension that is absent is implied as 1, and under the standard
    rule the absent dimensions are the leading ones, so a 1-D sequence is
    one row.  Rows of unequal length do not form a 2-D array. *)
Definition raw_shape (r : raw) : result shape :=
  match r with
  | Scalar _ => Ok (1, 1)
  | Seq xs => Ok (1, length xs)
  | Arr [] => Ok (0, 0)
  | Arr (r0 :: rest) =>
      match filter (fun r => length r ≠ length r0) rest with
      | [] => Ok (S (length rest), length r0)
      | bad :: _ => Err (ShapeError Columns (length r0) (length bad))
      end
  end.

(** Modelled from the spec: two-operand broadcasting of one dimension, which
    either matches or is 1 on one side. *)
Definition broadcast_dim (d : axis) (a b : nat) : result nat :=
  if decide (a = b) then Ok a
  else if decide (a = 1) then Ok b
  else if decide (b = 1) then Ok a
  else Err (ShapeError d a b).

Definition broadcast_shapes (s t : shape) : result shape :=
  r ← broadcast_dim Rows s.1 t.1;
  c ← broadcast_dim Columns s.2 t.2;
  mret (r, c).

(** Modelled from the spec: the rule applied pairwise across all
    parameters; a dimension that nothing constrains is 1. *)
Fixpoint broadcast_all (rs : list raw) : result shape :=
  match rs with
  | [] => Ok (1, 1)
  | r :: rest =>
      s ← raw_shape r;
      t ← broadcast_all rest;
      broadcast_shapes s t
  end.

(** Modelled from the spec: an explicit index must be as long as the
    broadcast dimension, or the dimension must be 1 and is then expanded to
    the length of the index; any other mismatch is a ShapeError naming the
    dimension and the two values. *)
Definition expand_dim (d : axis) (bc : nat) (idx : option (list pyval)) : result nat :=
  match idx with
  | None => Ok bc
  | Some labels =>
      if decide (length labels = bc) then Ok bc
      else if decide (bc = 1) then Ok (length labels)
      else Err (ShapeError d bc (length labels))
  end.

(** Modelled from the spec: the default index is the dense range from 0. *)
Definition range_index (n : nat) : list pyval :=
  (fun i => PInt (Z.of_nat i)) <$> seq 0 n.

Definition index_or_default (idx : option (list pyval)) (n : nat) : list pyval :=
  match idx with
  | Some labels => labels
  | None => range_index n
  end.

(** Modelled from the spec: the value a raw parameter gives to cell (i, j);
    a dimension of size 1 is stretched. *)
Definition stretch {A} (l : list A) (i : nat) : option A :=
  l !! (if decide (length l = 1) then 0 else i).

Definition cell (r : raw) (i j : nat) : option Q :=
  match r with
  | Scalar x => Some x
  | Seq xs => stretch xs j
  | Arr rows => row ← stretch rows i; stretch row j
  end.

Definition broadcast_to (r : raw) (s : shape) : option tensor :=
  mapM (fun i => mapM (fun j => cell r i j) (seq 0 s.2)) (seq 0 s.1).

Fixpoint broadcast_params (ps : list (string * raw)) (s : shape)
  : option (gmap string tensor) :=
  match ps with
  | [] => Some ∅
  | (name, r) :: rest =>
      t ← broadcast_to r s;
      m ← broadcast_params rest s;
      Some (<[name := t]> m)
  end.

(** Modelled from the spec: [broadcast], the contract of the parameter
    broadcaster (section 4.1), which the base-class constructor runs. *)
Definition broadcast (ps : list (string * raw)) (row_index col_index : option (list pyval))
  : result (gmap string tensor * list pyval * list pyval) :=
  bc ← broadcast_all ps.*2;
  rows ← expand_dim Rows bc.1 row_index;
  cols ← expand_dim Columns bc.2 col_index;
  match broadcast_params ps (rows, cols) with
  | Some m => Ok (m, index_or_default row_index rows, index_or_default col_index cols)
  | None => Err (ShapeError Rows bc.1 rows)
  end.

(** *** The class *)

(** An instance: [self.alpha] and [self.beta] as given, and what the base
    class derives from them. *)
Record InverseGamma := {
  alpha : raw;
  beta : raw;
  index : list pyval;
  columns : list pyval;
  _bc_params : gmap string tensor
}.

Definition grid_shape (self : InverseGamma) : shape :=
  (length (index self), length (columns self)).

(** [__init__(self, alpha, beta, index=None, columns=None)]: stores the two
    parameters and hands over to the base class, which is not among the
    sources.  Of the base class only the broadcasting of the parameters
    against the indices is modelled, from the specification; the body of
    [__init__] checks nothing itself, and whether the base class or the
    scipy adapter rejects a parameter value is not modelled and nothing
    below depends on it. *)
Definition __init__ (alpha beta : raw) (index columns : option (list pyval))
  : result InverseGamma :=
  '(bc, idx, cols) ← broadcast [("alpha", alpha); ("beta", beta)] index columns;
  mret {| alpha := alpha; beta := beta; index := idx; columns := cols;
          _bc_params := bc |}.

(** A call of the class with the keyword arguments of a dict; [None] when
    the arguments are not numbers, sequences or arrays of numbers. *)
Definition construct (kwargs : gmap string pyval) : option (result InverseGamma) :=
  a ← kwargs !! "alpha" ≫= as_raw;
  b ← kwargs !! "beta" ≫= as_raw;
  i ← as_index (kwargs !! "index");
  c ← as_index (kwargs !! "columns");
  Some (__init__ a b i c).

Definition getitem {A} (d : gmap string A) (key : string) : result A :=
  match d !! key with
  | Some v => Ok v
  | None => Err (KeyError key)
  end.

(** [_get_scipy_param(self)]. *)
Definition _get_scipy_param (self : InverseGamma)
  : result (list tensor * gmap string tensor) :=
  alpha ← getitem (_bc_params self) "alpha";
  beta ← getitem (_bc_params self) "beta";
  let scale := beta in
  mret ([], <["a" := alpha]> (<["scale" := scale]> ∅)).

(** The parameter value a grid holds at a cell. *)
Definition param_at (self : InverseGamma) (name : string) (i j : nat) : option Q :=
  t ← _bc_params self !! name;
  row ← t !! i;
  row !! j.

(** When a dimension of size [n] fits a target of size [R]: it matches, or
    it is 1 and is stretched. *)
Definition fits (n R : nat) : Prop := n = R \/ n = 1.

End InverseGamma.

(** ** The data manager ([skpro/workflow/manager/data.py]) *)

Module DataManager.

(** Locations of the store. *)
Abbreviation loc := nat.

(** Python values held by the attributes of a manager.  An array is a
    reference into the store. *)
Inductive value :=
| VNone
| VBool (b : bool)
| VInt (z : Z)
| VFloat (q : Q)
| VStr (s : string)
| VRef (l : loc).

Inductive exn :=
| ValueError (msg : string)
| TypeError
| AttributeError (name : string)
| ExternalError (what : string).

Inductive outcome (A : Type) :=
| Return (a : A)
| Raise (e : exn).
Arguments Return {A} a.
Arguments Raise {A} e.

(** [str.lower] on the letters A to Z; no other character lowers to a letter
    of the two dataset names. *)
Definition lower_ascii (c : ascii) : ascii :=
  let n := nat_of_ascii c in
  if (65 <=? n)%nat && (n <=? 90)%nat then ascii_of_nat (n + 32) else c.

Fixpoint lower (s : string) : string :=
  match s with
  | EmptyString => EmptyString
  | String c rest => String (lower_ascii c) (lower rest)
  end.

Definition isinstance_str (v : value) : bool :=
  match v with VStr _ => true | _ => false end.

Definition isinstance_float (v : value) : bool :=
  match v with VFloat _ => true | _ => false end.

Definition is_None (v : value) : bool :=
  match v with VNone => true | _ => false end.

Section Model.

(** The elements of an array along its first axis, and the state of numpy's
    global random generator. *)
Variable item : Type.
Variable Rng : Type.

(** A numpy array: its elements along the first axis, or a 0-d array
    wrapping one Python object, which is what [np.copy] makes of a value
    that is not an array. *)
Inductive ndarray :=
| NdItems (items : list item)
| Nd0 (v : value).

(** An object of the store: an array, or an instance with its attribute
    dictionary. *)
Inductive obj :=
| OArray (a : ndarray)
| OInstance (d : gmap string value).

Record world := World {
  heap : list obj;
  rng : Rng
}.

(** What a library routine sees of an argument: the value itself, or the
    object it refers to. *)
Definition deref (h : list obj) (v : value) : value + obj :=
  match v with
  | VRef l =>
      match h !! l with
      | Some o => inr o
      | None => inl v
      end
  | _ => inl v
  end.

(** [sklearn.model_selection.train_test_split(X, y, test_size=, random_state=)]:
    it returns four new arrays or raises, and may advance the global
    generator.  [load_boston(return_X_y=True)] and
    [load_diabetes(return_X_y=True)] return the features and the labels of
    a dataset. *)
Variable train_test_split :
  Rng -> value + obj -> value + obj -> value -> value ->
  Rng * (exn + (ndarray * ndarray * ndarray * ndarray)).
Variable load_boston : list item * list item.
Variable load_diabetes : list item * list item.

(** *** Computations on the store, which may raise *)

Definition M (A : Type) : Type := world -> outcome A * world.

Definition ret {A} (a : A) : M A := fun w => (Return a, w).

Definition bind {A B} (m : M A) (f : A -> M B) : M B := fun w =>
  match m w with
  | (Return a, w') => f a w'
  | (Raise e, w') => (Raise e, w')
  end.

Definition raise {A} (e : exn) : M A := fun w => (Raise e, w).

(** [try: body except: handler], with a bare [except]. *)
Definition try_except {A} (body handler : M A) : M A := fun w =>
  match body w with
  | (Return a, w') => (Return a, w')
  | (Raise _, w') => handler w'
  end.

Notation "x <- m ;; k" := (bind m (fun x => k))
  (at level 100, m at next level, right associativity).
Notation "m ;;; k" := (bind m (fun _ => k))
  (at level 100, right associativity).

Definition alloc (o : obj) : M loc := fun w =>
  (Return (length (heap w)), World (heap w ++ [o]) (rng w)).

Definition getattr (self : loc) (name : string) : M value := fun w =>
  match heap w !! self with
  | Some (OInstance d) =>
      match d !! name with
      | Some v => (Return v, w)
      | None => (Raise (AttributeError name), w)
      end
  | _ => (Raise (AttributeError name), w)
  end.

Definition setattr (self : loc) (name : string) (v : value) : M unit := fun w =>
  match heap w !! self with
  | Some (OInstance d) =>
      (Return tt, World (<[self := OInstance (<[name := v]> d)]> (heap w)) (rng w))
  | _ => (Raise (AttributeError name), w)
  end.

(** [len(v)]: the number of characters of a string, the size of the first
    axis of an array; a 0-d array is unsized, and the other values have no
    length. *)
Definition len_in (h : list obj) (v : value) : option nat :=
  match v with
  | VStr s => Some (String.length s)
  | VRef l =>
      match h !! l with
      | Some (OArray (NdItems items)) => Some (length items)
      | _ => None
      end
  | _ => None
  end.

Definition len (v : value) : M nat := fun w =>
  match len_in (heap w) v with
  | Some n => (Return n, w)
  | None => (Raise TypeError, w)
  end.

(** [np.copy(v)]: a new array with the contents of an array, or a new 0-d
    array wrapping a value that is not an array. *)
Definition np_copy (v : value) : M value := fun w =>
  match deref (heap w) v with
  | inr (OArray a) => bind (alloc (OArray a)) (fun l => ret (VRef l)) w
  | _ => bind (alloc (OArray (Nd0 v))) (fun l => ret (VRef l)) w
  end.

Definition call_train_test_split (X y test_size random_state : value)
  : M (value * value * value * value) := fun w =>
  match train_test_split (rng w) (deref (heap w) X) (deref (heap w) y)
          test_size random_state with
  | (g, inl e) => (Raise e, World (heap w) g)
  | (g, inr (a, b, c, d)) =>
      (la <- alloc (OArray a) ;;
       lb <- alloc (OArray b) ;;
       lc <- alloc (OArray c) ;;
       ld <- alloc (OArray d) ;;
       ret (VRef la, VRef lb, VRef lc, VRef ld)) (World (heap w) g)
  end.

Definition call_loader (dataset : list item * list item) : M (value * value) :=
  lX <- alloc (OArray (NdItems dataset.1)) ;;
  ly <- alloc (OArray (NdItems dataset.2)) ;;
  ret (VRef lX, VRef ly).

(** *** The class *)

(** [_split(self)]. *)
Definition _split (self : loc) : M unit :=
  split <- getattr self "split" ;;
  if negb (isinstance_float split) then ret tt else
  X <- getattr self "_X" ;;
  if is_None X then ret tt else
  y <- getattr self "_y" ;;
  if is_None y then ret tt else
  n <- len X ;;
  m <- len y ;;
  if negb (n =? m)%nat then ret tt else
  X <- getattr self "_X" ;;
  y <- getattr self "_y" ;;
  test_size <- getattr self "split" ;;
  random_state <- getattr self "random_state" ;;
  r <- call_train_test_split X y test_size random_state ;;
  let '(X_train, X_test, y_train, y_test) := r in
  setattr self "X_train" X_train ;;;
  setattr self "X_test" X_test ;;;
  setattr self "y_train" y_train ;;;
  setattr self "y_test" y_test.

(** The property [X]: getter and setter. *)
Definition X (self : loc) : M value := getattr self "_X".

Definition set_X (self : loc) (v : value) : M unit :=
  setattr self "_X" v ;;;
  _split self.

(** The property [y]: getter and setter. *)
Definition y (self : loc) : M value := getattr self "_y".

Definition set_y (self : loc) (v : value) : M unit :=
  setattr self "_y" v ;;;
  _split self.

(** [__init__(self, X=None, y=None, split=0.2, name=None, random_state=None)]. *)
Definition __init__ (self : loc) (X y split name random_state : value) : M unit :=
  args <-
    match X with
    | VStr s =>
        if decide (lower s = "boston") then
          r <- call_loader load_boston ;; ret (r.1, r.2, X)
        else if decide (lower s = "diabetes") then
          r <- call_loader load_diabetes ;; ret (r.1, r.2, X)
        else raise (ValueError ("'" +:+ s +:+ "' is not a valid dataset"))
    | _ => ret (X, y, name)
    end ;;
  let '(X, y, name) := args in
  setattr self "random_state" random_state ;;;
  setattr self "split" split ;;;
  setattr self "_X" VNone ;;;
  setattr self "_y" VNone ;;;
  setattr self "X_train" VNone ;;;
  setattr self "X_test" VNone ;;;
  setattr self "y_train" VNone ;;;
  setattr self "y_test" VNone ;;;
  set_X self X ;;;
  set_y self y ;;;
  setattr self "name" (if isinstance_str name then name else VStr "Unnamed").

(** A call of the class: a new instance without attributes, initialised. *)
Definition DataManager (X y split name random_state : value) : M loc :=
  self <- alloc (OInstance ∅) ;;
  __init__ self X y split name random_state ;;;
  ret self.

(** What [data] returns: the pair, or [False]. *)
Inductive data_result :=
| Pair (X y : value)
| False_.

(** [data(self, copy=True)]. *)
Definition data (self : loc) (copy : bool) : M data_result :=
  if negb copy then
    a <- X self ;; b <- y self ;; ret (Pair a b)
  else
    try_except
      (a <- getattr self "_X" ;;
       X_ <- np_copy a ;;
       b <- getattr self "_y" ;;
       y_ <- np_copy b ;;
       ret (Pair X_ y_))
      (ret False_).

(** [clone(self)]; unpacking [False] into two names is a TypeError. *)
Definition clone (self : loc) : M loc :=
  r <- data self true ;;
  match r with
  | Pair X y =>
      split <- getattr self "split" ;;
      name <- getattr self "name" ;;
      DataManager X y split name VNone
  | False_ => raise TypeError
  end.

(** [np.random.shuffle(data)] on a list of pairs: the list in its new
    order, and the global generator advanced. *)
Variable np_random_shuffle : Rng -> list (item * item) -> Rng * list (item * item).

Definition call_np_random_shuffle (data : list (item * item))
  : M (list (item * item)) := fun w =>
  let '(g, data') := np_random_shuffle (rng w) data in
  (Return data', World (heap w) g).

(** Iterating over an array yields its elements along the first axis; a 0-d
    array cannot be iterated over. *)
Definition iter (v : value) : M (list item) := fun w =>
  match deref (heap w) v with
  | inr (OArray (NdItems items)) => (Return items, w)
  | _ => (Raise TypeError, w)
  end.

(** [np.array(t)] on a tuple of elements: a new array holding them. *)
Definition np_array (items : list item) : M value :=
  l <- alloc (OArray (NdItems items)) ;; ret (VRef l).

(** [shuffle(self, random_state=None)].  [zip] stops at the shorter of its
    two arguments, and unpacking [zip( *data)] into two names needs at least
    one pair. *)
Definition shuffle (self : loc) (random_state : value) : M unit :=
  (if negb (is_None random_state)
   then setattr self "random_state" random_state
   else ret tt) ;;;
  a <- X self ;;
  X_ <- np_copy a ;;
  b <- y self ;;
  y_ <- np_copy b ;;
  xs <- iter X_ ;;
  ys <- iter y_ ;;
  data <- call_np_random_shuffle (zip xs ys) ;;
  match data with
  | [] => raise (ValueError "not enough values to unpack (expected 2, got 0)")
  | _ :: _ =>
      newX <- np_array data.*1 ;;
      newy <- np_array data.*2 ;;
      set_X self newX ;;;
      set_y self newy
  end.

(** Reading an attribute of an instance in a world. *)
Definition attr (w : world) (self : loc) (name : string) : option value :=
  match heap w !! self with
  | Some (OInstance d) => d !! name
  | _ => None
  end.

(** The contents of the array a value refers to. *)
Definition array_at (w : world) (v : value) : option ndarray :=
  match deref (heap w) v with
  | inr (OArray a) => Some a
  | _ => None
  end.

(** The two outcomes of the guards of [_split], for the values of [split],
    [_X] and [_y] in a store. *)
Definition guard_fails (h : list obj) (split X y : value) : Prop :=
  isinstance_float split = false \/ X = VNone \/ y = VNone \/
  exists n m, len_in h X = Some n /\ len_in h y = Some m /\ n <> m.

Definition guard_holds (h : list obj) (split X y : value) (n : nat) : Prop :=
  isinstance_float split = true /\ X <> VNone /\ y <> VNone /\
  len_in h X = Some n /\ len_in h y = Some n.

(** The attributes after the tuple assignment of [_split], when the four
    new arrays are the objects allocated from location [l] on. *)
Definition with_split (d : gmap string value) (l : loc) : gmap string value :=
  <["y_test" := VRef (l + 3)]> (
  <["y_train" := VRef (l + 2)]> (
  <["X_test" := VRef (l + 1)]> (
  <["X_train" := VRef l]> d))).

(** The attributes after the first eight assignments of [__init__]. *)
Definition init_attrs (d : gmap string value) (random_state split : value)
  : gmap string value :=
  <["y_test" := VNone]> (
  <["y_train" := VNone]> (
  <["X_test" := VNone]> (
  <["X_train" := VNone]> (
  <["_y" := VNone]> (
  <["_X" := VNone]> (
  <["split" := split]> (
  <["random_state" := random_state]> d))))))).

(** The name [__init__] stores. *)
Definition stored_name (name : value) : value :=
  if isinstance_str name then name else VStr "Unnamed".

(** The store in which the instance at [self] holds the attributes [d] and
    the objects [ext] were allocated after those of [h]. *)
Definition nf (h : list obj) (self : loc) (d : gmap string value)
    (ext : list obj) (g : Rng) : world :=
  World (<[self := OInstance d]> h ++ ext) g.

(** The four attributes [_split] assigns. *)
Definition split_attrs : list string := ["X_train"; "X_test"; "y_train"; "y_test"].

(** What a method that may assign the attributes [names] of the instance at
    [self] leaves of an object [o] at [l]: an array and every other instance
    are as they were, and the instance at [self] is an instance that agrees
    with the old one on every other attribute. *)
Definition same_object (self : loc) (names : list string) (l : loc) (o o' : obj)
  : Prop :=
  match o with
  | OInstance d =>
      if decide (l = self) then
        exists d', o' = OInstance d' /\ forall k, k ∉ names -> d' !! k = d !! k
      else o' = o
  | OArray _ => o' = o
  end.

Definition modifies (self : loc) (names : list string) (w w' : world) : Prop :=
  forall l o, heap w !! l = Some o ->
    exists o', heap w' !! l = Some o' /\ same_object self names l o o'.

(** Every object of [w] is in [w'], at its location and as it was. *)
Definition preserves (w w' : world) : Prop :=
  forall l o, heap w !! l = Some o -> heap w' !! l = Some o.

(** A property of the store before and after a computation, whatever its
    outcome. *)
Definition always {A} (R : world -> world -> Prop) (m : M A) : Prop :=
  forall w, R w (m w).2.

(** The two calls of the split routine that the assignments ending
    [shuffle] make return: the first, on the new X and the old y, is made
    when the split is a float and the two have equal lengths; the second,
    on the new X and the new y and with the generator as the first left
    it, is made when the split is a float.  [data] is the list of pairs
    after shuffling, [ys] the old y, [g1] the generator after shuffling. *)
Definition shuffle_splits_return (s seed : value) (g1 : Rng)
    (data : list (item * item)) (ys : list item) : Prop :=
  let newX := inr (OArray (NdItems data.*1)) in
  let newy := inr (OArray (NdItems data.*2)) in
  let oldy := inr (OArray (NdItems ys)) in
  let g2 := if isinstance_float s && (length data =? length ys)%nat
            then (train_test_split g1 newX oldy s seed).1 else g1 in
  (isinstance_float s = true -> length data = length ys ->
   forall g' e, train_test_split g1 newX oldy s seed <> (g', inl e))
  /\ (isinstance_float s = true ->
      forall g' e, train_test_split g2 newX newy s seed <> (g', inl e)).

(** A sized array, as [len] and [zip] see it. *)
Definition items_at (h : list obj) (v : value) : option (list item) :=
  match deref h v with
  | inr (OArray (NdItems items)) => Some items
  | _ => None
  end.

End Model.

Arguments NdItems {item} items.
Arguments Nd0 {item} v.
Arguments OArray {item} a.
Arguments OInstance {item} d.
Arguments World {item Rng} heap rng.
Arguments heap {item Rng} w.
Arguments rng {item Rng} w.
Arguments attr {item Rng} w self name.
Arguments array_at {item Rng} w v.
Arguments deref {item} h v.
Arguments len_in {item} h v.
Arguments guard_fails {item} h split X y.
Arguments nf {item Rng} h self d ext g.
Arguments guard_holds {item} h split X y n.
Arguments same_object {item} self names l o o'.
Arguments modifies {item Rng} self names w w'.
Arguments preserves {item Rng} w w'.
Arguments always {item Rng A} R m.
Arguments items_at {item} h v.
Arguments shuffle_splits_return {item Rng} train_test_split s seed g1 data ys.

End DataManager.

(** ** A small environment to run the data manager in

    Arrays of integers, a counter for the random generator, and a splitter
    that rejects a test size of 1 or more, puts the first element in the
    test part, and advances the generator when it is given no seed. *)

Module Fixture.
Import DataManager.

Definition split (g : nat) (X y : value + obj Z) (test_size random_state : value)
  : nat * (exn + (ndarray Z * ndarray Z * ndarray Z * ndarray Z)) :=
  match X, y, test_size with
  | inr (OArray (NdItems xs)), inr (OArray (NdItems ys)), VFloat q =>
      if Qle_bool 1 q then (g, inl (ValueError "test_size"))
      else (match random_state with VNone => S g | _ => g end,
            inr (NdItems (skipn 1 xs), NdItems (firstn 1 xs),
                 NdItems (skipn 1 ys), NdItems (firstn 1 ys)))
  | _, _, _ => (g, inl TypeError)
  end.

Definition boston : list Z * list Z := ([1; 2; 3]%Z, [10; 20; 30]%Z).
Definition diabetes : list Z * list Z := ([4; 5]%Z, [40; 50]%Z).

Definition empty_world : world Z nat := World [] 0.

(** A store with two arrays of three elements and a manager that holds the
    second one as its labels and has no features yet. *)
Definition manager_attrs : gmap string value :=
  <["name" := VStr "Unnamed"]> (
  <["_y" := VRef 1]> (init_attrs ∅ (VInt 0) (VFloat (1 # 5)))).

Definition two_arrays : world Z nat :=
  World [OArray (NdItems [1; 2; 3]%Z); OArray (NdItems [7; 8; 9]%Z);
         OInstance manager_attrs] 0.

(** A splitter that never raises: the first element goes to the test part
    whatever the test size, and what is not a sized array is split into
    empty parts. *)
Definition parts (X : value + obj Z) : ndarray Z * ndarray Z :=
  match X with
  | inr (OArray (NdItems xs)) => (NdItems (skipn 1 xs), NdItems (firstn 1 xs))
  | _ => (NdItems [], NdItems [])
  end.

Definition total_split (g : nat) (X y : value + obj Z) (test_size random_state : value)
  : nat * (exn + (ndarray Z * ndarray Z * ndarray Z * ndarray Z)) :=
  (S g, inr ((parts X).1, (parts X).2, (parts y).1, (parts y).2)).

(** A shuffle that reverses the list and advances the generator. *)
Definition reversing (g : nat) (data : list (Z * Z)) : nat * list (Z * Z) :=
  (S g, reverse data).

(** A manager that holds both arrays of [two_arrays]. *)
Definition full_attrs : gmap string value :=
  <["_X" := VRef 0]> manager_attrs.

Definition full_manager : world Z nat :=
  World [OArray (NdItems [1; 2; 3]%Z); OArray (NdItems [7; 8; 9]%Z);
         OInstance full_attrs] 0.

End Fixture.

(** ** Facts about the broadcaster *)

Module IGFacts.
Import InverseGamma.

Lemma bind_ok {A B} (m : result A) (f : A -> result B) (b : B) :
  m ≫= f = Ok b <-> exists a, m = Ok a /\ f a = Ok b.
Proof.
  destruct m as [a | e]; cbn; split.
  - intros H. exists a. split; [reflexivity | exact H].
  - intros (a' & Ha & Hf). injection Ha as ->. exact Hf.
  - discriminate.
  - intros (a' & Ha & _). discriminate.
Qed.









Lemma expand_dim_fits d bc idx R :
  expand_dim d bc idx = Ok R ->
  fits bc R /\ length (index_or_default idx R) = R.
Proof.
  unfold expand_dim, fits, index_or_default, range_index.
  destruct idx as [labels |].
  - repeat case_decide; intros [= <-]; subst; auto.
  - intros [= <-]. rewrite length_fmap, length_seq. auto.
Qed.



End IGFacts.

(** ** Facts about the store and the setters *)

Module DMFacts.
Import DataManager.

Section Facts.
Context {item Rng : Type}.
Variable tts : Rng -> value + obj item -> value + obj item -> value -> value ->
  Rng * (exn + (ndarray item * ndarray item * ndarray item * ndarray item)).
Variable lb ld : list item * list item.

Implicit Types (h ext : list (obj item)) (d : gmap string value) (g : Rng)
  (self : loc) (v : value).

Lemma nf_self h self d0 d ext g :
  h !! self = Some (OInstance d0) ->
  heap (nf h self d ext g) !! self = Some (OInstance d).
Proof.
  intros H. unfold nf. cbn.
  apply lookup_lt_Some in H as Hlt.
  rewrite lookup_app_l by (rewrite length_insert; exact Hlt).
  apply list_lookup_insert_eq. exact Hlt.
Qed.

Lemma nf_id (w : world item Rng) self d :
  heap w !! self = Some (OInstance d) -> w = nf (heap w) self d [] (rng w).
Proof.
  intros H. unfold nf. rewrite app_nil_r, list_insert_id by exact H.
  destruct w. reflexivity.
Qed.

Lemma getattr_nf h self d0 d ext g name v :
  h !! self = Some (OInstance d0) -> d !! name = Some v ->
  getattr item Rng self name (nf h self d ext g) = (Return v, nf h self d ext g).
Proof.
  intros H Hv. unfold getattr. rewrite (nf_self _ _ _ _ _ _ H), Hv. reflexivity.
Qed.

Lemma setattr_nf h self d0 d ext g name v :
  h !! self = Some (OInstance d0) ->
  setattr item Rng self name v (nf h self d ext g)
  = (Return tt, nf h self (<[name := v]> d) ext g).
Proof.
  intros H. unfold setattr. rewrite (nf_self _ _ _ _ _ _ H).
  unfold nf. cbn. f_equal. f_equal.
  apply lookup_lt_Some in H as Hlt.
  rewrite insert_app_l by (rewrite length_insert; exact Hlt).
  rewrite list_insert_insert_eq. reflexivity.
Qed.

Lemma alloc_nf h self d ext g o :
  alloc item Rng o (nf h self d ext g)
  = (Return (length h + length ext), nf h self d (ext ++ [o]) g).
Proof.
  unfold alloc, nf. cbn. rewrite length_app, length_insert, app_assoc. reflexivity.
Qed.

Lemma heap_nf h self d0 d ext g :
  h !! self = Some (OInstance d0) ->
  heap (nf h self d ext g) = <[self := OInstance d]> (h ++ ext).
Proof.
  intros H. unfold nf. cbn. apply lookup_lt_Some in H.
  rewrite insert_app_l by exact H. reflexivity.
Qed.

Lemma len_in_nf h self d0 d ext g v :
  h !! self = Some (OInstance d0) ->
  len_in (heap (nf h self d ext g)) v = len_in (h ++ ext) v.
Proof.
  intros H. rewrite (heap_nf _ _ _ _ _ _ H).
  destruct v; cbn [len_in]; try reflexivity.
  destruct (decide (self = l)) as [<- | Hne].
  - apply lookup_lt_Some in H as Hlt.
    rewrite list_lookup_insert_eq by (rewrite length_app; lia).
    rewrite lookup_app_l, H by exact Hlt. reflexivity.
  - rewrite list_lookup_insert_ne by exact Hne. reflexivity.
Qed.

Lemma deref_nf h self d0 d ext g v n :
  h !! self = Some (OInstance d0) -> len_in (h ++ ext) v = Some n ->
  deref (heap (nf h self d ext g)) v = deref (h ++ ext) v.
Proof.
  intros H Hn. rewrite (heap_nf _ _ _ _ _ _ H).
  destruct v; cbn [len_in deref] in *; try reflexivity.
  destruct (decide (self = l)) as [<- | Hne].
  - apply lookup_lt_Some in H as Hlt.
    rewrite lookup_app_l, H in Hn by exact Hlt. discriminate.
  - rewrite list_lookup_insert_ne by exact Hne. reflexivity.
Qed.

Lemma len_nf h self d0 d ext g v n :
  h !! self = Some (OInstance d0) -> len_in (h ++ ext) v = Some n ->
  len item Rng v (nf h self d ext g) = (Return n, nf h self d ext g).
Proof.
  intros H Hn. unfold len. rewrite (len_in_nf _ _ _ _ _ _ _ H), Hn. reflexivity.
Qed.

Lemma len_in_app h ext v n : len_in h v = Some n -> len_in (h ++ ext) v = Some n.
Proof.
  destruct v; cbn [len_in]; try discriminate; [auto |].
  destruct (h !! l) eqn:Hl; [| discriminate].
  apply lookup_lt_Some in Hl as Hlt.
  rewrite lookup_app_l, Hl by exact Hlt. auto.
Qed.

Lemma deref_app h ext v n : len_in h v = Some n -> deref (h ++ ext) v = deref h v.
Proof.
  destruct v; cbn [len_in deref]; try discriminate; [auto |].
  destruct (h !! l) eqn:Hl; [| discriminate].
  apply lookup_lt_Some in Hl as Hlt.
  rewrite lookup_app_l, Hl by exact Hlt. auto.
Qed.

Lemma guard_fails_app h ext s x yv :
  guard_fails h s x yv -> guard_fails (h ++ ext) s x yv.
Proof.
  unfold guard_fails. intros [H | [H | [H | (n & m & Hn & Hm & Hne)]]]; auto.
  right. right. right. exists n, m. eauto using len_in_app.
Qed.

Lemma guard_holds_app h ext s x yv n :
  guard_holds h s x yv n -> guard_holds (h ++ ext) s x yv n.
Proof.
  unfold guard_holds. intros (? & ? & ? & ? & ?). eauto 10 using len_in_app.
Qed.

Lemma is_None_false v : v <> VNone -> is_None v = false.
Proof. destruct v; cbn; congruence. Qed.

Ltac run_getattr H :=
  erewrite (getattr_nf _ _ _ _ _ _ _ _ H) by eassumption; cbv beta iota.

Lemma split_skip_nf h self d0 d ext g s x yv :
  h !! self = Some (OInstance d0) ->
  d !! "split" = Some s -> d !! "_X" = Some x -> d !! "_y" = Some yv ->
  guard_fails (h ++ ext) s x yv ->
  _split item Rng tts self (nf h self d ext g) = (Return tt, nf h self d ext g).
Proof.
  intros H Hs Hx Hy Hg. unfold _split, bind.
  run_getattr H.
  destruct (isinstance_float s) eqn:Hf; cbn [negb]; [| reflexivity].
  run_getattr H.
  destruct (is_None x) eqn:Hnx; [reflexivity |].
  run_getattr H.
  destruct (is_None yv) eqn:Hny; [reflexivity |].
  destruct Hg as [Hg | [-> | [-> | (n & m & Hn & Hm & Hne)]]];
    try (cbn in *; congruence).
  rewrite (len_nf _ _ _ _ _ _ _ _ H Hn). cbv beta iota.
  rewrite (len_nf _ _ _ _ _ _ _ _ H Hm). cbv beta iota.
  apply Nat.eqb_neq in Hne. rewrite Hne. reflexivity.
Qed.

Lemma call_split_nf h self d0 d ext g X yv ts rs n m g' a b c e :
  h !! self = Some (OInstance d0) ->
  len_in (h ++ ext) X = Some n -> len_in (h ++ ext) yv = Some m ->
  tts g (deref (h ++ ext) X) (deref (h ++ ext) yv) ts rs = (g', inr (a, b, c, e)) ->
  call_train_test_split item Rng tts X yv ts rs (nf h self d ext g)
  = (Return (VRef (length (h ++ ext)), VRef (length (h ++ ext) + 1),
             VRef (length (h ++ ext) + 2), VRef (length (h ++ ext) + 3)),
     nf h self d (ext ++ [OArray a; OArray b; OArray c; OArray e]) g').
Proof.
  intros H Hn Hm Ht. unfold call_train_test_split.
  rewrite (deref_nf _ _ _ _ _ _ _ _ H Hn), (deref_nf _ _ _ _ _ _ _ _ H Hm).
  cbn [rng nf]. rewrite Ht.
  change (World (heap (nf h self d ext g)) g') with (nf h self d ext g').
  unfold bind. rewrite alloc_nf. cbv beta iota.
  rewrite alloc_nf. cbv beta iota. rewrite alloc_nf. cbv beta iota.
  rewrite alloc_nf. cbv beta iota. unfold ret.
  rewrite !length_app. cbn [length]. rewrite <- !app_assoc. cbn [app].
  replace (length h + (length ext + 1)) with (length h + length ext + 1) by lia.
  replace (length h + (length ext + 1 + 1)) with (length h + length ext + 2) by lia.
  replace (length h + (length ext + 1 + 1 + 1)) with (length h + length ext + 3) by lia.
  reflexivity.
Qed.

Lemma split_run_nf h self d0 d ext g s x yv rs n g' a b c e :
  h !! self = Some (OInstance d0) ->
  d !! "split" = Some s -> d !! "_X" = Some x -> d !! "_y" = Some yv ->
  d !! "random_state" = Some rs ->
  guard_holds (h ++ ext) s x yv n ->
  tts g (deref (h ++ ext) x) (deref (h ++ ext) yv) s rs = (g', inr (a, b, c, e)) ->
  _split item Rng tts self (nf h self d ext g)
  = (Return tt,
     nf h self (with_split d (length (h ++ ext)))
        (ext ++ [OArray a; OArray b; OArray c; OArray e]) g').
Proof.
  intros H Hs Hx Hy Hrs (Hf & Hnx & Hny & Hn & Hm) Ht. unfold _split, bind.
  run_getattr H. rewrite Hf. cbn [negb].
  run_getattr H. rewrite (is_None_false _ Hnx).
  run_getattr H. rewrite (is_None_false _ Hny).
  rewrite (len_nf _ _ _ _ _ _ _ _ H Hn). cbv beta iota.
  rewrite (len_nf _ _ _ _ _ _ _ _ H Hm). cbv beta iota.
  rewrite Nat.eqb_refl. cbn [negb].
  run_getattr H. run_getattr H. run_getattr H. run_getattr H.
  rewrite (call_split_nf _ _ _ _ _ _ _ _ _ _ _ _ _ _ _ _ _ H Hn Hm Ht).
  cbv beta iota.
  rewrite !(setattr_nf _ _ _ _ _ _ _ _ H). reflexivity.
Qed.

Lemma set_X_skip (w : world item Rng) self d s yv v :
  heap w !! self = Some (OInstance d) ->
  d !! "split" = Some s -> d !! "_y" = Some yv ->
  guard_fails (heap w) s v yv ->
  set_X item Rng tts self v w
  = (Return tt, World (<[self := OInstance (<["_X" := v]> d)]> (heap w)) (rng w)).
Proof.
  intros H Hs Hy Hg. rewrite (nf_id w self d H) at 1.
  unfold set_X, bind. rewrite (setattr_nf _ _ _ _ _ _ _ _ H). cbv beta iota.
  erewrite (split_skip_nf _ _ _ _ _ _ s v yv H);
    [| by simplify_map_eq | by simplify_map_eq | by simplify_map_eq
     | rewrite app_nil_r; exact Hg].
  unfold nf. rewrite app_nil_r. reflexivity.
Qed.

Lemma set_y_skip (w : world item Rng) self d s x v :
  heap w !! self = Some (OInstance d) ->
  d !! "split" = Some s -> d !! "_X" = Some x ->
  guard_fails (heap w) s x v ->
  set_y item Rng tts self v w
  = (Return tt, World (<[self := OInstance (<["_y" := v]> d)]> (heap w)) (rng w)).
Proof.
  intros H Hs Hx Hg. rewrite (nf_id w self d H) at 1.
  unfold set_y, bind. rewrite (setattr_nf _ _ _ _ _ _ _ _ H). cbv beta iota.
  erewrite (split_skip_nf _ _ _ _ _ _ s x v H);
    [| by simplify_map_eq | by simplify_map_eq | by simplify_map_eq
     | rewrite app_nil_r; exact Hg].
  unfold nf. rewrite app_nil_r. reflexivity.
Qed.

Lemma set_X_run (w : world item Rng) self d s yv rs v n g' a b c e :
  heap w !! self = Some (OInstance d) ->
  d !! "split" = Some s -> d !! "_y" = Some yv -> d !! "random_state" = Some rs ->
  guard_holds (heap w) s v yv n ->
  tts (rng w) (deref (heap w) v) (deref (heap w) yv) s rs = (g', inr (a, b, c, e)) ->
  set_X item Rng tts self v w
  = (Return tt,
     World (<[self := OInstance (with_split (<["_X" := v]> d) (length (heap w)))]>
              (heap w) ++ [OArray a; OArray b; OArray c; OArray e]) g').
Proof.
  intros H Hs Hy Hrs Hg Ht. rewrite (nf_id w self d H) at 1.
  unfold set_X, bind. rewrite (setattr_nf _ _ _ _ _ _ _ _ H). cbv beta iota.
  erewrite (split_run_nf _ _ _ _ _ _ s v yv rs n g' a b c e H);
    [| by simplify_map_eq | by simplify_map_eq | by simplify_map_eq
     | by simplify_map_eq | rewrite app_nil_r; exact Hg
     | rewrite app_nil_r; exact Ht].
  unfold nf. rewrite app_nil_r. reflexivity.
Qed.

Lemma set_y_run (w : world item Rng) self d s x rs v n g' a b c e :
  heap w !! self = Some (OInstance d) ->
  d !! "split" = Some s -> d !! "_X" = Some x -> d !! "random_state" = Some rs ->
  guard_holds (heap w) s x v n ->
  tts (rng w) (deref (heap w) x) (deref (heap w) v) s rs = (g', inr (a, b, c, e)) ->
  set_y item Rng tts self v w
  = (Return tt,
     World (<[self := OInstance (with_split (<["_y" := v]> d) (length (heap w)))]>
              (heap w) ++ [OArray a; OArray b; OArray c; OArray e]) g').
Proof.
  intros H Hs Hx Hrs Hg Ht. rewrite (nf_id w self d H) at 1.
  unfold set_y, bind. rewrite (setattr_nf _ _ _ _ _ _ _ _ H). cbv beta iota.
  erewrite (split_run_nf _ _ _ _ _ _ s x v rs n g' a b c e H);
    [| by simplify_map_eq | by simplify_map_eq | by simplify_map_eq
     | by simplify_map_eq | rewrite app_nil_r; exact Hg
     | rewrite app_nil_r; exact Ht].
  unfold nf. rewrite app_nil_r. reflexivity.
Qed.

Lemma init_skip h self d0 d ext g X yv split name rs :
  h !! self = Some (OInstance d0) ->
  isinstance_str X = false ->
  guard_fails (h ++ ext) split X yv ->
  __init__ item Rng tts lb ld self X yv split name rs (nf h self d ext g)
  = (Return tt,
     nf h self (<["name" := stored_name name]> (
                <["_y" := yv]> (<["_X" := X]> (init_attrs d rs split)))) ext g).
Proof.
  intros H HX Hg. unfold __init__.
  assert (Hargs : match X with
                  | VStr s =>
                      if decide (lower s = "boston") then
                        bind item Rng (call_loader item Rng lb)
                          (fun r => ret item Rng (r.1, r.2, X))
                      else if decide (lower s = "diabetes") then
                        bind item Rng (call_loader item Rng ld)
                          (fun r => ret item Rng (r.1, r.2, X))
                      else raise item Rng
                             (ValueError ("'" +:+ s +:+ "' is not a valid dataset"))
                  | _ => ret item Rng (X, yv, name)
                  end = ret item Rng (X, yv, name)).
  { destruct X; try reflexivity. discriminate HX. }
  rewrite Hargs. unfold bind at 1. unfold ret at 1. cbv beta iota.
  unfold bind. rewrite !(setattr_nf _ _ _ _ _ _ _ _ H). cbv beta iota.
  unfold set_X, set_y, bind.
  rewrite (setattr_nf _ _ _ _ _ _ _ _ H). cbv beta iota.
  erewrite (split_skip_nf _ _ _ _ _ _ split X VNone H);
    [| by simplify_map_eq | by simplify_map_eq | by simplify_map_eq
     | right; right; left; reflexivity].
  rewrite (setattr_nf _ _ _ _ _ _ _ _ H). cbv beta iota.
  erewrite (split_skip_nf _ _ _ _ _ _ split X yv H);
    [| by simplify_map_eq | by simplify_map_eq | by simplify_map_eq | exact Hg].
  rewrite (setattr_nf _ _ _ _ _ _ _ _ H). reflexivity.
Qed.

Lemma init_run h self d0 d ext g X yv split name rs n g' a b c e :
  h !! self = Some (OInstance d0) ->
  isinstance_str X = false ->
  guard_holds (h ++ ext) split X yv n ->
  tts g (deref (h ++ ext) X) (deref (h ++ ext) yv) split rs
    = (g', inr (a, b, c, e)) ->
  __init__ item Rng tts lb ld self X yv split name rs (nf h self d ext g)
  = (Return tt,
     nf h self (<["name" := stored_name name]> (
                with_split (<["_y" := yv]> (<["_X" := X]> (init_attrs d rs split)))
                  (length (h ++ ext))))
        (ext ++ [OArray a; OArray b; OArray c; OArray e]) g').
Proof.
  intros H HX Hg Ht. unfold __init__.
  assert (Hargs : match X with
                  | VStr s =>
                      if decide (lower s = "boston") then
                        bind item Rng (call_loader item Rng lb)
                          (fun r => ret item Rng (r.1, r.2, X))
                      else if decide (lower s = "diabetes") then
                        bind item Rng (call_loader item Rng ld)
                          (fun r => ret item Rng (r.1, r.2, X))
                      else raise item Rng
                             (ValueError ("'" +:+ s +:+ "' is not a valid dataset"))
                  | _ => ret item Rng (X, yv, name)
                  end = ret item Rng (X, yv, name)).
  { destruct X; try reflexivity. discriminate HX. }
  rewrite Hargs. unfold bind at 1. unfold ret at 1. cbv beta iota.
  unfold bind. rewrite !(setattr_nf _ _ _ _ _ _ _ _ H). cbv beta iota.
  unfold set_X, set_y, bind.
  rewrite (setattr_nf _ _ _ _ _ _ _ _ H). cbv beta iota.
  erewrite (split_skip_nf _ _ _ _ _ _ split X VNone H);
    [| by simplify_map_eq | by simplify_map_eq | by simplify_map_eq
     | right; right; left; reflexivity].
  rewrite (setattr_nf _ _ _ _ _ _ _ _ H). cbv beta iota.
  erewrite (split_run_nf _ _ _ _ _ _ split X yv rs n g' a b c e H);
    [| by simplify_map_eq | by simplify_map_eq | by simplify_map_eq
     | by simplify_map_eq | exact Hg | exact Ht].
  rewrite (setattr_nf _ _ _ _ _ _ _ _ H). reflexivity.
Qed.

(** Loading a dataset: the initialiser goes on as for the two new arrays,
    with the given string as the name. *)
Lemma init_loader h self d ext g s yv split name rs ds :
  (lower s = "boston" /\ ds = lb) \/
  (lower s <> "boston" /\ lower s = "diabetes" /\ ds = ld) ->
  __init__ item Rng tts lb ld self (VStr s) yv split name rs (nf h self d ext g)
  = __init__ item Rng tts lb ld self
      (VRef (length h + length ext)) (VRef (length h + length ext + 1))
      split (VStr s) rs
      (nf h self d (ext ++ [OArray (NdItems ds.1); OArray (NdItems ds.2)]) g).
Proof.
  intros Hs. unfold __init__.
  unfold bind at 1.
  unfold bind at 11.
  assert (Hl : call_loader item Rng ds (nf h self d ext g)
               = (Return (VRef (length h + length ext),
                          VRef (length h + length ext + 1)),
                  nf h self d (ext ++ [OArray (NdItems ds.1); OArray (NdItems ds.2)]) g)).
  { unfold call_loader, bind. rewrite alloc_nf. cbv beta iota.
    rewrite alloc_nf. cbv beta iota. unfold ret.
    rewrite length_app. cbn [length]. rewrite <- app_assoc. cbn [app].
    replace (length h + (length ext + 1)) with (length h + length ext + 1) by lia.
    reflexivity. }
  destruct Hs as [[Hb ->] | (Hnb & Hd & ->)].
  - rewrite decide_True by exact Hb. unfold bind at 1. rewrite Hl.
    reflexivity.
  - rewrite decide_False by exact Hnb. rewrite decide_True by exact Hd.
    unfold bind at 1. rewrite Hl. reflexivity.
Qed.

Lemma init_invalid h self d ext g s yv split name rs :
  lower s <> "boston" -> lower s <> "diabetes" ->
  __init__ item Rng tts lb ld self (VStr s) yv split name rs (nf h self d ext g)
  = (Raise (ValueError ("'" +:+ s +:+ "' is not a valid dataset")),
     nf h self d ext g).
Proof.
  intros Hb Hd. unfold __init__. unfold bind at 1.
  rewrite decide_False by exact Hb. rewrite decide_False by exact Hd.
  reflexivity.
Qed.

Lemma alloc_instance (w : world item Rng) :
  alloc item Rng (OInstance ∅) w
  = (Return (length (heap w)),
     nf (heap w ++ [OInstance ∅]) (length (heap w)) ∅ [] (rng w)).
Proof.
  unfold alloc, nf. rewrite app_nil_r.
  rewrite list_insert_id; [reflexivity |]. apply list_lookup_middle. reflexivity.
Qed.

Lemma nf_new h0 d ext g :
  nf (h0 ++ [OInstance ∅]) (length h0) d ext g
  = @World item Rng (h0 ++ OInstance d :: ext) g.
Proof.
  unfold nf. rewrite insert_app_r_alt by lia. rewrite Nat.sub_diag. cbn.
  rewrite <- app_assoc. reflexivity.
Qed.

Lemma new_self h0 :
  (h0 ++ [@OInstance item ∅]) !! length h0 = Some (OInstance ∅).
Proof. apply list_lookup_middle. reflexivity. Qed.

End Facts.
End DMFacts.

(** ** Properties of the inverse gamma family *)

Import InverseGamma.
Import IGFacts.

(** C2 as stated fails: in the grid built from alpha=[6, 2.5] and
    beta=[[1,1],[2,3],[4,5]], column 1 of row 0 does not use alpha=6, so
    no grid has the four cell values the claim lists. *)
Lemma broadcast_row0_counterexample :
  ~ (exists g,
       __init__ (Seq [6; 5 # 2]%Q) (Arr [[1; 1]; [2; 3]; [4; 5]]%Q) None None = Ok g
       /\ grid_shape g = (3, 2)
       /\ param_at g "alpha" 0 0 = Some 6%Q
       /\ param_at g "alpha" 0 1 = Some 6%Q
       /\ param_at g "alpha" 1 1 = Some (5 # 2)%Q
       /\ param_at g "beta" 1 1 = Some 3%Q).
Proof.
  intros (g & Hg & _ & _ & H01 & _).
  vm_compute in Hg. injection Hg as <-.
  vm_compute in H01. discriminate H01.
Qed.

(** C2, amended: scalar alpha=2 and beta=3 without indices give a 1x1
    grid; alpha=[6, 2.5] and beta=[[1,1],[2,3],[4,5]] (the first fixture)
    give a 3x2 grid in which every row uses alpha=6 in column 0 and
    alpha=2.5 in column 1, so that row 0 uses 6 and 2.5, and row 1 column 1
    uses alpha=2.5 with beta=3.  Stated over the broadcaster as the
    specification describes it. *)
Theorem construct_broadcast_examples :
  (exists g, __init__ (Scalar 2) (Scalar 3) None None = Ok g
     /\ grid_shape g = (1, 1)
     /\ param_at g "alpha" 0 0 = Some 2%Q /\ param_at g "beta" 0 0 = Some 3%Q)
  /\ (exists g, construct params1 = Some (Ok g)
     /\ grid_shape g = (3, 2)
     /\ _bc_params g !! "alpha"
        = Some [[6; 5 # 2]; [6; 5 # 2]; [6; 5 # 2]]%Q
     /\ _bc_params g !! "beta" = Some [[1; 1]; [2; 3]; [4; 5]]%Q
     /\ param_at g "alpha" 0 0 = Some 6%Q
     /\ param_at g "alpha" 0 1 = Some (5 # 2)%Q
     /\ param_at g "alpha" 1 1 = Some (5 # 2)%Q
     /\ param_at g "beta" 1 1 = Some 3%Q).
Proof.
  split; eexists; (split; [vm_compute; reflexivity |]); vm_compute; repeat split.
Qed.

(** C1: the capability registration of InverseGamma is the class-level
    constant [_tags]; its exact list is mean, var, pdf, log_pdf, cdf, ppf,
    its approximate list is energy, pdfnorm, the two lists share no name,
    and every registered statistic carries exactly one capability tag. *)
Theorem inversegamma_capability_registration :
  InverseGamma._tags !! "capabilities:exact"
    = Some (InverseGamma.PList
              (InverseGamma.PStr <$> ["mean"; "var"; "pdf"; "log_pdf"; "cdf"; "ppf"]))
  /\ InverseGamma._tags !! "capabilities:approx"
    = Some (InverseGamma.PList (InverseGamma.PStr <$> ["energy"; "pdfnorm"]))
  /\ InverseGamma.exact_capabilities = ["mean"; "var"; "pdf"; "log_pdf"; "cdf"; "ppf"]
  /\ InverseGamma.approx_capabilities = ["energy"; "pdfnorm"]
  /\ (forall s : string, s ∈ InverseGamma.exact_capabilities ->
                s ∈ InverseGamma.approx_capabilities -> False)
  /\ (forall s : string, s ∈ InverseGamma.exact_capabilities ++ InverseGamma.approx_capabilities ->
                InverseGamma.tag_count s = 1%nat).
Proof.
  assert (He : InverseGamma.exact_capabilities
               = ["mean"; "var"; "pdf"; "log_pdf"; "cdf"; "ppf"]) by reflexivity.
  assert (Ha : InverseGamma.approx_capabilities = ["energy"; "pdfnorm"]) by reflexivity.
  repeat split; try reflexivity.
  - intros s H1 H2. rewrite He in H1. rewrite Ha in H2.
    repeat (apply elem_of_cons in H2 as [-> | H2];
            [repeat (apply elem_of_cons in H1 as [H1 | H1]; [discriminate H1 |]);
             inversion H1 |]).
    inversion H2.
  - intros s Hs. unfold InverseGamma.tag_count. rewrite He, Ha in *.
    repeat (apply elem_of_cons in Hs as [-> | Hs]; [reflexivity |]).
    inversion Hs.
Qed.



(** C5: [get_test_params] returns the same three configurations whatever
    [parameter_set] is: array-valued alpha and beta without indices, scalar
    alpha and beta with an explicit index and columns, and scalar alpha and
    beta without indices. *)
Theorem get_test_params_fixed :
  forall parameter_set : string,
    get_test_params parameter_set = [params1; params2; params3]
    /\ get_test_params parameter_set = get_test_params "default"
    /\ params1 !! "alpha" = Some (PList [PInt 6; PFloat (5 # 2)])
    /\ params1 !! "beta"
       = Some (PList [PList [PInt 1; PInt 1]; PList [PInt 2; PInt 3];
                      PList [PInt 4; PInt 5]])
    /\ array_case params1 = true /\ no_indices params1 = true
    /\ params2 !! "alpha" = Some (PInt 2) /\ params2 !! "beta" = Some (PInt 3)
    /\ params2 !! "index" = Some (PIndex [PInt 1; PInt 2; PInt 5])
    /\ params2 !! "columns" = Some (PIndex [PStr "a"; PStr "b"])
    /\ scalar_case params2 = true /\ has_indices params2 = true
    /\ params3 !! "alpha" = Some (PFloat (3 # 2))
    /\ params3 !! "beta" = Some (PFloat (21 # 10))
    /\ scalar_case params3 = true /\ no_indices params3 = true.
Proof.
  intros parameter_set. repeat split; vm_compute; reflexivity.
Qed.

(** ** Properties of the data manager *)

Import DataManager.
Import DMFacts.

(** C8: when a guard of [_split] fails for the values after the
    assignment (split is not a float, or X is None, or y is None, or the
    two lengths differ), assigning X or y returns normally, stores the
    value in [_X] or [_y], and changes nothing else: the store is the old
    one with that one attribute updated, so [X_train], [X_test], [y_train]
    and [y_test] are as before. *)
Theorem guard_failure_leaves_split_unchanged :
  forall (item Rng : Type)
    (tts : Rng -> value + obj item -> value + obj item -> value -> value ->
           Rng * (exn + (ndarray item * ndarray item * ndarray item * ndarray item)))
    (w : world item Rng) (self : nat) (d : gmap string value) (s X y v : value),
    heap w !! self = Some (OInstance d) ->
    d !! "split" = Some s -> d !! "_X" = Some X -> d !! "_y" = Some y ->
    (guard_fails (heap w) s v y ->
       exists w',
         set_X item Rng tts self v w = (Return tt, w')
         /\ w' = World (<[self := OInstance (<["_X" := v]> d)]> (heap w)) (rng w)
         /\ attr w' self "_X" = Some v
         /\ attr w' self "X_train" = attr w self "X_train"
         /\ attr w' self "X_test" = attr w self "X_test"
         /\ attr w' self "y_train" = attr w self "y_train"
         /\ attr w' self "y_test" = attr w self "y_test")
    /\ (guard_fails (heap w) s X v ->
       exists w',
         set_y item Rng tts self v w = (Return tt, w')
         /\ w' = World (<[self := OInstance (<["_y" := v]> d)]> (heap w)) (rng w)
         /\ attr w' self "_y" = Some v
         /\ attr w' self "X_train" = attr w self "X_train"
         /\ attr w' self "X_test" = attr w self "X_test"
         /\ attr w' self "y_train" = attr w self "y_train"
         /\ attr w' self "y_test" = attr w self "y_test").
Proof.
  intros item Rng tts w self d s X y v H Hs HX Hy.
  apply lookup_lt_Some in H as Hlt.
  split; intros Hg; eexists; (split; [| split; [reflexivity |]]).
  - apply (set_X_skip tts w self d s y v H Hs Hy Hg).
  - unfold attr. cbn [heap]. rewrite list_lookup_insert_eq by exact Hlt.
    rewrite H. by simplify_map_eq.
  - apply (set_y_skip tts w self d s X v H Hs HX Hg).
  - unfold attr. cbn [heap]. rewrite list_lookup_insert_eq by exact Hlt.
    rewrite H. by simplify_map_eq.
Qed.

(** C8 at a manager whose labels have two elements, assigned features of
    three. *)
Lemma guard_failure_leaves_split_unchanged_witness :
  exists w',
    set_X Z nat Fixture.split 2 (VRef 0)
      (World [OArray (NdItems [1; 2; 3]%Z); OArray (NdItems [7; 8]%Z);
              OInstance Fixture.manager_attrs] 0) = (Return tt, w')
    /\ w' = World [OArray (NdItems [1; 2; 3]%Z); OArray (NdItems [7; 8]%Z);
                   OInstance (<["_X" := VRef 0]> Fixture.manager_attrs)] 0
    /\ attr w' 2 "_X" = Some (VRef 0)
    /\ attr w' 2 "X_train" = Some VNone
    /\ attr w' 2 "X_test" = Some VNone
    /\ attr w' 2 "y_train" = Some VNone
    /\ attr w' 2 "y_test" = Some VNone.
Proof.
  apply (proj1 (guard_failure_leaves_split_unchanged Z nat Fixture.split
           (World [OArray (NdItems [1; 2; 3]%Z); OArray (NdItems [7; 8]%Z);
                   OInstance Fixture.manager_attrs] 0)
           2 Fixture.manager_attrs (VFloat (1 # 5)) VNone (VRef 1) (VRef 0)
           eq_refl eq_refl eq_refl eq_refl)).
  right. right. right. exists 3, 2. repeat split; [reflexivity .. | lia].
Defined.

(** C6: when split is a float, X and y are not None and have equal
    lengths, and the split routine, called with X, y, the split as test
    size and the stored random state, returns four arrays, then assigning X
    or y returns normally and leaves the manager with [X_train], [X_test],
    [y_train] and [y_test] referring to these four arrays, newly allocated;
    the constructor, whose assignments go through the same setters, returns
    a manager in that state. *)
Theorem assignment_triggers_split :
  forall (item Rng : Type)
    (tts : Rng -> value + obj item -> value + obj item -> value -> value ->
           Rng * (exn + (ndarray item * ndarray item * ndarray item * ndarray item)))
    (lb ld : list item * list item)
    (w : world item Rng) (self : nat) (d : gmap string value)
    (q : Q) (X y rs v name : value) (n : nat) (g' : Rng)
    (a b c e : ndarray item),
    let split := VFloat q in
    let fresh := [OArray a; OArray b; OArray c; OArray e] in
    (heap w !! self = Some (OInstance d) ->
     d !! "split" = Some split -> d !! "_y" = Some y ->
     d !! "random_state" = Some rs ->
     guard_holds (heap w) split v y n ->
     tts (rng w) (deref (heap w) v) (deref (heap w) y) split rs
       = (g', inr (a, b, c, e)) ->
     set_X item Rng tts self v w
     = (Return tt,
        World (<[self := OInstance (with_split (<["_X" := v]> d) (length (heap w)))]>
                 (heap w) ++ fresh) g'))
    /\ (heap w !! self = Some (OInstance d) ->
     d !! "split" = Some split -> d !! "_X" = Some X ->
     d !! "random_state" = Some rs ->
     guard_holds (heap w) split X v n ->
     tts (rng w) (deref (heap w) X) (deref (heap w) v) split rs
       = (g', inr (a, b, c, e)) ->
     set_y item Rng tts self v w
     = (Return tt,
        World (<[self := OInstance (with_split (<["_y" := v]> d) (length (heap w)))]>
                 (heap w) ++ fresh) g'))
    /\ (isinstance_str X = false ->
     guard_holds (heap w) split X y n ->
     tts (rng w) (deref (heap w) X) (deref (heap w) y) split rs
       = (g', inr (a, b, c, e)) ->
     DataManager.DataManager item Rng tts lb ld X y split name rs w
     = (Return (length (heap w)),
        World (heap w ++
               OInstance (<["name" := stored_name name]> (
                          with_split (<["_y" := y]> (<["_X" := X]> (
                                        init_attrs ∅ rs split)))
                            (length (heap w) + 1))) :: fresh) g')).
Proof.
  intros item Rng tts lb ld w self d q X y rs v name n g' a b c e split fresh.
  split; [| split].
  - intros H Hs Hy Hrs Hg Ht. eapply set_X_run; eauto.
  - intros H Hs HX Hrs Hg Ht. eapply set_y_run; eauto.
  - intros HX Hg Ht. unfold DataManager.DataManager, bind.
    rewrite alloc_instance. cbv beta iota.
    destruct Hg as (Hf & HnX & Hny & HlX & Hly).
    erewrite (init_run tts lb ld _ _ _ _ _ _ X y split name rs n g' a b c e
                (new_self (heap w)) HX).
    + cbv beta iota. unfold ret. rewrite nf_new.
      rewrite app_nil_r, length_app. cbn [length app]. reflexivity.
    + rewrite app_nil_r. apply guard_holds_app. repeat split; assumption.
    + rewrite app_nil_r.
      rewrite (deref_app _ _ _ _ HlX), (deref_app _ _ _ _ Hly). exact Ht.
Qed.

(** C6 at a manager that holds labels of three elements, assigned features
    of three. *)
Lemma assignment_triggers_split_witness :
  set_X Z nat Fixture.split 2 (VRef 0) Fixture.two_arrays
  = (Return tt,
     World [OArray (NdItems [1; 2; 3]%Z); OArray (NdItems [7; 8; 9]%Z);
            OInstance (with_split (<["_X" := VRef 0]> Fixture.manager_attrs) 3);
            OArray (NdItems [2; 3]%Z); OArray (NdItems [1]%Z);
            OArray (NdItems [8; 9]%Z); OArray (NdItems [7]%Z)] 0).
Proof.
  apply (proj1 (assignment_triggers_split Z nat Fixture.split
           Fixture.boston Fixture.diabetes Fixture.two_arrays 2
           Fixture.manager_attrs (1 # 5) VNone (VRef 1) (VInt 0) (VRef 0) VNone 3 0
           (NdItems [2; 3]%Z) (NdItems [1]%Z) (NdItems [8; 9]%Z) (NdItems [7]%Z)));
    try reflexivity.
  repeat split; try reflexivity; discriminate.
Defined.

(** C9, at the input where the code departs from it: the manager built
    with all defaults holds X = None and y = None; [clone] does not return
    a copy of it but raises TypeError, because [np.copy] turns None into a
    0-d array, which is not None and has no length. *)
Theorem clone_of_default_manager_raises :
  forall (item Rng : Type)
    (tts : Rng -> value + obj item -> value + obj item -> value -> value ->
           Rng * (exn + (ndarray item * ndarray item * ndarray item * ndarray item)))
    (lb ld : list item * list item) (g : Rng),
    exists w1 w2,
      DataManager.DataManager item Rng tts lb ld
        VNone VNone (VFloat (1 # 5)) VNone VNone (World [] g) = (Return 0, w1)
      /\ attr w1 0 "_X" = Some VNone /\ attr w1 0 "_y" = Some VNone
      /\ attr w1 0 "split" = Some (VFloat (1 # 5))
      /\ attr w1 0 "name" = Some (VStr "Unnamed")
      /\ clone item Rng tts lb ld 0 w1 = (Raise TypeError, w2)
      /\ array_at w2 (VRef 1) = Some (Nd0 VNone)
      /\ array_at w2 (VRef 2) = Some (Nd0 VNone).
Proof.
  intros item Rng tts lb ld g. eexists. eexists.
  split; [vm_compute; reflexivity |].
  repeat (apply conj; [vm_compute; reflexivity |]).
  vm_compute; reflexivity.
Qed.

(** With a split that is not a float the clone of the default manager is
    built, and its [X] and [y] are 0-d arrays, not [None]. *)
Lemma clone_of_default_manager_int_split :
  forall (item Rng : Type)
    (tts : Rng -> value + obj item -> value + obj item -> value -> value ->
           Rng * (exn + (ndarray item * ndarray item * ndarray item * ndarray item)))
    (lb ld : list item * list item) (g : Rng),
    exists w1 w2,
      DataManager.DataManager item Rng tts lb ld
        VNone VNone (VInt 1) VNone VNone (World [] g) = (Return 0, w1)
      /\ attr w1 0 "_X" = Some VNone
      /\ clone item Rng tts lb ld 0 w1 = (Return 3, w2)
      /\ attr w2 3 "_X" = Some (VRef 1)
      /\ array_at w2 (VRef 1) = Some (Nd0 VNone).
Proof.
  intros item Rng tts lb ld g. eexists. eexists.
  split; [vm_compute; reflexivity |].
  repeat (apply conj; [vm_compute; reflexivity |]).
  vm_compute; reflexivity.
Qed.

(** On a manager that holds arrays the clone is a new manager with equal
    split and name, no random state, and new arrays of equal contents. *)
Lemma clone_of_array_manager :
  exists w1 w2,
    DataManager.DataManager Z nat Fixture.split Fixture.boston Fixture.diabetes
      (VRef 0) (VRef 1) (VFloat (1 # 5)) (VStr "toy") (VInt 7)
      (World [OArray (NdItems [1; 2; 3]%Z); OArray (NdItems [7; 8; 9]%Z)] 0)
      = (Return 2, w1)
    /\ clone Z nat Fixture.split Fixture.boston Fixture.diabetes 2 w1 = (Return 9, w2)
    /\ attr w2 9 "_X" = Some (VRef 7) /\ attr w1 2 "_X" = Some (VRef 0)
    /\ array_at w2 (VRef 7) = array_at w1 (VRef 0)
    /\ attr w2 9 "_y" = Some (VRef 8) /\ attr w1 2 "_y" = Some (VRef 1)
    /\ array_at w2 (VRef 8) = array_at w1 (VRef 1)
    /\ attr w2 9 "split" = attr w1 2 "split"
    /\ attr w2 9 "name" = attr w1 2 "name"
    /\ attr w1 2 "random_state" = Some (VInt 7)
    /\ attr w2 9 "random_state" = Some VNone.
Proof.
  eexists. eexists.
  split; [vm_compute; reflexivity |].
  repeat (apply conj; [vm_compute; reflexivity |]).
  vm_compute; reflexivity.
Qed.

(** ** Further properties of the inverse gamma family *)

Module IGShape.
Import InverseGamma.
Import IGFacts.

(** A tensor of [R] rows of [C] entries. *)
Lemma broadcast_to_shape r R C t :
  broadcast_to r (R, C) = Some t ->
  length t = R /\ Forall (fun row => length row = C) t.
Proof.
  unfold broadcast_to. cbn [fst snd]. intros H.
  pose proof (length_mapM _ _ _ H) as Hlen. rewrite length_seq in Hlen.
  split; [symmetry; exact Hlen |].
  apply mapM_Some_1 in H. clear Hlen.
  induction H as [| i row is_ rows Hrow _ IH]; [constructor |].
  constructor; [| exact IH].
  apply length_mapM in Hrow. rewrite length_seq in Hrow. symmetry. exact Hrow.
Qed.

Lemma init_inv a b i c g :
  __init__ a b i c = Ok g ->
  exists R C ta tb,
    broadcast_to a (R, C) = Some ta /\ broadcast_to b (R, C) = Some tb
    /\ _bc_params g = <["alpha" := ta]> (<["beta" := tb]> ∅)
    /\ alpha g = a /\ beta g = b
    /\ grid_shape g = (R, C).
Proof.
  unfold __init__. intros H.
  apply bind_ok in H as ([[m idx] cols] & Hb & H). injection H as <-.
  unfold broadcast in Hb.
  apply bind_ok in Hb as ([r cc] & Hall & Hb).
  apply bind_ok in Hb as (R & HR & Hb).
  apply bind_ok in Hb as (C & HC & Hb).
  cbn [fst snd] in *.
  destruct (broadcast_params _ _) as [m' |] eqn:Hm; [| discriminate].
  injection Hb as <- <- <-.
  cbn [broadcast_params] in Hm.
  destruct (broadcast_to a (R, C)) as [ta |] eqn:Ha; [| discriminate].
  destruct (broadcast_to b (R, C)) as [tb |] eqn:Hbt; [| discriminate].
  cbn in Hm. injection Hm as <-.
  exists R, C, ta, tb. repeat split; try assumption.
  unfold grid_shape. cbn.
  apply expand_dim_fits in HR as [_ ->]. apply expand_dim_fits in HC as [_ ->].
  reflexivity.
Qed.

End IGShape.

Import InverseGamma.
Import IGFacts.
Import IGShape.

(** X13: [_get_scipy_param] on an instance the constructor returned never
    fails on a missing key: the names under which the constructor's
    parameters are broadcast are the keys it reads.  It returns no
    positional argument and exactly the keywords [a], the broadcast alpha,
    and [scale], the broadcast beta taken as it is; both tensors have as
    many rows as the index has labels and as many entries in each row as
    there are columns.  The broadcaster is the one the specification
    describes. *)
Theorem scipy_params_have_grid_shape :
  forall (a b : raw) (i c : option (list pyval)) (g : InverseGamma),
    __init__ a b i c = Ok g ->
    exists ta tb,
      _get_scipy_param g = Ok ([], <["a" := ta]> (<["scale" := tb]> ∅))
      /\ _bc_params g !! "alpha" = Some ta
      /\ _bc_params g !! "beta" = Some tb
      /\ length ta = length (index g) /\ length tb = length (index g)
      /\ Forall (fun row => length row = length (columns g)) ta
      /\ Forall (fun row => length row = length (columns g)) tb.
Proof.
  intros a b i c g H.
  apply init_inv in H as (R & C & ta & tb & Ha & Hb & Hbc & _ & _ & Hshape).
  unfold grid_shape in Hshape. injection Hshape as HR HC.
  apply broadcast_to_shape in Ha as [Hla Hfa].
  apply broadcast_to_shape in Hb as [Hlb Hfb].
  exists ta, tb. unfold _get_scipy_param, getitem. rewrite Hbc, HR, HC.
  repeat split; try assumption; by simplify_map_eq.
Qed.

(** X13 at the first fixture: alpha of two entries against beta of three
    rows of two. *)
Lemma scipy_params_have_grid_shape_witness :
  let g :=
    {| alpha := Seq [6; 5 # 2]%Q; beta := Arr [[1; 1]; [2; 3]; [4; 5]]%Q;
       index := range_index 3; columns := range_index 2;
       _bc_params :=
         <["alpha" := [[6; 5 # 2]; [6; 5 # 2]; [6; 5 # 2]]%Q]> (
         <["beta" := [[1; 1]; [2; 3]; [4; 5]]%Q]> ∅) |} in
  exists ta tb,
    _get_scipy_param g = Ok ([], <["a" := ta]> (<["scale" := tb]> ∅))
    /\ _bc_params g !! "alpha" = Some ta
    /\ _bc_params g !! "beta" = Some tb
    /\ length ta = length (index g) /\ length tb = length (index g)
    /\ Forall (fun row => length row = length (columns g)) ta
    /\ Forall (fun row => length row = length (columns g)) tb.
Proof.
  intros g.
  apply (scipy_params_have_grid_shape
           (Seq [6; 5 # 2]%Q) (Arr [[1; 1]; [2; 3]; [4; 5]]%Q) None None g).
  vm_compute. reflexivity.
Defined.

(** ** What the methods of the data manager leave untouched *)

Module DMFrame.
Import DataManager.
Import DMFacts.

Section Frame.
Local Set Default Proof Using "Type".
Context {item Rng : Type}.
Variable tts : Rng -> value + obj item -> value + obj item -> value -> value ->
  Rng * (exn + (ndarray item * ndarray item * ndarray item * ndarray item)).
Variable lb ld : list item * list item.
Variable shuf : Rng -> list (item * item) -> Rng * list (item * item).

Implicit Types (w : world item Rng) (self l : loc) (names : list string)
  (o : obj item) (v : value).

Lemma same_object_refl self names l o : same_object self names l o o.
Proof.
  destruct o as [a | d]; cbn; [reflexivity |].
  case_decide; [eauto | reflexivity].
Qed.

Lemma same_object_trans self names l o1 o2 o3 :
  same_object self names l o1 o2 -> same_object self names l o2 o3 ->
  same_object self names l o1 o3.
Proof.
  destruct o1 as [a | d]; cbn.
  - intros ->. cbn. auto.
  - case_decide as Hl.
    + intros (d2 & -> & H2). cbn. rewrite decide_True by exact Hl.
      intros (d3 & -> & H3). exists d3. split; [reflexivity |].
      intros k Hk. rewrite H3, H2 by exact Hk. reflexivity.
    + intros ->. cbn. rewrite decide_False by exact Hl. auto.
Qed.

Lemma same_object_mono self names names' l o o' :
  names ⊆ names' -> same_object self names l o o' -> same_object self names' l o o'.
Proof.
  intros Hsub. destruct o as [a | d]; cbn; [auto |].
  case_decide; [| auto].
  intros (d' & -> & H'). exists d'. split; [reflexivity |].
  intros k Hk. apply H'. intros Hin. apply Hk, Hsub, Hin.
Qed.

Lemma modifies_refl self names w : modifies self names w w.
Proof. intros l o H. exists o. split; [exact H | apply same_object_refl]. Qed.

Lemma modifies_trans self names w1 w2 w3 :
  modifies self names w1 w2 -> modifies self names w2 w3 ->
  modifies self names w1 w3.
Proof.
  intros H12 H23 l o H.
  destruct (H12 l o H) as (o2 & Ho2 & Hs2).
  destruct (H23 l o2 Ho2) as (o3 & Ho3 & Hs3).
  exists o3. split; [exact Ho3 | eapply same_object_trans; eauto].
Qed.

Lemma modifies_mono self names names' w w' :
  names ⊆ names' -> modifies self names w w' -> modifies self names' w w'.
Proof.
  intros Hsub H l o Hl. destruct (H l o Hl) as (o' & Ho' & Hs).
  exists o'. split; [exact Ho' | eapply same_object_mono; eauto].
Qed.

(** A store that only grew. *)
Lemma modifies_app self names w ext g :
  modifies self names w (World (heap w ++ ext) g).
Proof.
  intros l o H. exists o. split; [| apply same_object_refl].
  cbn. apply lookup_app_l_Some. exact H.
Qed.

Lemma preserves_refl w : preserves w w.
Proof. intros l o H. exact H. Qed.

Lemma preserves_trans w1 w2 w3 :
  preserves w1 w2 -> preserves w2 w3 -> preserves w1 w3.
Proof. intros H12 H23 l o H. auto. Qed.

Lemma preserves_app w ext g : preserves w (World (heap w ++ ext) g).
Proof. intros l o H. cbn. apply lookup_app_l_Some. exact H. Qed.

(** An instance allocated after the objects of [w] is none of them. *)
Lemma modifies_fresh self names w1 w2 w3 :
  preserves w1 w2 -> length (heap w1) <= self -> modifies self names w2 w3 ->
  preserves w1 w3.
Proof.
  intros H12 Hlen H23 l o H.
  destruct (H23 l o (H12 l o H)) as (o' & Ho' & Hs).
  apply lookup_lt_Some in H as Hlt.
  destruct o as [a | d]; cbn in Hs.
  - subst o'. exact Ho'.
  - rewrite decide_False in Hs by lia. subst o'. exact Ho'.
Qed.

(** *** The rules of [always] *)

Lemma always_ret {A} (R : world item Rng -> world item Rng -> Prop) (a : A) :
  (forall w, R w w) -> always R (ret item Rng a).
Proof. intros R_refl w. apply R_refl. Qed.

Lemma always_raise {A} (R : world item Rng -> world item Rng -> Prop) (e : exn) :
  (forall w, R w w) -> always R (@raise item Rng A e).
Proof. intros R_refl w. apply R_refl. Qed.

Lemma always_bind {A B} (R : world item Rng -> world item Rng -> Prop)
    (m : M item Rng A) (f : A -> M item Rng B) :
  (forall w1 w2 w3, R w1 w2 -> R w2 w3 -> R w1 w3) ->
  always R m -> (forall a, always R (f a)) -> always R (bind item Rng m f).
Proof.
  intros R_trans Hm Hf w. unfold bind. specialize (Hm w).
  destruct (m w) as [[a | e] w1]; cbn in *; [| exact Hm].
  eapply R_trans; [exact Hm | apply Hf].
Qed.

Lemma always_try_except {A} (R : world item Rng -> world item Rng -> Prop)
    (body handler : M item Rng A) :
  (forall w1 w2 w3, R w1 w2 -> R w2 w3 -> R w1 w3) ->
  always R body -> always R handler ->
  always R (try_except item Rng body handler).
Proof.
  intros R_trans Hb Hh w. unfold try_except. specialize (Hb w).
  destruct (body w) as [[a | e] w1]; cbn in *; [exact Hb |].
  eapply R_trans; [exact Hb | apply Hh].
Qed.

Lemma always_impl {A} (R R' : world item Rng -> world item Rng -> Prop)
    (m : M item Rng A) :
  (forall w w', R w w' -> R' w w') -> always R m -> always R' m.
Proof. intros H Hm w. apply H, Hm. Qed.

(** *** The primitives *)

Lemma getattr_unchanged self name w : (getattr item Rng self name w).2 = w.
Proof.
  unfold getattr. destruct (heap w !! self) as [[a | d] |]; try reflexivity.
  destruct (d !! name); reflexivity.
Qed.

Lemma len_unchanged v w : (len item Rng v w).2 = w.
Proof. unfold len. destruct (len_in (heap w) v); reflexivity. Qed.

Lemma iter_unchanged v w : (iter item Rng v w).2 = w.
Proof.
  unfold iter. destruct (deref (heap w) v) as [? | [[items | ?] | ?]]; reflexivity.
Qed.

Lemma alloc_grows o w :
  (alloc item Rng o w).2 = World (heap w ++ [o]) (rng w).
Proof. reflexivity. Qed.

Lemma np_copy_grows v w :
  exists o, (np_copy item Rng v w).2 = World (heap w ++ [o]) (rng w).
Proof.
  unfold np_copy. destruct (deref (heap w) v) as [? | [a | d]]; cbn; eauto.
Qed.

Lemma np_array_grows items w :
  (np_array item Rng items w).2
  = World (heap w ++ [OArray (NdItems items)]) (rng w).
Proof. reflexivity. Qed.

Lemma call_loader_grows ds w :
  exists ext g, (call_loader item Rng ds w).2 = World (heap w ++ ext) g.
Proof.
  unfold call_loader, bind, alloc, ret. cbn. rewrite <- app_assoc. eauto.
Qed.

Lemma call_train_test_split_grows X yv ts rs w :
  exists ext g,
    (call_train_test_split item Rng tts X yv ts rs w).2 = World (heap w ++ ext) g.
Proof.
  unfold call_train_test_split.
  destruct (tts _ _ _ _ _) as [g [e | [[[a b] c] d]]].
  - exists [], g. cbn. rewrite app_nil_r. reflexivity.
  - unfold bind, alloc, ret. cbn. rewrite <- !app_assoc. eauto.
Qed.

Lemma call_np_random_shuffle_grows data w :
  exists ext g,
    (call_np_random_shuffle item Rng shuf data w).2 = World (heap w ++ ext) g.
Proof.
  unfold call_np_random_shuffle. destruct (shuf _ _) as [g data']. cbn.
  exists [], g. rewrite app_nil_r. reflexivity.
Qed.

Lemma setattr_modifies self name v names :
  name ∈ names -> always (modifies self names) (setattr item Rng self name v).
Proof.
  intros Hin w. unfold setattr.
  destruct (heap w !! self) as [[a | d] |] eqn:Hself; cbn;
    try apply modifies_refl.
  intros l o Hl. cbn.
  destruct (decide (l = self)) as [-> | Hne].
  - rewrite Hself in Hl. injection Hl as <-.
    eexists. split.
    + apply list_lookup_insert_eq. apply lookup_lt_Some in Hself. exact Hself.
    + cbn. rewrite decide_True by reflexivity.
      eexists. split; [reflexivity |].
      intros k Hk. apply lookup_insert_ne. intros <-. contradiction.
  - exists o. split; [| apply same_object_refl].
    rewrite list_lookup_insert_ne by auto. exact Hl.
Qed.

(** *** The methods *)

Lemma grows_modifies {A} self names (m : M item Rng A) :
  (forall w, exists ext g, (m w).2 = World (heap w ++ ext) g) ->
  always (modifies self names) m.
Proof. intros H w. destruct (H w) as (ext & g & ->). apply modifies_app. Qed.

Lemma grows_preserves {A} (m : M item Rng A) :
  (forall w, exists ext g, (m w).2 = World (heap w ++ ext) g) ->
  always preserves m.
Proof. intros H w. destruct (H w) as (ext & g & ->). apply preserves_app. Qed.

Lemma unchanged_grows {A} (m : M item Rng A) :
  (forall w, (m w).2 = w) ->
  forall w, exists ext g, (m w).2 = World (heap w ++ ext) g.
Proof.
  intros H w. exists [], (rng w). rewrite H, app_nil_r. destruct w. reflexivity.
Qed.

Lemma one_grows {A} (m : M item Rng A) :
  (forall w, exists o, (m w).2 = World (heap w ++ [o]) (rng w)) ->
  forall w, exists ext g, (m w).2 = World (heap w ++ ext) g.
Proof. intros H w. destruct (H w) as (o & ->). eauto. Qed.

Ltac names_subset :=
  apply (bool_decide_unpack _); vm_compute; exact I.

Ltac frame_step :=
  first
    [ apply setattr_modifies; set_solver
    | apply grows_modifies, unchanged_grows, getattr_unchanged
    | apply grows_modifies, unchanged_grows, len_unchanged
    | apply grows_modifies, unchanged_grows, iter_unchanged
    | apply grows_modifies, one_grows, np_copy_grows
    | apply grows_modifies, call_train_test_split_grows
    | apply grows_modifies, call_loader_grows
    | apply always_ret; apply modifies_refl
    | apply always_raise; apply modifies_refl
    | apply always_bind; [apply modifies_trans | | intros ?]
    | match goal with
      | |- always _ (if ?b then _ else _) => destruct b
      | |- always _ (match ?x with _ => _ end) => destruct x
      end ].

Lemma _split_modifies self :
  always (modifies self split_attrs) (_split item Rng tts self).
Proof. unfold _split, split_attrs. repeat frame_step. Qed.

Lemma set_X_modifies self v :
  always (modifies self ("_X" :: split_attrs)) (set_X item Rng tts self v).
Proof.
  unfold set_X. apply always_bind; [apply modifies_trans | | intros _].
  - apply setattr_modifies. set_solver.
  - eapply always_impl; [| apply _split_modifies].
    intros w w'. apply modifies_mono. names_subset.
Qed.

Lemma set_y_modifies self v :
  always (modifies self ("_y" :: split_attrs)) (set_y item Rng tts self v).
Proof.
  unfold set_y. apply always_bind; [apply modifies_trans | | intros _].
  - apply setattr_modifies. set_solver.
  - eapply always_impl; [| apply _split_modifies].
    intros w w'. apply modifies_mono. names_subset.
Qed.

(** The attributes the initialiser assigns. *)
Lemma __init___modifies self X yv split name rs :
  always (modifies self ("random_state" :: "split" :: "_X" :: "_y" :: "name"
                           :: split_attrs))
    (__init__ item Rng tts lb ld self X yv split name rs).
Proof.
  unfold __init__, split_attrs.
  apply always_bind; [apply modifies_trans | | intros [[X' y'] name']].
  - repeat frame_step.
  - repeat first
      [ apply setattr_modifies; set_solver
      | eapply always_impl; [| apply set_X_modifies];
        intros w w'; apply modifies_mono; names_subset
      | eapply always_impl; [| apply set_y_modifies];
        intros w w'; apply modifies_mono; names_subset
      | apply always_bind; [apply modifies_trans | | intros ?] ].
Qed.

Lemma DataManager_preserves X yv split name rs :
  always preserves (DataManager.DataManager item Rng tts lb ld X yv split name rs).
Proof.
  intros w. unfold DataManager.DataManager, bind. cbn.
  pose proof (__init___modifies (length (heap w)) X yv split name rs
                (World (heap w ++ [OInstance ∅]) (rng w))) as H.
  destruct (__init__ _ _ _ _ _ _ _ _ _ _ _ _) as [[[] | e] w1]; cbn in *;
    (eapply modifies_fresh; [apply preserves_app | | exact H]; lia).
Qed.

Lemma data_preserves self copy :
  always preserves (data item Rng self copy).
Proof.
  unfold data, X, y. destruct copy; cbn [negb].
  - apply always_try_except; [apply preserves_trans | |
      apply always_ret, preserves_refl].
    repeat first
      [ apply always_bind; [apply preserves_trans | | intros ?]
      | apply always_ret; apply preserves_refl
      | apply grows_preserves, unchanged_grows, getattr_unchanged
      | apply grows_preserves, one_grows, np_copy_grows ].
  - repeat first
      [ apply always_bind; [apply preserves_trans | | intros ?]
      | apply always_ret; apply preserves_refl
      | apply grows_preserves, unchanged_grows, getattr_unchanged ].
Qed.

Lemma clone_preserves self :
  always preserves (clone item Rng tts lb ld self).
Proof.
  unfold clone.
  apply always_bind; [apply preserves_trans | apply data_preserves | intros [a b |]].
  - repeat first
      [ apply DataManager_preserves
      | apply grows_preserves, unchanged_grows, getattr_unchanged
      | apply always_bind; [apply preserves_trans | | intros ?] ].
  - apply always_raise, preserves_refl.
Qed.

Lemma shuffle_modifies self rs :
  always (modifies self ("random_state" :: "_X" :: "_y" :: split_attrs))
    (shuffle item Rng tts shuf self rs).
Proof.
  unfold shuffle, X, y.
  repeat first
    [ apply setattr_modifies; set_solver
    | eapply always_impl; [| apply set_X_modifies];
      intros w w'; apply modifies_mono; names_subset
    | eapply always_impl; [| apply set_y_modifies];
      intros w w'; apply modifies_mono; names_subset
    | apply grows_modifies, unchanged_grows, getattr_unchanged
    | apply grows_modifies, unchanged_grows, iter_unchanged
    | apply grows_modifies, one_grows, np_copy_grows
    | apply grows_modifies; intros w; rewrite np_array_grows; eauto
    | apply grows_modifies, call_np_random_shuffle_grows
    | apply always_ret; apply modifies_refl
    | apply always_raise; apply modifies_refl
    | apply always_bind; [apply modifies_trans | | intros ?]
    | match goal with
      | |- always _ (if ?b then _ else _) => destruct b
      | |- always _ (match ?x with _ => _ end) => destruct x
      end ].
Qed.

(** *** What [modifies] says of the other objects and attributes *)

Lemma modifies_other self names w w' l o :
  modifies self names w w' -> l <> self ->
  heap w !! l = Some o -> heap w' !! l = Some o.
Proof.
  intros H Hne Hl. destruct (H l o Hl) as (o' & Ho' & Hs).
  destruct o as [a | d]; cbn in Hs.
  - subst o'. exact Ho'.
  - rewrite decide_False in Hs by exact Hne. subst o'. exact Ho'.
Qed.

Lemma modifies_array self names w w' l a :
  modifies self names w w' ->
  heap w !! l = Some (OArray a) -> heap w' !! l = Some (OArray a).
Proof.
  intros H Hl. destruct (H l _ Hl) as (o' & Ho' & Hs).
  cbn in Hs. subst o'. exact Ho'.
Qed.

Lemma modifies_attr self names w w' d k :
  modifies self names w w' -> heap w !! self = Some (OInstance d) ->
  k ∉ names -> attr w' self k = d !! k.
Proof.
  intros H Hself Hk. destruct (H self _ Hself) as (o' & Ho' & Hs).
  cbn in Hs. rewrite decide_True in Hs by reflexivity.
  destruct Hs as (d' & -> & Hd'). unfold attr. rewrite Ho'. auto.
Qed.

End Frame.
End DMFrame.

(** ** Runs of the methods of the data manager *)

Module DMRun.
Import DataManager.
Import DMFacts.
Import DMFrame.

Section Run.
Local Set Default Proof Using "Type".
Context {item Rng : Type}.
Variable tts : Rng -> value + obj item -> value + obj item -> value -> value ->
  Rng * (exn + (ndarray item * ndarray item * ndarray item * ndarray item)).
Variable lb ld : list item * list item.
Variable shuf : Rng -> list (item * item) -> Rng * list (item * item).

Implicit Types (w : world item Rng) (h ext : list (obj item))
  (d : gmap string value) (g : Rng) (self l : loc) (v : value).

Ltac run_getattr H :=
  erewrite (getattr_nf _ _ _ _ _ _ _ _ H) by eassumption; cbv beta iota.

Lemma getattr_plain w self d name v :
  heap w !! self = Some (OInstance d) -> d !! name = Some v ->
  getattr item Rng self name w = (Return v, w).
Proof. intros H Hv. unfold getattr. rewrite H, Hv. reflexivity. Qed.

Lemma attr_nf h self d0 d ext g name :
  h !! self = Some (OInstance d0) ->
  attr (nf h self d ext g) self name = d !! name.
Proof. intros H. unfold attr. rewrite (nf_self _ _ _ _ _ _ H). reflexivity. Qed.

(** An object of [h ++ ext] other than the instance at [self]. *)
Lemma lookup_nf h self d0 d ext g l o :
  h !! self = Some (OInstance d0) -> l <> self ->
  (h ++ ext) !! l = Some o ->
  heap (nf h self d ext g) !! l = Some o.
Proof.
  intros H Hne Hl. rewrite (heap_nf _ _ _ _ _ _ H).
  rewrite list_lookup_insert_ne by auto. exact Hl.
Qed.

Lemma lookup_array_nf h self d0 d ext g l a :
  h !! self = Some (OInstance d0) ->
  (h ++ ext) !! l = Some (OArray a) ->
  heap (nf h self d ext g) !! l = Some (OArray a).
Proof.
  intros H Hl. eapply lookup_nf; eauto.
  intros ->. apply lookup_lt_Some in H as Hlt.
  rewrite lookup_app_l, H in Hl by exact Hlt. discriminate.
Qed.

Lemma np_copy_array w l a :
  heap w !! l = Some (OArray a) ->
  np_copy item Rng (VRef l) w
  = (Return (VRef (length (heap w))), World (heap w ++ [OArray a]) (rng w)).
Proof. intros H. unfold np_copy, deref. rewrite H. reflexivity. Qed.

Lemma np_copy_nf h self d0 d ext g l a :
  h !! self = Some (OInstance d0) ->
  (h ++ ext) !! l = Some (OArray a) ->
  np_copy item Rng (VRef l) (nf h self d ext g)
  = (Return (VRef (length h + length ext)), nf h self d (ext ++ [OArray a]) g).
Proof.
  intros H Hl. unfold np_copy, deref.
  rewrite (lookup_array_nf _ _ _ _ _ _ _ _ H Hl).
  unfold bind. rewrite alloc_nf. reflexivity.
Qed.

Lemma np_copy_None_nf h self d ext g :
  np_copy item Rng VNone (nf h self d ext g)
  = (Return (VRef (length h + length ext)),
     nf h self d (ext ++ [OArray (Nd0 VNone)]) g).
Proof. unfold np_copy, deref, bind. rewrite alloc_nf. reflexivity. Qed.

Lemma np_array_nf h self d ext g items :
  np_array item Rng items (nf h self d ext g)
  = (Return (VRef (length h + length ext)),
     nf h self d (ext ++ [OArray (NdItems items)]) g).
Proof. unfold np_array, bind. rewrite alloc_nf. reflexivity. Qed.

Lemma iter_nf h self d0 d ext g l items :
  h !! self = Some (OInstance d0) ->
  (h ++ ext) !! l = Some (OArray (NdItems items)) ->
  iter item Rng (VRef l) (nf h self d ext g) = (Return items, nf h self d ext g).
Proof.
  intros H Hl. unfold iter, deref.
  rewrite (lookup_array_nf _ _ _ _ _ _ _ _ H Hl). reflexivity.
Qed.

Lemma iter_0d_nf h self d0 d ext g l v :
  h !! self = Some (OInstance d0) ->
  (h ++ ext) !! l = Some (OArray (Nd0 v)) ->
  iter item Rng (VRef l) (nf h self d ext g) = (Raise TypeError, nf h self d ext g).
Proof.
  intros H Hl. unfold iter, deref.
  rewrite (lookup_array_nf _ _ _ _ _ _ _ _ H Hl). reflexivity.
Qed.

(** *** [_split] when a call it makes raises *)

Lemma split_type_error_nf h self d0 d ext g s x yv :
  h !! self = Some (OInstance d0) ->
  d !! "split" = Some s -> d !! "_X" = Some x -> d !! "_y" = Some yv ->
  isinstance_float s = true -> x <> VNone -> yv <> VNone ->
  len_in (h ++ ext) x = None \/ len_in (h ++ ext) yv = None ->
  _split item Rng tts self (nf h self d ext g) = (Raise TypeError, nf h self d ext g).
Proof.
  intros H Hs Hx Hy Hf Hnx Hny Hlen. unfold _split, bind.
  run_getattr H. rewrite Hf. cbn [negb].
  run_getattr H. rewrite (is_None_false _ Hnx).
  run_getattr H. rewrite (is_None_false _ Hny).
  unfold len at 1. rewrite (len_in_nf _ _ _ _ _ _ _ H).
  destruct (len_in (h ++ ext) x) as [n |]; [| reflexivity].
  cbv beta iota. unfold len at 1. rewrite (len_in_nf _ _ _ _ _ _ _ H).
  destruct Hlen as [Hlen | ->]; [discriminate | reflexivity].
Qed.

Lemma split_raise_nf h self d0 d ext g s x yv rs n g' e :
  h !! self = Some (OInstance d0) ->
  d !! "split" = Some s -> d !! "_X" = Some x -> d !! "_y" = Some yv ->
  d !! "random_state" = Some rs ->
  guard_holds (h ++ ext) s x yv n ->
  tts g (deref (h ++ ext) x) (deref (h ++ ext) yv) s rs = (g', inl e) ->
  _split item Rng tts self (nf h self d ext g) = (Raise e, nf h self d ext g').
Proof.
  intros H Hs Hx Hy Hrs (Hf & Hnx & Hny & Hn & Hm) Ht. unfold _split, bind.
  run_getattr H. rewrite Hf. cbn [negb].
  run_getattr H. rewrite (is_None_false _ Hnx).
  run_getattr H. rewrite (is_None_false _ Hny).
  rewrite (len_nf _ _ _ _ _ _ _ _ H Hn). cbv beta iota.
  rewrite (len_nf _ _ _ _ _ _ _ _ H Hm). cbv beta iota.
  rewrite Nat.eqb_refl. cbn [negb].
  run_getattr H. run_getattr H. run_getattr H. run_getattr H.
  unfold call_train_test_split.
  rewrite (deref_nf _ _ _ _ _ _ _ _ H Hn), (deref_nf _ _ _ _ _ _ _ _ H Hm).
  cbn [rng nf]. rewrite Ht. reflexivity.
Qed.

(** *** [_split] on sized arrays, when the split routine does not raise *)

Lemma guard_decide h s x yv n m :
  x <> VNone -> yv <> VNone ->
  len_in h x = Some n -> len_in h yv = Some m ->
  guard_fails h s x yv \/ (guard_holds h s x yv n /\ n = m).
Proof.
  intros Hx Hy Hn Hm. unfold guard_fails, guard_holds.
  destruct (isinstance_float s) eqn:Hf; [| auto].
  destruct (decide (n = m)) as [-> | Hne]; [right; auto 10 |].
  left. right. right. right. eauto.
Qed.

Lemma len_in_not_None h v n : len_in h v = Some n -> v <> VNone.
Proof. intros H ->. discriminate H. Qed.

Lemma split_sized h self d0 d ext g s x yv rs n m :
  h !! self = Some (OInstance d0) ->
  d !! "split" = Some s -> d !! "_X" = Some x -> d !! "_y" = Some yv ->
  d !! "random_state" = Some rs ->
  len_in (h ++ ext) x = Some n -> len_in (h ++ ext) yv = Some m ->
  (isinstance_float s = true -> n = m ->
   forall g' e,
     tts g (deref (h ++ ext) x) (deref (h ++ ext) yv) s rs <> (g', inl e)) ->
  exists d' ext',
    _split item Rng tts self (nf h self d ext g)
    = (Return tt,
       nf h self d' (ext ++ ext')
         (if isinstance_float s && (n =? m)
          then (tts g (deref (h ++ ext) x) (deref (h ++ ext) yv) s rs).1
          else g))
    /\ forall k, k ∉ split_attrs -> d' !! k = d !! k.
Proof.
  intros H Hs Hx Hy Hrs Hn Hm Hret.
  assert (Hskip : guard_fails (h ++ ext) s x yv ->
            _split item Rng tts self (nf h self d ext g)
            = (Return tt, nf h self d (ext ++ []) g)).
  { intros Hg. rewrite app_nil_r. eapply split_skip_nf; eauto. }
  destruct (isinstance_float s) eqn:Hf; cbn [andb].
  - destruct (decide (n = m)) as [-> | Hne].
    + rewrite Nat.eqb_refl.
      destruct (tts g (deref (h ++ ext) x) (deref (h ++ ext) yv) s rs)
        as [g' [e | [[[a b] c] e]]] eqn:Ht.
      { exfalso. eapply Hret; reflexivity. }
      eexists _, _. split.
      * eapply split_run_nf; eauto.
        repeat split; eauto using len_in_not_None.
      * intros k Hk. unfold with_split, split_attrs in *.
        rewrite !not_elem_of_cons in Hk. destruct Hk as (? & ? & ? & ? & _).
        rewrite !lookup_insert_ne by auto. reflexivity.
    + apply Nat.eqb_neq in Hne as Hb. rewrite Hb.
      exists d, []. split; [| auto].
      apply Hskip. right. right. right. eauto.
  - exists d, []. split; [| auto]. apply Hskip. left. exact Hf.
Qed.

(** *** The initialiser on an argument that is not a string *)

Lemma len_in_None_app h v d :
  len_in h v = None -> len_in (h ++ [@OInstance item d]) v = None.
Proof.
  destruct v; cbn [len_in]; try (intros; reflexivity || discriminate).
  destruct (h !! l) as [o |] eqn:Hl.
  - apply lookup_lt_Some in Hl as Hlt. rewrite lookup_app_l, Hl by exact Hlt. auto.
  - intros _. apply lookup_ge_None in Hl.
    destruct (decide (l = length h)) as [-> | Hne].
    + rewrite list_lookup_middle by reflexivity. reflexivity.
    + rewrite lookup_ge_None_2; [reflexivity |].
      rewrite length_app. cbn. lia.
Qed.

Lemma init_type_error h self d0 d ext g X yv split name rs :
  h !! self = Some (OInstance d0) ->
  isinstance_str X = false -> isinstance_float split = true ->
  X <> VNone -> yv <> VNone ->
  len_in (h ++ ext) X = None \/ len_in (h ++ ext) yv = None ->
  __init__ item Rng tts lb ld self X yv split name rs (nf h self d ext g)
  = (Raise TypeError,
     nf h self (<["_y" := yv]> (<["_X" := X]> (init_attrs d rs split))) ext g).
Proof.
  intros H HX Hf HnX Hny Hlen.
  assert (Hargs : __init__ item Rng tts lb ld self X yv split name rs
            (nf h self d ext g)
          = bind item Rng (ret item Rng (X, yv, name))
              (fun '(X, y, name) =>
                 bind item Rng (setattr item Rng self "random_state" rs) (fun _ =>
                 bind item Rng (setattr item Rng self "split" split) (fun _ =>
                 bind item Rng (setattr item Rng self "_X" VNone) (fun _ =>
                 bind item Rng (setattr item Rng self "_y" VNone) (fun _ =>
                 bind item Rng (setattr item Rng self "X_train" VNone) (fun _ =>
                 bind item Rng (setattr item Rng self "X_test" VNone) (fun _ =>
                 bind item Rng (setattr item Rng self "y_train" VNone) (fun _ =>
                 bind item Rng (setattr item Rng self "y_test" VNone) (fun _ =>
                 bind item Rng (set_X item Rng tts self X) (fun _ =>
                 bind item Rng (set_y item Rng tts self y) (fun _ =>
                 setattr item Rng self "name"
                   (if isinstance_str name then name else VStr "Unnamed"))))))))))))
              (nf h self d ext g)).
  { destruct X; try reflexivity. discriminate HX. }
  rewrite Hargs. unfold bind at 1. unfold ret at 1. cbv beta iota.
  unfold bind. rewrite !(setattr_nf _ _ _ _ _ _ _ _ H). cbv beta iota.
  unfold set_X, set_y, bind.
  rewrite (setattr_nf _ _ _ _ _ _ _ _ H). cbv beta iota.
  erewrite (split_skip_nf tts _ _ _ _ _ _ split X VNone H);
    [| by simplify_map_eq | by simplify_map_eq | by simplify_map_eq
     | right; right; left; reflexivity].
  rewrite (setattr_nf _ _ _ _ _ _ _ _ H). cbv beta iota.
  erewrite (split_type_error_nf _ _ _ _ _ _ split X yv H);
    [| by simplify_map_eq | by simplify_map_eq | by simplify_map_eq
     | exact Hf | exact HnX | exact Hny | exact Hlen].
  reflexivity.
Qed.

Lemma init_total h self d0 d ext g X yv split name rs nx ny :
  h !! self = Some (OInstance d0) -> isinstance_str X = false ->
  len_in (h ++ ext) X = Some nx -> len_in (h ++ ext) yv = Some ny ->
  (forall g' e, tts g (deref (h ++ ext) X) (deref (h ++ ext) yv) split rs
                <> (g', inl e)) ->
  exists d' ext' g',
    __init__ item Rng tts lb ld self X yv split name rs (nf h self d ext g)
    = (Return tt, nf h self d' (ext ++ ext') g')
    /\ d' !! "_X" = Some X /\ d' !! "_y" = Some yv
    /\ d' !! "split" = Some split /\ d' !! "random_state" = Some rs
    /\ d' !! "name" = Some (stored_name name).
Proof.
  intros H HX Hnx Hny Htot.
  destruct (guard_decide (h ++ ext) split X yv nx ny) as [Hg | [Hg ->]];
    eauto using len_in_not_None.
  - eexists _, [], g. rewrite app_nil_r. split.
    + eapply init_skip; eauto.
    + unfold init_attrs. repeat split; by simplify_map_eq.
  - destruct (tts g (deref (h ++ ext) X) (deref (h ++ ext) yv) split rs)
      as [g' [e | [[[a b] c] e]]] eqn:Ht.
    { exfalso. eapply Htot. reflexivity. }
    eexists _, _, g'. split.
    + eapply init_run; eauto.
    + unfold with_split, init_attrs. repeat split; by simplify_map_eq.
Qed.

(** *** [data] *)

Lemma np_copy_run w v :
  np_copy item Rng v w
  = (Return (VRef (length (heap w))),
     World (heap w ++ [OArray (match array_at w v with
                               | Some arr => arr
                               | None => Nd0 v
                               end)]) (rng w)).
Proof.
  unfold np_copy, array_at.
  destruct (deref (heap w) v) as [v' | [arr | d']]; reflexivity.
Qed.

Lemma deref_grown h ext v :
  (forall l, v = VRef l -> l < length h) -> deref (h ++ ext) v = deref h v.
Proof.
  intros Hwf. destruct v; try reflexivity. cbn.
  rewrite lookup_app_l by (apply Hwf; reflexivity). reflexivity.
Qed.

Lemma data_true_run w self d a b :
  heap w !! self = Some (OInstance d) ->
  d !! "_X" = Some a -> d !! "_y" = Some b ->
  (forall l, b = VRef l -> l < length (heap w)) ->
  data item Rng self true w
  = (Return (Pair (VRef (length (heap w))) (VRef (length (heap w) + 1))),
     World (heap w ++
            [OArray (match array_at w a with Some arr => arr | None => Nd0 a end);
             OArray (match array_at w b with Some arr => arr | None => Nd0 b end)])
       (rng w)).
Proof.
  intros H Ha Hb Hwf. unfold data, try_except, bind. cbn [negb].
  rewrite (getattr_plain w self d "_X" a H Ha), np_copy_run.
  match goal with
  | |- context [getattr _ _ _ _ ?w1] =>
      rewrite (getattr_plain w1 self d "_y" b
                 ltac:(cbn; apply lookup_app_l_Some; exact H) Hb)
  end.
  rewrite np_copy_run. unfold ret, array_at. cbn [heap rng].
  rewrite (deref_grown _ _ _ Hwf), length_app, <- app_assoc. reflexivity.
Qed.

Lemma data_false_run w self d a b :
  heap w !! self = Some (OInstance d) ->
  d !! "_X" = Some a -> d !! "_y" = Some b ->
  data item Rng self false w = (Return (Pair a b), w).
Proof.
  intros H Ha Hb. unfold data, bind, X, y. cbn [negb].
  rewrite (getattr_plain w self d "_X" a H Ha).
  rewrite (getattr_plain w self d "_y" b H Hb). reflexivity.
Qed.

(** *** [shuffle] *)

(** The attributes after the first statement of [shuffle]. *)
Lemma shuffle_seed_nf h self d0 d ext g rs :
  h !! self = Some (OInstance d0) ->
  (if negb (is_None rs) then setattr item Rng self "random_state" rs
   else ret item Rng tt) (nf h self d ext g)
  = (Return tt,
     nf h self (if is_None rs then d else <["random_state" := rs]> d) ext g).
Proof.
  intros H. destruct (is_None rs); cbn [negb]; [reflexivity |].
  apply (setattr_nf _ _ _ _ _ _ _ _ H).
Qed.

Lemma seeded_lookup d rs k :
  k <> "random_state" ->
  (if is_None rs then d else <["random_state" := rs]> d) !! k = d !! k.
Proof.
  intros Hk. destruct (is_None rs); [reflexivity |].
  apply lookup_insert_ne. auto.
Qed.

Lemma seeded_random_state d rs rs0 :
  d !! "random_state" = Some rs0 ->
  (if is_None rs then d else <["random_state" := rs]> d) !! "random_state"
  = Some (if is_None rs then rs0 else rs).
Proof.
  intros H. destruct (is_None rs); [exact H | apply lookup_insert_eq].
Qed.

Lemma call_np_random_shuffle_nf h self d ext g data g1 data' :
  shuf g data = (g1, data') ->
  call_np_random_shuffle item Rng shuf data (nf h self d ext g)
  = (Return data', nf h self d ext g1).
Proof.
  intros Hs. unfold call_np_random_shuffle. cbn [rng nf]. rewrite Hs. reflexivity.
Qed.

(** The copies and the iteration, up to the call of the generator. *)
Lemma shuffle_copies_nf h self d0 d g lx ly xs ys
    (k : list (item * item) -> M item Rng unit) :
  h !! self = Some (OInstance d0) ->
  d !! "_X" = Some (VRef lx) -> d !! "_y" = Some (VRef ly) ->
  h !! lx = Some (OArray (NdItems xs)) ->
  h !! ly = Some (OArray (NdItems ys)) ->
  bind item Rng (X item Rng self) (fun a =>
  bind item Rng (np_copy item Rng a) (fun X_ =>
  bind item Rng (y item Rng self) (fun b =>
  bind item Rng (np_copy item Rng b) (fun y_ =>
  bind item Rng (iter item Rng X_) (fun xs =>
  bind item Rng (iter item Rng y_) (fun ys => k (zip xs ys)))))))
    (nf h self d [] g)
  = k (zip xs ys)
      (nf h self d [OArray (NdItems xs); OArray (NdItems ys)] g).
Proof.
  intros H HX Hy Hlx Hly. unfold X, y. unfold bind at 1.
  run_getattr H. unfold bind at 1.
  rewrite (np_copy_nf _ _ _ _ _ _ _ _ H
             ltac:(rewrite app_nil_r; exact Hlx)).
  cbv beta iota. unfold bind at 1. run_getattr H. unfold bind at 1.
  rewrite (np_copy_nf _ _ _ _ _ _ _ _ H
             ltac:(apply lookup_app_l_Some; exact Hly)).
  cbv beta iota. cbn [length app]. rewrite !Nat.add_0_r.
  unfold bind at 1.
  rewrite (iter_nf h self d0 d [OArray (NdItems xs); OArray (NdItems ys)] g
             (length h) xs H ltac:(apply list_lookup_middle; reflexivity)).
  cbv beta iota. unfold bind at 1.
  rewrite (iter_nf h self d0 d [OArray (NdItems xs); OArray (NdItems ys)] g
             (length h + 1) ys H
             ltac:(rewrite lookup_app_r by lia;
                   replace (length h + 1 - length h) with 1 by lia;
                   reflexivity)).
  reflexivity.
Qed.

(** What [shuffle] does once the generator has returned the pairs. *)
Local Abbreviation shuffle_rest self :=
  (fun data : list (item * item) =>
     match data return M item Rng unit with
     | [] => raise item Rng
               (ValueError "not enough values to unpack (expected 2, got 0)")
     | _ :: _ =>
         bind item Rng (np_array item Rng data.*1) (fun newX =>
         bind item Rng (np_array item Rng data.*2) (fun newy =>
         bind item Rng (set_X item Rng tts self newX) (fun _ =>
         set_y item Rng tts self newy)))
     end).

Lemma shuffle_unfold h self d0 d g rs lx ly xs ys g1 data :
  h !! self = Some (OInstance d0) ->
  d !! "_X" = Some (VRef lx) -> d !! "_y" = Some (VRef ly) ->
  h !! lx = Some (OArray (NdItems xs)) ->
  h !! ly = Some (OArray (NdItems ys)) ->
  shuf g (zip xs ys) = (g1, data) ->
  shuffle item Rng tts shuf self rs (nf h self d [] g)
  = shuffle_rest self data
      (nf h self (if is_None rs then d else <["random_state" := rs]> d)
         [OArray (NdItems xs); OArray (NdItems ys)] g1).
Proof.
  intros H HX Hy Hlx Hly Hs. unfold shuffle. unfold bind at 1.
  rewrite (shuffle_seed_nf _ _ _ _ _ _ _ H). cbv beta iota.
  rewrite (shuffle_copies_nf h self d0 _ g lx ly xs ys
             (fun zipped =>
                bind item Rng (call_np_random_shuffle item Rng shuf zipped)
                  (shuffle_rest self)) H);
    [| rewrite seeded_lookup by discriminate; assumption
     | rewrite seeded_lookup by discriminate; assumption
     | assumption | assumption].
  unfold bind at 1.
  rewrite (call_np_random_shuffle_nf _ _ _ _ _ _ _ _ Hs). reflexivity.
Qed.

Lemma deref_array h ext l (a : ndarray item) :
  h !! l = Some (OArray a) -> deref (h ++ ext) (VRef l) = inr (OArray a).
Proof. intros Hl. unfold deref. rewrite (lookup_app_l_Some _ _ _ _ Hl). reflexivity. Qed.

Lemma shuffle_run h self d0 d g rs rs0 s lx ly xs ys g1 p data :
  h !! self = Some (OInstance d0) ->
  d !! "_X" = Some (VRef lx) -> d !! "_y" = Some (VRef ly) ->
  d !! "split" = Some s -> d !! "random_state" = Some rs0 ->
  h !! lx = Some (OArray (NdItems xs)) ->
  h !! ly = Some (OArray (NdItems ys)) ->
  shuf g (zip xs ys) = (g1, p :: data) ->
  shuffle_splits_return tts s (if is_None rs then rs0 else rs) g1 (p :: data) ys ->
  exists d' ext' g',
    shuffle item Rng tts shuf self rs (nf h self d [] g)
    = (Return tt,
       nf h self d'
         ([OArray (NdItems xs); OArray (NdItems ys);
           OArray (NdItems (p :: data).*1); OArray (NdItems (p :: data).*2)]
          ++ ext') g')
    /\ d' !! "_X" = Some (VRef (length h + 2))
    /\ d' !! "_y" = Some (VRef (length h + 3))
    /\ d' !! "random_state" = Some (if is_None rs then rs0 else rs)
    /\ d' !! "split" = Some s.
Proof.
  intros H HX Hy Hsp Hrs Hlx Hly Hs [Hcall1 Hcall2].
  rewrite (shuffle_unfold _ _ _ _ _ rs _ _ _ _ _ _ H HX Hy Hlx Hly Hs).
  cbv beta iota.
  set (d1 := if is_None rs then d else <["random_state" := rs]> d).
  set (rs1 := if is_None rs then rs0 else rs) in *.
  assert (Hsp1 : d1 !! "split" = Some s).
  { unfold d1. rewrite seeded_lookup by discriminate. exact Hsp. }
  assert (Hrs1 : d1 !! "random_state" = Some rs1).
  { apply seeded_random_state, Hrs. }
  assert (Hy1 : d1 !! "_y" = Some (VRef ly)).
  { unfold d1. rewrite seeded_lookup by discriminate. exact Hy. }
  set (nX := NdItems (p :: data).*1) in *.
  set (ny := NdItems (p :: data).*2) in *.
  set (ext := [OArray (NdItems xs); OArray (NdItems ys); OArray nX; OArray ny]).
  unfold bind at 1. rewrite np_array_nf. cbv beta iota.
  unfold bind at 1. rewrite np_array_nf. cbv beta iota.
  cbn [length app]. fold nX ny. fold ext.
  assert (HlX : (h ++ ext) !! (length h + 2) = Some (OArray nX)).
  { rewrite lookup_app_r by lia.
    replace (length h + 2 - length h) with 2 by lia. reflexivity. }
  assert (Hlny : (h ++ ext) !! (length h + 3) = Some (OArray ny)).
  { rewrite lookup_app_r by lia.
    replace (length h + 3 - length h) with 3 by lia. reflexivity. }
  assert (Hlo : (h ++ ext) !! ly = Some (OArray (NdItems ys))).
  { apply lookup_app_l_Some, Hly. }
  assert (HnX : len_in (h ++ ext) (VRef (length h + 2)) = Some (length (p :: data))).
  { cbn [len_in]. rewrite HlX. unfold nX. rewrite length_fmap. reflexivity. }
  assert (Hny : len_in (h ++ ext) (VRef (length h + 3)) = Some (length (p :: data))).
  { cbn [len_in]. rewrite Hlny. unfold ny. rewrite length_fmap. reflexivity. }
  assert (Hnly : len_in (h ++ ext) (VRef ly) = Some (length ys)).
  { cbn [len_in]. rewrite Hlo. reflexivity. }
  assert (HdX : deref (h ++ ext) (VRef (length h + 2)) = inr (OArray nX)).
  { unfold deref. rewrite HlX. reflexivity. }
  assert (Hdo : deref (h ++ ext) (VRef ly) = inr (OArray (NdItems ys))).
  { unfold deref. rewrite Hlo. reflexivity. }
  unfold bind at 1. unfold set_X. unfold bind at 1.
  rewrite (setattr_nf _ _ _ _ _ _ _ _ H). cbv beta iota.
  destruct (split_sized h self d0 (<["_X" := VRef (length h + 2)]> d1) ext g1
              s (VRef (length h + 2)) (VRef ly) rs1
              (length (p :: data)) (length ys) H)
    as (d3 & ext3 & Hrun3 & Hd3);
    [by simplify_map_eq | by simplify_map_eq | by simplify_map_eq
    | by simplify_map_eq | exact HnX | exact Hnly
    | rewrite HdX, Hdo; exact Hcall1 |].
  rewrite Hrun3. cbv beta iota. rewrite HdX, Hdo.
  set (g2 := if isinstance_float s && (length (p :: data) =? length ys)
             then (tts g1 (inr (OArray nX)) (inr (OArray (NdItems ys))) s rs1).1
             else g1) in *.
  assert (Hin : forall k, k ∈ ["_X"; "_y"; "split"; "random_state"] ->
                  k ∉ split_attrs).
  { intros k Hk Hk'. unfold split_attrs in Hk'.
    rewrite !elem_of_cons in Hk, Hk'.
    destruct Hk as [-> | [-> | [-> | [-> | Hk]]]];
      [| | | | by apply elem_of_nil in Hk];
      destruct Hk' as [Hk' | [Hk' | [Hk' | [Hk' | Hk']]]];
      try discriminate Hk'; by apply elem_of_nil in Hk'. }
  assert (HdX2 : deref (h ++ ext ++ ext3) (VRef (length h + 2)) = inr (OArray nX)).
  { rewrite app_assoc. apply deref_array, HlX. }
  assert (Hdy2 : deref (h ++ ext ++ ext3) (VRef (length h + 3)) = inr (OArray ny)).
  { rewrite app_assoc. apply deref_array, Hlny. }
  unfold set_y. unfold bind at 1.
  rewrite (setattr_nf _ _ _ _ _ _ _ _ H). cbv beta iota.
  destruct (split_sized h self d0 (<["_y" := VRef (length h + 3)]> d3)
              (ext ++ ext3) g2
              s (VRef (length h + 2)) (VRef (length h + 3)) rs1
              (length (p :: data)) (length (p :: data)) H)
    as (d5 & ext5 & Hrun5 & Hd5).
  - rewrite lookup_insert_ne by discriminate.
    rewrite Hd3 by (apply Hin; set_solver). by simplify_map_eq.
  - rewrite lookup_insert_ne by discriminate.
    rewrite Hd3 by (apply Hin; set_solver). by simplify_map_eq.
  - by simplify_map_eq.
  - rewrite lookup_insert_ne by discriminate.
    rewrite Hd3 by (apply Hin; set_solver). by simplify_map_eq.
  - rewrite app_assoc. apply len_in_app, HnX.
  - rewrite app_assoc. apply len_in_app, Hny.
  - intros Hf _. rewrite HdX2, Hdy2. apply Hcall2, Hf.
  - rewrite Hrun5. eexists d5, (ext3 ++ ext5), _.
    split; [rewrite <- app_assoc; reflexivity |].
    rewrite !Hd5 by (apply Hin; set_solver).
    rewrite lookup_insert_eq.
    rewrite !lookup_insert_ne by discriminate.
    rewrite !Hd3 by (apply Hin; set_solver).
    repeat split; by simplify_map_eq.
Qed.

Lemma items_at_nf h self d0 d ext g l items :
  h !! self = Some (OInstance d0) ->
  (h ++ ext) !! l = Some (OArray (NdItems items)) ->
  items_at (heap (nf h self d ext g)) (VRef l) = Some items.
Proof.
  intros H Hl. unfold items_at, deref.
  rewrite (lookup_array_nf _ _ _ _ _ _ _ _ H Hl). reflexivity.
Qed.

(** [shuffle] on a manager that holds two arrays, in a store. *)
Lemma shuffle_result w self d rs rs0 s lx ly xs ys g1 p data :
  heap w !! self = Some (OInstance d) ->
  d !! "_X" = Some (VRef lx) -> d !! "_y" = Some (VRef ly) ->
  d !! "split" = Some s -> d !! "random_state" = Some rs0 ->
  heap w !! lx = Some (OArray (NdItems xs)) ->
  heap w !! ly = Some (OArray (NdItems ys)) ->
  shuf (rng w) (zip xs ys) = (g1, p :: data) ->
  shuffle_splits_return tts s (if is_None rs then rs0 else rs) g1 (p :: data) ys ->
  exists w',
    shuffle item Rng tts shuf self rs w = (Return tt, w')
    /\ attr w' self "_X" = Some (VRef (length (heap w) + 2))
    /\ items_at (heap w') (VRef (length (heap w) + 2)) = Some (p :: data).*1
    /\ attr w' self "_y" = Some (VRef (length (heap w) + 3))
    /\ items_at (heap w') (VRef (length (heap w) + 3)) = Some (p :: data).*2
    /\ attr w' self "random_state" = Some (if is_None rs then rs0 else rs)
    /\ attr w' self "split" = Some s
    /\ items_at (heap w') (VRef lx) = Some xs
    /\ items_at (heap w') (VRef ly) = Some ys.
Proof.
  intros H HX Hy Hsp Hrs Hlx Hly Hs Hcalls.
  destruct (shuffle_run (heap w) self d d (rng w) rs rs0 s lx ly xs ys g1 p data
              H HX Hy Hsp Hrs Hlx Hly Hs Hcalls)
    as (d' & ext' & g' & Hrun & HX' & Hy' & Hrs' & Hsp').
  eexists. split; [rewrite (nf_id w self d H) at 1; exact Hrun |].
  rewrite !(attr_nf _ _ _ _ _ _ _ H).
  repeat split; try assumption.
  - apply (items_at_nf _ _ _ _ _ _ _ _ H).
    rewrite lookup_app_r by lia.
    replace (length (heap w) + 2 - length (heap w)) with 2 by lia. reflexivity.
  - apply (items_at_nf _ _ _ _ _ _ _ _ H).
    rewrite lookup_app_r by lia.
    replace (length (heap w) + 3 - length (heap w)) with 3 by lia. reflexivity.
  - apply (items_at_nf _ _ _ _ _ _ _ _ H). apply lookup_app_l_Some, Hlx.
  - apply (items_at_nf _ _ _ _ _ _ _ _ H). apply lookup_app_l_Some, Hly.
Qed.

(** [shuffle] when the generator returns no pair. *)
Lemma shuffle_empty w self d rs lx ly xs ys g1 :
  heap w !! self = Some (OInstance d) ->
  d !! "_X" = Some (VRef lx) -> d !! "_y" = Some (VRef ly) ->
  heap w !! lx = Some (OArray (NdItems xs)) ->
  heap w !! ly = Some (OArray (NdItems ys)) ->
  shuf (rng w) (zip xs ys) = (g1, []) ->
  shuffle item Rng tts shuf self rs w
  = (Raise (ValueError "not enough values to unpack (expected 2, got 0)"),
     World (<[self := OInstance (if is_None rs then d
                                 else <["random_state" := rs]> d)]> (heap w)
            ++ [OArray (NdItems xs); OArray (NdItems ys)]) g1).
Proof.
  intros H HX Hy Hlx Hly Hs. rewrite (nf_id w self d H) at 1.
  rewrite (shuffle_unfold _ _ _ _ _ rs _ _ _ _ _ _ H HX Hy Hlx Hly Hs).
  reflexivity.
Qed.

(** [shuffle] on a manager without data. *)
Lemma shuffle_None w self d rs :
  heap w !! self = Some (OInstance d) ->
  d !! "_X" = Some VNone -> d !! "_y" = Some VNone ->
  shuffle item Rng tts shuf self rs w
  = (Raise TypeError,
     World (<[self := OInstance (if is_None rs then d
                                 else <["random_state" := rs]> d)]> (heap w)
            ++ [OArray (Nd0 VNone); OArray (Nd0 VNone)]) (rng w)).
Proof.
  intros H HX Hy. rewrite (nf_id w self d H) at 1.
  unfold shuffle. unfold bind at 1.
  rewrite (shuffle_seed_nf _ _ _ _ _ _ _ H). cbv beta iota.
  unfold X, y. unfold bind at 1.
  erewrite (getattr_nf _ _ _ _ _ _ _ _ H)
    by (rewrite seeded_lookup by discriminate; exact HX).
  cbv beta iota. unfold bind at 1. rewrite np_copy_None_nf. cbv beta iota.
  unfold bind at 1.
  erewrite (getattr_nf _ _ _ _ _ _ _ _ H)
    by (rewrite seeded_lookup by discriminate; exact Hy).
  cbv beta iota. unfold bind at 1. rewrite np_copy_None_nf. cbv beta iota.
  cbn [length app]. rewrite !Nat.add_0_r. unfold bind at 1.
  erewrite (iter_0d_nf _ _ _ _ _ _ _ VNone H)
    by (apply list_lookup_middle; reflexivity).
  reflexivity.
Qed.

(** [shuffle] on a manager that splits: the split routine runs at each of
    the two assignments. *)
Lemma shuffle_splits_nf h self d0 d g rs rs0 s lx ly xs ys g1 p data
    g2 a1 b1 c1 e1 g3 a2 b2 c2 e2 :
  h !! self = Some (OInstance d0) ->
  d !! "_X" = Some (VRef lx) -> d !! "_y" = Some (VRef ly) ->
  d !! "split" = Some s -> d !! "random_state" = Some rs0 ->
  h !! lx = Some (OArray (NdItems xs)) ->
  h !! ly = Some (OArray (NdItems ys)) ->
  isinstance_float s = true ->
  shuf g (zip xs ys) = (g1, p :: data) ->
  length (p :: data) = length ys ->
  tts g1 (inr (OArray (NdItems (p :: data).*1))) (inr (OArray (NdItems ys)))
    s (if is_None rs then rs0 else rs) = (g2, inr (a1, b1, c1, e1)) ->
  tts g2 (inr (OArray (NdItems (p :: data).*1)))
    (inr (OArray (NdItems (p :: data).*2)))
    s (if is_None rs then rs0 else rs) = (g3, inr (a2, b2, c2, e2)) ->
  shuffle item Rng tts shuf self rs (nf h self d [] g)
  = (Return tt,
     nf h self
       (with_split
          (<["_y" := VRef (length h + 3)]>
             (with_split
                (<["_X" := VRef (length h + 2)]>
                   (if is_None rs then d else <["random_state" := rs]> d))
                (length h + 4)))
          (length h + 8))
       [OArray (NdItems xs); OArray (NdItems ys);
        OArray (NdItems (p :: data).*1); OArray (NdItems (p :: data).*2);
        OArray a1; OArray b1; OArray c1; OArray e1;
        OArray a2; OArray b2; OArray c2; OArray e2] g3).
Proof.
  intros H HX Hy Hsp Hrs Hlx Hly Hf Hs Hlen Ht1 Ht2.
  rewrite (shuffle_unfold _ _ _ _ _ rs _ _ _ _ _ _ H HX Hy Hlx Hly Hs).
  cbv beta iota.
  set (d1 := if is_None rs then d else <["random_state" := rs]> d).
  set (rs1 := if is_None rs then rs0 else rs) in *.
  assert (Hsp1 : d1 !! "split" = Some s).
  { unfold d1. rewrite seeded_lookup by discriminate. exact Hsp. }
  assert (Hrs1 : d1 !! "random_state" = Some rs1).
  { apply seeded_random_state, Hrs. }
  assert (Hy1 : d1 !! "_y" = Some (VRef ly)).
  { unfold d1. rewrite seeded_lookup by discriminate. exact Hy. }
  set (nX := NdItems (p :: data).*1) in *.
  set (ny := NdItems (p :: data).*2) in *.
  set (ext := [OArray (NdItems xs); OArray (NdItems ys); OArray nX; OArray ny]).
  unfold bind at 1. rewrite np_array_nf. cbv beta iota.
  unfold bind at 1. rewrite np_array_nf. cbv beta iota.
  cbn [length app]. fold nX ny. fold ext.
  assert (HlX : (h ++ ext) !! (length h + 2) = Some (OArray nX)).
  { rewrite lookup_app_r by lia.
    replace (length h + 2 - length h) with 2 by lia. reflexivity. }
  assert (Hlny : (h ++ ext) !! (length h + 3) = Some (OArray ny)).
  { rewrite lookup_app_r by lia.
    replace (length h + 3 - length h) with 3 by lia. reflexivity. }
  assert (Hlo : (h ++ ext) !! ly = Some (OArray (NdItems ys))).
  { apply lookup_app_l_Some, Hly. }
  assert (Hn : length (p :: data).*1 = length ys).
  { rewrite length_fmap. exact Hlen. }
  assert (Hm : length (p :: data).*2 = length ys).
  { rewrite length_fmap. exact Hlen. }
  unfold bind at 1. unfold set_X. unfold bind at 1.
  rewrite (setattr_nf _ _ _ _ _ _ _ _ H). cbv beta iota.
  erewrite (split_run_nf tts h self d0 _ ext g1 s (VRef (length h + 2)) (VRef ly)
              rs1 (length ys) g2 a1 b1 c1 e1 H);
    [| by simplify_map_eq | by simplify_map_eq | by simplify_map_eq
     | by simplify_map_eq
     | repeat split; try discriminate; try assumption;
       cbn [len_in]; [rewrite HlX; unfold nX; rewrite Hn | rewrite Hlo];
       reflexivity
     | unfold deref; rewrite HlX, Hlo; exact Ht1].
  cbv beta iota.
  set (ext2 := ext ++ [OArray a1; OArray b1; OArray c1; OArray e1]).
  assert (HlX2 : (h ++ ext2) !! (length h + 2) = Some (OArray nX)).
  { unfold ext2. rewrite app_assoc. apply lookup_app_l_Some, HlX. }
  assert (Hlny2 : (h ++ ext2) !! (length h + 3) = Some (OArray ny)).
  { unfold ext2. rewrite app_assoc. apply lookup_app_l_Some, Hlny. }
  unfold set_y. unfold bind at 1.
  rewrite (setattr_nf _ _ _ _ _ _ _ _ H). cbv beta iota.
  erewrite (split_run_nf tts h self d0 _ ext2 g2 s (VRef (length h + 2))
              (VRef (length h + 3)) rs1 (length ys) g3 a2 b2 c2 e2 H);
    [| unfold with_split; by simplify_map_eq
     | unfold with_split; by simplify_map_eq
     | unfold with_split; by simplify_map_eq
     | unfold with_split; by simplify_map_eq
     | repeat split; try discriminate; try assumption;
       cbn [len_in]; [rewrite HlX2; unfold nX; rewrite Hn
                     | rewrite Hlny2; unfold ny; rewrite Hm];
       reflexivity
     | unfold deref; rewrite HlX2, Hlny2; exact Ht2].
  unfold ext2, ext. rewrite !length_app. cbn [length app].
  replace (length h + (4 + 4)) with (length h + 8) by lia.
  reflexivity.
Qed.

(** *** The initialiser when the split routine raises *)

Lemma init_raise h self d0 d ext g X yv split name rs n g' e :
  h !! self = Some (OInstance d0) ->
  isinstance_str X = false ->
  guard_holds (h ++ ext) split X yv n ->
  tts g (deref (h ++ ext) X) (deref (h ++ ext) yv) split rs = (g', inl e) ->
  __init__ item Rng tts lb ld self X yv split name rs (nf h self d ext g)
  = (Raise e,
     nf h self (<["_y" := yv]> (<["_X" := X]> (init_attrs d rs split))) ext g').
Proof.
  intros H HX Hg Ht.
  assert (Hargs : __init__ item Rng tts lb ld self X yv split name rs
            (nf h self d ext g)
          = bind item Rng (ret item Rng (X, yv, name))
              (fun '(X, y, name) =>
                 bind item Rng (setattr item Rng self "random_state" rs) (fun _ =>
                 bind item Rng (setattr item Rng self "split" split) (fun _ =>
                 bind item Rng (setattr item Rng self "_X" VNone) (fun _ =>
                 bind item Rng (setattr item Rng self "_y" VNone) (fun _ =>
                 bind item Rng (setattr item Rng self "X_train" VNone) (fun _ =>
                 bind item Rng (setattr item Rng self "X_test" VNone) (fun _ =>
                 bind item Rng (setattr item Rng self "y_train" VNone) (fun _ =>
                 bind item Rng (setattr item Rng self "y_test" VNone) (fun _ =>
                 bind item Rng (set_X item Rng tts self X) (fun _ =>
                 bind item Rng (set_y item Rng tts self y) (fun _ =>
                 setattr item Rng self "name"
                   (if isinstance_str name then name else VStr "Unnamed"))))))))))))
              (nf h self d ext g)).
  { destruct X; try reflexivity. discriminate HX. }
  rewrite Hargs. unfold bind at 1. unfold ret at 1. cbv beta iota.
  unfold bind. rewrite !(setattr_nf _ _ _ _ _ _ _ _ H). cbv beta iota.
  unfold set_X, set_y, bind.
  rewrite (setattr_nf _ _ _ _ _ _ _ _ H). cbv beta iota.
  erewrite (split_skip_nf tts _ _ _ _ _ _ split X VNone H);
    [| by simplify_map_eq | by simplify_map_eq | by simplify_map_eq
     | right; right; left; reflexivity].
  rewrite (setattr_nf _ _ _ _ _ _ _ _ H). cbv beta iota.
  erewrite (split_raise_nf _ _ _ _ _ _ split X yv rs n g' e H);
    [| by simplify_map_eq | by simplify_map_eq | by simplify_map_eq
     | by simplify_map_eq | exact Hg | exact Ht].
  reflexivity.
Qed.

End Run.
End DMRun.

Import DataManager.
Import DMFacts.
Import DMFrame.
Import DMRun.

(** ** The constructor on the name of a dataset *)

(** C10 as stated fails: Boston is recognized, and with a split of 1.5,
    which the split routine rejects, the constructor raises and the name
    is never set. *)
Lemma dataset_name_without_name_counterexample :
  lower "Boston" = "boston"
  /\ exists w',
       DataManager.DataManager Z nat Fixture.split Fixture.boston Fixture.diabetes
         (VStr "Boston") VNone (VFloat (3 # 2)) VNone VNone Fixture.empty_world
       = (Raise (ValueError "test_size"), w')
       /\ attr w' 0 "name" = None
       /\ array_at w' (VRef 1) = Some (NdItems [1; 2; 3]%Z).
Proof.
  split; [reflexivity |]. eexists.
  split; [vm_compute; reflexivity |].
  split; vm_compute; reflexivity.
Qed.

(** C10, amended: constructed with a string whose lower-case form is
    boston or diabetes, the constructor loads that dataset and assigns it
    to X and y before it assigns the name.  The assignment of y calls the
    split routine when the split is a float and features and labels have
    equal lengths.  If that call does not raise, the manager holds the
    features and labels of the dataset and has the given string as its
    name; if it raises, the constructor raises the same exception and the
    instance holds the dataset but has no name.  Constructed with any
    other string, the call raises ValueError and the instance is left
    without attributes. *)
Theorem construct_from_dataset_name :
  forall (item Rng : Type)
    (tts : Rng -> value + obj item -> value + obj item -> value -> value ->
           Rng * (exn + (ndarray item * ndarray item * ndarray item * ndarray item)))
    (lb ld : list item * list item)
    (w : world item Rng) (s : string) (y split name rs : value),
    let self := length (heap w) in
    (forall ds : list item * list item,
       (lower s = "boston" /\ ds = lb) \/ (lower s = "diabetes" /\ ds = ld) ->
       (isinstance_float split = true -> length ds.1 = length ds.2 ->
        forall g' e, tts (rng w) (inr (OArray (NdItems ds.1)))
                       (inr (OArray (NdItems ds.2))) split rs <> (g', inl e)) ->
       exists w',
         DataManager.DataManager item Rng tts lb ld (VStr s) y split name rs w
           = (Return self, w')
         /\ attr w' self "name" = Some (VStr s)
         /\ attr w' self "_X" = Some (VRef (self + 1))
         /\ array_at w' (VRef (self + 1)) = Some (NdItems ds.1)
         /\ attr w' self "_y" = Some (VRef (self + 2))
         /\ array_at w' (VRef (self + 2)) = Some (NdItems ds.2))
    /\ (forall (ds : list item * list item) (g' : Rng) (e : exn),
       (lower s = "boston" /\ ds = lb) \/ (lower s = "diabetes" /\ ds = ld) ->
       isinstance_float split = true -> length ds.1 = length ds.2 ->
       tts (rng w) (inr (OArray (NdItems ds.1)))
         (inr (OArray (NdItems ds.2))) split rs = (g', inl e) ->
       DataManager.DataManager item Rng tts lb ld (VStr s) y split name rs w
       = (Raise e,
          World (heap w ++
                 [OInstance (<["_y" := VRef (self + 2)]> (
                             <["_X" := VRef (self + 1)]> (init_attrs ∅ rs split)));
                  OArray (NdItems ds.1); OArray (NdItems ds.2)]) g'))
    /\ (lower s <> "boston" -> lower s <> "diabetes" ->
        DataManager.DataManager item Rng tts lb ld (VStr s) y split name rs w
        = (Raise (ValueError ("'" +:+ s +:+ "' is not a valid dataset")),
           World (heap w ++ [OInstance ∅]) (rng w))).
Proof.
  intros item Rng tts lb ld w s y split name rs self. split; [| split].
  - intros ds Hs Hok.
    assert (Hs' : (lower s = "boston" /\ ds = lb) \/
                  (lower s <> "boston" /\ lower s = "diabetes" /\ ds = ld)).
    { destruct Hs as [[Hb ->] | [Hd ->]]; [left; auto | right].
      repeat split; [rewrite Hd; discriminate | exact Hd]. }
    unfold DataManager.DataManager, bind.
    rewrite alloc_instance. cbv beta iota.
    rewrite (init_loader tts lb ld _ _ _ _ _ s y split name rs ds Hs').
    cbn [length app]. rewrite !Nat.add_0_r.
    set (h := heap w ++ [OInstance ∅]).
    set (ext := [OArray (NdItems ds.1); OArray (NdItems ds.2)]).
    assert (Hself : h !! self = Some (OInstance ∅)) by apply new_self.
    assert (Hh : length h = self + 1).
    { unfold h. rewrite length_app. reflexivity. }
    assert (HlX : (h ++ ext) !! length h = Some (OArray (NdItems ds.1))).
    { apply list_lookup_middle. reflexivity. }
    assert (Hly : (h ++ ext) !! (length h + 1) = Some (OArray (NdItems ds.2))).
    { rewrite lookup_app_r by lia.
      replace (length h + 1 - length h) with 1 by lia. reflexivity. }
    assert (HnX : len_in (h ++ ext) (VRef (length h)) = Some (length ds.1)).
    { cbn [len_in]. rewrite HlX. reflexivity. }
    assert (Hny : len_in (h ++ ext) (VRef (length h + 1)) = Some (length ds.2)).
    { cbn [len_in]. rewrite Hly. reflexivity. }
    assert (Hfinal : forall d ext' (g' : Rng),
              let w' := nf h self d (ext ++ ext') g' in
              d !! "name" = Some (VStr s) ->
              d !! "_X" = Some (VRef (length h)) ->
              d !! "_y" = Some (VRef (length h + 1)) ->
              attr w' self "name" = Some (VStr s)
              /\ attr w' self "_X" = Some (VRef (self + 1))
              /\ array_at w' (VRef (self + 1)) = Some (NdItems ds.1)
              /\ attr w' self "_y" = Some (VRef (self + 2))
              /\ array_at w' (VRef (self + 2)) = Some (NdItems ds.2)).
    { intros d ext' g' w' Hn HX Hy.
      assert (Hw : heap w' !! self = Some (OInstance d)) by (eapply nf_self; eauto).
      assert (Ha : forall l o, (h ++ ext) !! l = Some (@OArray item o) ->
                    array_at w' (VRef l) = Some o).
      { intros l o Hl. unfold array_at, deref.
        unfold w'. rewrite (heap_nf _ _ _ _ _ _ Hself).
        rewrite list_lookup_insert_ne.
        - rewrite app_assoc, lookup_app_l, Hl; [reflexivity |].
          apply lookup_lt_Some in Hl. exact Hl.
        - intros <-. apply lookup_lt_Some in Hself as Hlt.
          rewrite lookup_app_l, Hself in Hl by exact Hlt. discriminate. }
      unfold attr. rewrite Hw, Hn, HX, Hy, Hh.
      replace (self + 1 + 1) with (self + 2) by lia.
      repeat split; try reflexivity.
      - apply Ha. rewrite <- Hh. exact HlX.
      - apply Ha. replace (self + 2) with (length h + 1) by lia. exact Hly. }
    destruct (isinstance_float split) eqn:Hf.
    + destruct (decide (length ds.1 = length ds.2)) as [Heq | Hne].
      * destruct (tts (rng w) (inr (OArray (NdItems ds.1)))
                    (inr (OArray (NdItems ds.2))) split rs)
          as [g' [err | [[[a b] c] e]]] eqn:Ht.
        { exfalso. eapply Hok; [reflexivity | exact Heq | reflexivity]. }
        erewrite (init_run tts lb ld h self ∅ ∅ ext (rng w)
                    (VRef (length h)) (VRef (length h + 1)) split (VStr s) rs
                    (length ds.1) g' a b c e Hself eq_refl).
        -- cbv beta iota. unfold ret. eexists. split; [reflexivity |].
           apply Hfinal; unfold with_split, init_attrs; by simplify_map_eq.
        -- repeat split; try assumption; try discriminate. rewrite Heq. exact Hny.
        -- unfold deref. rewrite HlX, Hly. exact Ht.
      * erewrite (init_skip tts lb ld h self ∅ ∅ ext (rng w)
                    (VRef (length h)) (VRef (length h + 1)) split (VStr s) rs
                    Hself eq_refl).
        -- cbv beta iota. unfold ret. eexists. split; [reflexivity |].
           rewrite <- (app_nil_r ext).
           apply Hfinal; unfold init_attrs; by simplify_map_eq.
        -- right. right. right. eauto.
    + erewrite (init_skip tts lb ld h self ∅ ∅ ext (rng w)
                    (VRef (length h)) (VRef (length h + 1)) split (VStr s) rs
                  Hself eq_refl).
      * cbv beta iota. unfold ret. eexists. split; [reflexivity |].
        rewrite <- (app_nil_r ext).
        apply Hfinal; unfold init_attrs; by simplify_map_eq.
      * left. exact Hf.
  - intros ds g' e Hs Hf Heq Ht.
    assert (Hs' : (lower s = "boston" /\ ds = lb) \/
                  (lower s <> "boston" /\ lower s = "diabetes" /\ ds = ld)).
    { destruct Hs as [[Hb ->] | [Hd ->]]; [left; auto | right].
      repeat split; [rewrite Hd; discriminate | exact Hd]. }
    unfold DataManager.DataManager, bind.
    rewrite alloc_instance. cbv beta iota.
    rewrite (init_loader tts lb ld _ _ _ _ _ s y split name rs ds Hs').
    cbn [length app]. rewrite !Nat.add_0_r.
    set (h := heap w ++ [OInstance ∅]).
    set (ext := [OArray (NdItems ds.1); OArray (NdItems ds.2)]).
    assert (Hself : h !! self = Some (OInstance ∅)) by apply new_self.
    assert (Hh : length h = self + 1).
    { unfold h. rewrite length_app. reflexivity. }
    assert (HlX : (h ++ ext) !! length h = Some (OArray (NdItems ds.1))).
    { apply list_lookup_middle. reflexivity. }
    assert (Hly : (h ++ ext) !! (length h + 1) = Some (OArray (NdItems ds.2))).
    { rewrite lookup_app_r by lia.
      replace (length h + 1 - length h) with 1 by lia. reflexivity. }
    erewrite (init_raise tts lb ld h self ∅ ∅ ext (rng w)
                (VRef (length h)) (VRef (length h + 1)) split (VStr s) rs
                (length ds.1) g' e Hself eq_refl).
    + cbv beta iota. rewrite Hh. replace (self + 1 + 1) with (self + 2) by lia.
      unfold h, self. rewrite nf_new. reflexivity.
    + repeat split; try assumption; try discriminate.
      * cbn [len_in]. rewrite HlX. reflexivity.
      * cbn [len_in]. rewrite Hly, Heq. reflexivity.
    + unfold deref. rewrite HlX, Hly. exact Ht.
  - intros Hb Hd. unfold DataManager.DataManager, bind.
    rewrite alloc_instance. cbv beta iota.
    rewrite (init_invalid tts lb ld _ _ _ _ _ s y split name rs Hb Hd).
    rewrite nf_new. reflexivity.
Qed.

(** C10 at the name Boston with the splits 0.2 and 1.5, and at the name
    iris. *)
Lemma construct_from_dataset_name_witness :
  (exists w',
     DataManager.DataManager Z nat Fixture.split Fixture.boston Fixture.diabetes
       (VStr "Boston") VNone (VFloat (1 # 5)) VNone VNone Fixture.empty_world
       = (Return 0, w')
     /\ attr w' 0 "name" = Some (VStr "Boston")
     /\ attr w' 0 "_X" = Some (VRef 1)
     /\ array_at w' (VRef 1) = Some (NdItems [1; 2; 3]%Z)
     /\ attr w' 0 "_y" = Some (VRef 2)
     /\ array_at w' (VRef 2) = Some (NdItems [10; 20; 30]%Z))
  /\ DataManager.DataManager Z nat Fixture.split Fixture.boston Fixture.diabetes
       (VStr "Boston") VNone (VFloat (3 # 2)) VNone VNone Fixture.empty_world
     = (Raise (ValueError "test_size"),
        World ([] ++
               [OInstance (<["_y" := VRef 2]> (<["_X" := VRef 1]> (
                           init_attrs ∅ VNone (VFloat (3 # 2)))));
                OArray (NdItems [1; 2; 3]%Z); OArray (NdItems [10; 20; 30]%Z)]) 0)
  /\ DataManager.DataManager Z nat Fixture.split Fixture.boston Fixture.diabetes
       (VStr "iris") VNone (VFloat (1 # 5)) VNone VNone Fixture.empty_world
     = (Raise (ValueError "'iris' is not a valid dataset"),
        World [OInstance ∅] 0).
Proof.
  split; [| split].
  - apply (proj1 (construct_from_dataset_name Z nat Fixture.split
             Fixture.boston Fixture.diabetes Fixture.empty_world
             "Boston" VNone (VFloat (1 # 5)) VNone VNone)
             Fixture.boston (or_introl (conj eq_refl eq_refl))).
    intros _ _ g' e H. vm_compute in H. discriminate H.
  - apply (proj1 (proj2 (construct_from_dataset_name Z nat Fixture.split
             Fixture.boston Fixture.diabetes Fixture.empty_world
             "Boston" VNone (VFloat (3 # 2)) VNone VNone))
             Fixture.boston 0 (ValueError "test_size")
             (or_introl (conj eq_refl eq_refl)) eq_refl eq_refl eq_refl).
  - apply (proj2 (proj2 (construct_from_dataset_name Z nat Fixture.split
             Fixture.boston Fixture.diabetes Fixture.empty_world
             "iris" VNone (VFloat (1 # 5)) VNone VNone))); discriminate.
Defined.

(** ** Further properties of the data manager *)

(** X1: [data] with copy=True, on a manager whose [_X] and [_y] are set
    and refer to objects of the store, returns two new arrays, allocated
    after every existing object: a copy of the contents where the
    attribute refers to an array, a 0-d array wrapping the value where it
    does not.  Nothing else changes, and the result is never False.  With
    copy=False it returns the two stored values themselves and leaves the
    store as it is. *)
Theorem data_copies_or_aliases :
  forall (item Rng : Type) (w : world item Rng) (self : nat)
    (d : gmap string value) (a b : value),
    heap w !! self = Some (OInstance d) ->
    d !! "_X" = Some a -> d !! "_y" = Some b ->
    (forall l, b = VRef l -> l < length (heap w)) ->
    let n := length (heap w) in
    let copy v := match array_at w v with Some arr => arr | None => Nd0 v end in
    data item Rng self true w
    = (Return (Pair (VRef n) (VRef (n + 1))),
       World (heap w ++ [OArray (copy a); OArray (copy b)]) (rng w))
    /\ data item Rng self false w = (Return (Pair a b), w).
Proof.
  intros item Rng w self d a b H Ha Hb Hwf n copy. split.
  - apply (data_true_run w self d a b H Ha Hb Hwf).
  - apply (data_false_run w self d a b H Ha Hb).
Qed.

(** X1 at the manager that holds two arrays of three elements. *)
Lemma data_copies_or_aliases_witness :
  data Z nat 2 true Fixture.full_manager
  = (Return (Pair (VRef 3) (VRef 4)),
     World [OArray (NdItems [1; 2; 3]%Z); OArray (NdItems [7; 8; 9]%Z);
            OInstance Fixture.full_attrs;
            OArray (NdItems [1; 2; 3]%Z); OArray (NdItems [7; 8; 9]%Z)] 0)
  /\ data Z nat 2 false Fixture.full_manager
     = (Return (Pair (VRef 0) (VRef 1)), Fixture.full_manager).
Proof.
  apply (data_copies_or_aliases Z nat Fixture.full_manager 2 Fixture.full_attrs
           (VRef 0) (VRef 1) eq_refl eq_refl eq_refl).
  intros l [= <-]. cbn. lia.
Defined.

(** X2: whatever the outcome of an assignment to X or to y, or of a call
    of [_split] (they may return, or raise what [len] or the split routine
    raises), every other object of the store is as it was, and the manager
    itself differs at most in the attribute assigned and in [X_train],
    [X_test], [y_train] and [y_test]. *)
Theorem setters_change_only_their_attributes :
  forall (item Rng : Type)
    (tts : Rng -> value + obj item -> value + obj item -> value -> value ->
           Rng * (exn + (ndarray item * ndarray item * ndarray item * ndarray item)))
    (w : world item Rng) (self : nat) (d : gmap string value) (v : value),
    heap w !! self = Some (OInstance d) ->
    let wX := (set_X item Rng tts self v w).2 in
    let wy := (set_y item Rng tts self v w).2 in
    let ws := (_split item Rng tts self w).2 in
    (forall l o, l <> self -> heap w !! l = Some o ->
       heap wX !! l = Some o /\ heap wy !! l = Some o /\ heap ws !! l = Some o)
    /\ (forall k, k ∉ "_X" :: split_attrs -> attr wX self k = d !! k)
    /\ (forall k, k ∉ "_y" :: split_attrs -> attr wy self k = d !! k)
    /\ (forall k, k ∉ split_attrs -> attr ws self k = d !! k).
Proof.
  intros item Rng tts w self d v H wX wy ws.
  pose proof (set_X_modifies tts self v w) as HX.
  pose proof (set_y_modifies tts self v w) as Hy.
  pose proof (_split_modifies tts self w) as Hs.
  split; [| split; [| split]].
  - intros l o Hne Hl. repeat split; eapply modifies_other; eauto.
  - intros k Hk. eapply modifies_attr; eauto.
  - intros k Hk. eapply modifies_attr; eauto.
  - intros k Hk. eapply modifies_attr; eauto.
Qed.

(** X2 at the manager of [two_arrays], assigned its first array. *)
Lemma setters_change_only_their_attributes_witness :
  let wX := (set_X Z nat Fixture.split 2 (VRef 0) Fixture.two_arrays).2 in
  let wy := (set_y Z nat Fixture.split 2 (VRef 0) Fixture.two_arrays).2 in
  let ws := (_split Z nat Fixture.split 2 Fixture.two_arrays).2 in
  (forall l o, l <> 2 -> heap Fixture.two_arrays !! l = Some o ->
     heap wX !! l = Some o /\ heap wy !! l = Some o /\ heap ws !! l = Some o)
  /\ (forall k, k ∉ "_X" :: split_attrs -> attr wX 2 k = Fixture.manager_attrs !! k)
  /\ (forall k, k ∉ "_y" :: split_attrs -> attr wy 2 k = Fixture.manager_attrs !! k)
  /\ (forall k, k ∉ split_attrs -> attr ws 2 k = Fixture.manager_attrs !! k).
Proof.
  apply (setters_change_only_their_attributes Z nat Fixture.split
           Fixture.two_arrays 2 Fixture.manager_attrs (VRef 0)).
  reflexivity.
Defined.

(** X3: [data], [clone] and the constructor change no object that exists
    when they are called, whatever they return or raise: every array keeps
    its contents and every manager its attributes, the cloned one
    included. *)
Theorem clone_and_data_leave_store_intact :
  forall (item Rng : Type)
    (tts : Rng -> value + obj item -> value + obj item -> value -> value ->
           Rng * (exn + (ndarray item * ndarray item * ndarray item * ndarray item)))
    (lb ld : list item * list item)
    (w : world item Rng) (self : nat) (copy : bool)
    (X y split name rs : value) (l : nat) (o : obj item),
    heap w !! l = Some o ->
    heap (data item Rng self copy w).2 !! l = Some o
    /\ heap (clone item Rng tts lb ld self w).2 !! l = Some o
    /\ heap (DataManager.DataManager item Rng tts lb ld X y split name rs w).2 !! l
       = Some o.
Proof.
  intros item Rng tts lb ld w self copy X y split name rs l o H.
  split; [| split].
  - apply (data_preserves self copy w), H.
  - apply (clone_preserves tts lb ld self w), H.
  - apply (DataManager_preserves tts lb ld X y split name rs w), H.
Qed.

(** X3 at the manager of [full_manager]. *)
Lemma clone_and_data_leave_store_intact_witness :
  heap (data Z nat 2 true Fixture.full_manager).2 !! 2
    = Some (OInstance Fixture.full_attrs)
  /\ heap (clone Z nat Fixture.split Fixture.boston Fixture.diabetes 2
             Fixture.full_manager).2 !! 2
     = Some (OInstance Fixture.full_attrs)
  /\ heap (DataManager.DataManager Z nat Fixture.split Fixture.boston
             Fixture.diabetes (VRef 0) (VRef 1) (VFloat (1 # 5)) VNone VNone
             Fixture.full_manager).2 !! 2
     = Some (OInstance Fixture.full_attrs).
Proof.
  apply (clone_and_data_leave_store_intact Z nat Fixture.split Fixture.boston
           Fixture.diabetes Fixture.full_manager 2 true
           (VRef 0) (VRef 1) (VFloat (1 # 5)) VNone VNone 2
           (OInstance Fixture.full_attrs)).
  reflexivity.
Defined.

(** X4: there is no rollback.  When the guards of [_split] hold and the
    split routine raises, an assignment to X or to y raises the same
    exception, and the manager is left with the new value stored and with
    [X_train], [X_test], [y_train] and [y_test] as they were before the
    assignment. *)
Theorem setter_error_keeps_assigned_value :
  forall (item Rng : Type)
    (tts : Rng -> value + obj item -> value + obj item -> value -> value ->
           Rng * (exn + (ndarray item * ndarray item * ndarray item * ndarray item)))
    (w : world item Rng) (self : nat) (d : gmap string value)
    (s X y rs v : value) (n : nat) (g' : Rng) (e : exn),
    heap w !! self = Some (OInstance d) ->
    d !! "split" = Some s -> d !! "_X" = Some X -> d !! "_y" = Some y ->
    d !! "random_state" = Some rs ->
    (guard_holds (heap w) s v y n ->
     tts (rng w) (deref (heap w) v) (deref (heap w) y) s rs = (g', inl e) ->
     set_X item Rng tts self v w
     = (Raise e, World (<[self := OInstance (<["_X" := v]> d)]> (heap w)) g'))
    /\ (guard_holds (heap w) s X v n ->
     tts (rng w) (deref (heap w) X) (deref (heap w) v) s rs = (g', inl e) ->
     set_y item Rng tts self v w
     = (Raise e, World (<[self := OInstance (<["_y" := v]> d)]> (heap w)) g')).
Proof.
  intros item Rng tts w self d s X y rs v n g' e H Hs HX Hy Hrs.
  split; intros Hg Ht; rewrite (nf_id w self d H) at 1.
  - unfold set_X, bind. rewrite (setattr_nf _ _ _ _ _ _ _ _ H). cbv beta iota.
    erewrite (split_raise_nf tts _ _ _ _ _ _ s v y rs n g' e H);
      [| by simplify_map_eq | by simplify_map_eq | by simplify_map_eq
       | by simplify_map_eq | rewrite app_nil_r; exact Hg
       | rewrite app_nil_r; exact Ht].
    unfold nf. rewrite app_nil_r. reflexivity.
  - unfold set_y, bind. rewrite (setattr_nf _ _ _ _ _ _ _ _ H). cbv beta iota.
    erewrite (split_raise_nf tts _ _ _ _ _ _ s X v rs n g' e H);
      [| by simplify_map_eq | by simplify_map_eq | by simplify_map_eq
       | by simplify_map_eq | rewrite app_nil_r; exact Hg
       | rewrite app_nil_r; exact Ht].
    unfold nf. rewrite app_nil_r. reflexivity.
Qed.

(** X4 at a manager whose split is 1.5, which the splitter rejects. *)
Lemma setter_error_keeps_assigned_value_witness :
  set_X Z nat Fixture.split 2 (VRef 0)
    (World [OArray (NdItems [1; 2; 3]%Z); OArray (NdItems [7; 8; 9]%Z);
            OInstance (<["split" := VFloat (3 # 2)]> Fixture.manager_attrs)] 0)
  = (Raise (ValueError "test_size"),
     World [OArray (NdItems [1; 2; 3]%Z); OArray (NdItems [7; 8; 9]%Z);
            OInstance (<["_X" := VRef 0]>
                         (<["split" := VFloat (3 # 2)]> Fixture.manager_attrs))] 0).
Proof.
  refine (proj1 (setter_error_keeps_assigned_value Z nat Fixture.split
            (World [OArray (NdItems [1; 2; 3]%Z); OArray (NdItems [7; 8; 9]%Z);
                    OInstance (<["split" := VFloat (3 # 2)]> Fixture.manager_attrs)] 0)
            2 (<["split" := VFloat (3 # 2)]> Fixture.manager_attrs)
            (VFloat (3 # 2)) VNone (VRef 1) (VInt 0) (VRef 0) 3 0
            (ValueError "test_size") _ _ _ _ _) _ _);
    try (vm_compute; reflexivity).
  repeat split; try reflexivity; discriminate.
Defined.

(** X5: a value without a length where an array is expected is found out
    by [len] only.  With a float split, if X and y are both not None and
    one of them has no length (a number, a boolean, a 0-d array), then an
    assignment to X raises TypeError after storing the value, and the
    constructor raises TypeError, leaving an instance that holds X and y
    but has no name. *)
Theorem unsized_value_raises_TypeError :
  forall (item Rng : Type)
    (tts : Rng -> value + obj item -> value + obj item -> value -> value ->
           Rng * (exn + (ndarray item * ndarray item * ndarray item * ndarray item)))
    (lb ld : list item * list item)
    (w : world item Rng) (self : nat) (d : gmap string value)
    (s X y v name rs : value),
    isinstance_float s = true -> y <> VNone ->
    (heap w !! self = Some (OInstance d) ->
     d !! "split" = Some s -> d !! "_y" = Some y ->
     v <> VNone ->
     len_in (heap w) v = None \/ len_in (heap w) y = None ->
     set_X item Rng tts self v w
     = (Raise TypeError,
        World (<[self := OInstance (<["_X" := v]> d)]> (heap w)) (rng w)))
    /\ (isinstance_str X = false -> X <> VNone ->
     len_in (heap w) X = None \/ len_in (heap w) y = None ->
     DataManager.DataManager item Rng tts lb ld X y s name rs w
     = (Raise TypeError,
        World (heap w ++
               [OInstance (<["_y" := y]> (<["_X" := X]> (init_attrs ∅ rs s)))])
          (rng w))).
Proof.
  intros item Rng tts lb ld w self d s X y v name rs Hf Hny. split.
  - intros H Hs Hy Hnv Hlen. rewrite (nf_id w self d H) at 1.
    unfold set_X, bind. rewrite (setattr_nf _ _ _ _ _ _ _ _ H). cbv beta iota.
    erewrite (split_type_error_nf tts _ _ _ _ _ _ s v y H);
      [| by simplify_map_eq | by simplify_map_eq | by simplify_map_eq
       | exact Hf | exact Hnv | exact Hny | rewrite app_nil_r; exact Hlen].
    unfold nf. rewrite app_nil_r. reflexivity.
  - intros HX HnX Hlen. unfold DataManager.DataManager, bind.
    rewrite alloc_instance. cbv beta iota.
    erewrite (init_type_error tts lb ld _ _ _ _ _ _ X y s name rs
                (new_self (heap w)) HX Hf HnX Hny).
    + rewrite nf_new. reflexivity.
    + rewrite app_nil_r.
      destruct Hlen as [Hl | Hl]; [left | right]; apply len_in_None_app, Hl.
Qed.

(** X5 at DataManager(5, 3), and at the assignment of 5 to X. *)
Lemma unsized_value_raises_TypeError_witness :
  set_X Z nat Fixture.split 2 (VInt 5) Fixture.two_arrays
  = (Raise TypeError,
     World [OArray (NdItems [1; 2; 3]%Z); OArray (NdItems [7; 8; 9]%Z);
            OInstance (<["_X" := VInt 5]> Fixture.manager_attrs)] 0)
  /\ DataManager.DataManager Z nat Fixture.split Fixture.boston Fixture.diabetes
       (VInt 5) (VInt 3) (VFloat (1 # 5)) VNone VNone Fixture.empty_world
     = (Raise TypeError,
        World [OInstance (<["_y" := VInt 3]> (<["_X" := VInt 5]>
                 (init_attrs ∅ VNone (VFloat (1 # 5)))))] 0).
Proof.
  split.
  - apply (proj1 (unsized_value_raises_TypeError Z nat Fixture.split
             Fixture.boston Fixture.diabetes Fixture.two_arrays 2
             Fixture.manager_attrs (VFloat (1 # 5)) VNone (VRef 1) (VInt 5)
             VNone VNone eq_refl ltac:(discriminate)));
      try reflexivity; [discriminate | left; reflexivity].
  - apply (proj2 (unsized_value_raises_TypeError Z nat Fixture.split
             Fixture.boston Fixture.diabetes Fixture.empty_world 0
             ∅ (VFloat (1 # 5)) (VInt 5) (VInt 3) VNone
             VNone VNone eq_refl ltac:(discriminate)));
      try reflexivity; [discriminate | left; reflexivity].
Defined.

(** X6: the constructor does not insist on a split.  Called with an X that
    is not a string, and with a guard of [_split] failing for X and y (the
    split is not a float, one of them is None, or their lengths differ),
    it returns a new manager that holds X and y, the given split and
    random state, the name or Unnamed, and None in [X_train], [X_test],
    [y_train] and [y_test]; the split routine is not called and the random
    generator is not advanced. *)
Theorem constructor_without_split :
  forall (item Rng : Type)
    (tts : Rng -> value + obj item -> value + obj item -> value -> value ->
           Rng * (exn + (ndarray item * ndarray item * ndarray item * ndarray item)))
    (lb ld : list item * list item)
    (w : world item Rng) (X y split name rs : value),
    isinstance_str X = false ->
    guard_fails (heap w) split X y ->
    let self := length (heap w) in
    exists w',
      DataManager.DataManager item Rng tts lb ld X y split name rs w
        = (Return self, w')
      /\ w' = World (heap w ++
                     [OInstance (<["name" := stored_name name]> (<["_y" := y]> (
                                 <["_X" := X]> (init_attrs ∅ rs split))))]) (rng w)
      /\ attr w' self "_X" = Some X /\ attr w' self "_y" = Some y
      /\ attr w' self "X_train" = Some VNone /\ attr w' self "X_test" = Some VNone
      /\ attr w' self "y_train" = Some VNone /\ attr w' self "y_test" = Some VNone.
Proof.
  intros item Rng tts lb ld w X y split name rs HX Hg self.
  eexists. split; [| split; [reflexivity |]].
  - unfold DataManager.DataManager, bind.
    rewrite alloc_instance. cbv beta iota.
    erewrite (init_skip tts lb ld _ _ _ _ _ _ X y split name rs
                (new_self (heap w)) HX).
    + rewrite nf_new. reflexivity.
    + rewrite app_nil_r. apply guard_fails_app, Hg.
  - unfold attr. cbn [heap]. rewrite list_lookup_middle by reflexivity.
    unfold init_attrs. repeat split; by simplify_map_eq.
Qed.

(** X6 at features of three elements and labels of two. *)
Lemma constructor_without_split_witness :
  exists w',
    DataManager.DataManager Z nat Fixture.split Fixture.boston Fixture.diabetes
      (VRef 0) (VRef 1) (VFloat (1 # 5)) VNone VNone
      (World [OArray (NdItems [1; 2; 3]%Z); OArray (NdItems [7; 8]%Z)] 0)
      = (Return 2, w')
    /\ w' = World ([OArray (NdItems [1; 2; 3]%Z); OArray (NdItems [7; 8]%Z)] ++
                   [OInstance (<["name" := stored_name VNone]> (<["_y" := VRef 1]> (
                               <["_X" := VRef 0]>
                                 (init_attrs ∅ VNone (VFloat (1 # 5))))))]) 0
    /\ attr w' 2 "_X" = Some (VRef 0) /\ attr w' 2 "_y" = Some (VRef 1)
    /\ attr w' 2 "X_train" = Some VNone /\ attr w' 2 "X_test" = Some VNone
    /\ attr w' 2 "y_train" = Some VNone /\ attr w' 2 "y_test" = Some VNone.
Proof.
  apply (constructor_without_split Z nat Fixture.split Fixture.boston
           Fixture.diabetes
           (World [OArray (NdItems [1; 2; 3]%Z); OArray (NdItems [7; 8]%Z)] 0)
           (VRef 0) (VRef 1) (VFloat (1 # 5)) VNone VNone eq_refl).
  right. right. right. exists 3, 2. repeat split; [reflexivity .. | lia].
Defined.

(** X7: what is assigned is what is read.  After an assignment to X or to
    y on a manager, whether the assignment returned or raised, the getter
    of that property returns the assigned value. *)
Theorem getter_returns_assigned_value :
  forall (item Rng : Type)
    (tts : Rng -> value + obj item -> value + obj item -> value -> value ->
           Rng * (exn + (ndarray item * ndarray item * ndarray item * ndarray item)))
    (w : world item Rng) (self : nat) (d : gmap string value) (v : value),
    heap w !! self = Some (OInstance d) ->
    let wX := (set_X item Rng tts self v w).2 in
    let wy := (set_y item Rng tts self v w).2 in
    X item Rng self wX = (Return v, wX) /\ y item Rng self wy = (Return v, wy).
Proof.
  intros item Rng tts w self d v H wX wy.
  assert (Hread : forall name w1 w2,
            heap w1 !! self = Some (OInstance (<[name := v]> d)) ->
            name ∉ split_attrs ->
            modifies self split_attrs w1 w2 ->
            getattr item Rng self name w2 = (Return v, w2)).
  { intros name w1 w2 H1 Hn Hm.
    destruct (Hm self _ H1) as (o' & Ho' & Hs). cbn in Hs.
    rewrite decide_True in Hs by reflexivity. destruct Hs as (d' & -> & Hd').
    eapply getattr_plain; [exact Ho' |].
    rewrite (Hd' name Hn). apply lookup_insert_eq. }
  apply lookup_lt_Some in H as Hlt.
  split.
  - apply (Hread "_X" (World (<[self := OInstance (<["_X" := v]> d)]> (heap w)) (rng w))).
    + cbn. apply list_lookup_insert_eq, Hlt.
    + apply (bool_decide_unpack _). vm_compute. exact I.
    + subst wX. unfold set_X, bind, setattr. rewrite H.
      apply _split_modifies.
  - apply (Hread "_y" (World (<[self := OInstance (<["_y" := v]> d)]> (heap w)) (rng w))).
    + cbn. apply list_lookup_insert_eq, Hlt.
    + apply (bool_decide_unpack _). vm_compute. exact I.
    + subst wy. unfold set_y, bind, setattr. rewrite H.
      apply _split_modifies.
Qed.

(** X7 at an assignment that raises: the value 5 has no length. *)
Lemma getter_returns_assigned_value_witness :
  let wX := (set_X Z nat Fixture.split 2 (VInt 5) Fixture.two_arrays).2 in
  let wy := (set_y Z nat Fixture.split 2 (VInt 5) Fixture.two_arrays).2 in
  X Z nat 2 wX = (Return (VInt 5), wX) /\ y Z nat 2 wy = (Return (VInt 5), wy).
Proof.
  apply (getter_returns_assigned_value Z nat Fixture.split Fixture.two_arrays 2
           Fixture.manager_attrs (VInt 5)).
  reflexivity.
Defined.

(** X8: [clone] on a manager whose X and y are arrays, provided the split
    routine does not raise on them with the manager's split and no random
    state: the call returns a new manager whose X and y are new arrays
    with the contents of the original ones, whose split is the original's,
    whose name is the original's when that is a string, and whose random
    state is None whatever the original's is; the original manager and its
    arrays are as they were. *)
Theorem clone_of_manager_with_arrays :
  forall (item Rng : Type)
    (tts : Rng -> value + obj item -> value + obj item -> value -> value ->
           Rng * (exn + (ndarray item * ndarray item * ndarray item * ndarray item)))
    (lb ld : list item * list item)
    (w : world item Rng) (self lx ly : nat) (d : gmap string value)
    (xs ys : list item) (s nm : value),
    heap w !! self = Some (OInstance d) ->
    d !! "_X" = Some (VRef lx) -> d !! "_y" = Some (VRef ly) ->
    d !! "split" = Some s -> d !! "name" = Some nm ->
    heap w !! lx = Some (OArray (NdItems xs)) ->
    heap w !! ly = Some (OArray (NdItems ys)) ->
    (forall g' e, tts (rng w) (inr (OArray (NdItems xs)))
                    (inr (OArray (NdItems ys))) s VNone <> (g', inl e)) ->
    let n := length (heap w) in
    exists w',
      clone item Rng tts lb ld self w = (Return (n + 2), w')
      /\ attr w' (n + 2) "_X" = Some (VRef n)
      /\ array_at w' (VRef n) = Some (NdItems xs)
      /\ attr w' (n + 2) "_y" = Some (VRef (n + 1))
      /\ array_at w' (VRef (n + 1)) = Some (NdItems ys)
      /\ attr w' (n + 2) "split" = Some s
      /\ attr w' (n + 2) "name" = Some (stored_name nm)
      /\ attr w' (n + 2) "random_state" = Some VNone
      /\ heap w' !! self = Some (OInstance d)
      /\ array_at w' (VRef lx) = Some (NdItems xs)
      /\ array_at w' (VRef ly) = Some (NdItems ys).
Proof.
  intros item Rng tts lb ld w self lx ly d xs ys s nm
    H HX Hy Hs Hnm Hlx Hly Htot n.
  apply lookup_lt_Some in Hly as Hlt.
  unfold clone. unfold bind at 1.
  rewrite (data_true_run w self d (VRef lx) (VRef ly) H HX Hy)
    by (intros l [= <-]; exact Hlt).
  cbv beta iota. unfold array_at, deref. rewrite Hlx, Hly. fold n.
  set (w2 := World (heap w ++ [OArray (NdItems xs); OArray (NdItems ys)]) (rng w)).
  assert (H2 : heap w2 !! self = Some (OInstance d)).
  { cbn. apply lookup_app_l_Some, H. }
  assert (Hlx2 : heap w2 !! lx = Some (OArray (NdItems xs))).
  { cbn. apply lookup_app_l_Some, Hlx. }
  assert (Hly2 : heap w2 !! ly = Some (OArray (NdItems ys))).
  { cbn. apply lookup_app_l_Some, Hly. }
  assert (Hn2 : length (heap w2) = n + 2).
  { cbn. rewrite length_app. reflexivity. }
  assert (HcX : heap w2 !! n = Some (OArray (NdItems xs))).
  { cbn. apply list_lookup_middle. reflexivity. }
  assert (Hcy : heap w2 !! (n + 1) = Some (OArray (NdItems ys))).
  { cbn. rewrite lookup_app_r by (unfold n; lia).
    replace (n + 1 - length (heap w)) with 1 by (unfold n; lia). reflexivity. }
  unfold bind at 1. rewrite (getattr_plain w2 self d "split" s H2 Hs).
  cbv beta iota. unfold bind at 1.
  rewrite (getattr_plain w2 self d "name" nm H2 Hnm). cbv beta iota.
  unfold DataManager.DataManager. unfold bind at 1.
  rewrite alloc_instance. cbv beta iota.
  set (h := heap w2 ++ [OInstance ∅]).
  assert (HhX : (h ++ []) !! n = Some (OArray (NdItems xs))).
  { rewrite app_nil_r. apply lookup_app_l_Some, HcX. }
  assert (Hhy : (h ++ []) !! (n + 1) = Some (OArray (NdItems ys))).
  { rewrite app_nil_r. apply lookup_app_l_Some, Hcy. }
  destruct (init_total tts lb ld h (length (heap w2)) ∅ ∅ [] (rng w2)
              (VRef n) (VRef (n + 1)) s nm VNone (length xs) (length ys)
              (new_self (heap w2)) eq_refl)
    as (d' & ext' & g' & Hrun & HX' & Hy' & Hs' & Hrs' & Hnm').
  { cbn [len_in]. rewrite HhX. reflexivity. }
  { cbn [len_in]. rewrite Hhy. reflexivity. }
  { unfold deref. rewrite HhX, Hhy. exact Htot. }
  unfold bind at 1. rewrite Hrun. cbv beta iota. unfold ret.
  unfold h. rewrite nf_new. cbn [app]. rewrite Hn2.
  eexists. split; [reflexivity |].
  assert (Hnew : (heap w2 ++ OInstance d' :: ext') !! (n + 2) = Some (OInstance d')).
  { apply list_lookup_middle. symmetry. exact Hn2. }
  unfold attr, array_at, deref. cbn [heap]. rewrite Hnew.
  rewrite (lookup_app_l_Some _ _ _ _ HcX), (lookup_app_l_Some _ _ _ _ Hcy).
  rewrite (lookup_app_l_Some _ _ _ _ H2).
  rewrite (lookup_app_l_Some _ _ _ _ Hlx2), (lookup_app_l_Some _ _ _ _ Hly2).
  repeat split; assumption.
Qed.

(** X8 at the manager of [full_manager], whose random state is 0. *)
Lemma clone_of_manager_with_arrays_witness :
  exists w',
    clone Z nat Fixture.split Fixture.boston Fixture.diabetes 2 Fixture.full_manager
      = (Return 5, w')
    /\ attr w' 5 "_X" = Some (VRef 3)
    /\ array_at w' (VRef 3) = Some (NdItems [1; 2; 3]%Z)
    /\ attr w' 5 "_y" = Some (VRef 4)
    /\ array_at w' (VRef 4) = Some (NdItems [7; 8; 9]%Z)
    /\ attr w' 5 "split" = Some (VFloat (1 # 5))
    /\ attr w' 5 "name" = Some (stored_name (VStr "Unnamed"))
    /\ attr w' 5 "random_state" = Some VNone
    /\ heap w' !! 2 = Some (OInstance Fixture.full_attrs)
    /\ array_at w' (VRef 0) = Some (NdItems [1; 2; 3]%Z)
    /\ array_at w' (VRef 1) = Some (NdItems [7; 8; 9]%Z).
Proof.
  refine (clone_of_manager_with_arrays Z nat Fixture.split Fixture.boston
            Fixture.diabetes Fixture.full_manager 2 0 1 Fixture.full_attrs
            [1; 2; 3]%Z [7; 8; 9]%Z (VFloat (1 # 5)) (VStr "Unnamed")
            _ _ _ _ _ _ _ _);
    try (vm_compute; reflexivity).
  intros g' e Ht. vm_compute in Ht. discriminate Ht.
Defined.

(** X9: [shuffle] keeps features and labels together.  On a manager whose
    X and y are non-empty arrays, when the generator returns the pairs in
    a permuted order and the calls of the split routine that the two
    assignments make return, [shuffle] returns, and X and y are then two
    new arrays whose pairs of elements at equal positions are a
    permutation of the pairs of the old ones; both have the length of the
    shorter of the old arrays, [zip] having dropped what is beyond it.  The
    old arrays are as they were. *)
Theorem shuffle_keeps_pairs_aligned :
  forall (item Rng : Type)
    (tts : Rng -> value + obj item -> value + obj item -> value -> value ->
           Rng * (exn + (ndarray item * ndarray item * ndarray item * ndarray item)))
    (shuf : Rng -> list (item * item) -> Rng * list (item * item))
    (w : world item Rng) (self lx ly : nat) (d : gmap string value)
    (xs ys : list item) (s rs rs0 : value)
    (g1 : Rng) (data : list (item * item)),
    heap w !! self = Some (OInstance d) ->
    d !! "_X" = Some (VRef lx) -> d !! "_y" = Some (VRef ly) ->
    d !! "split" = Some s -> d !! "random_state" = Some rs0 ->
    heap w !! lx = Some (OArray (NdItems xs)) ->
    heap w !! ly = Some (OArray (NdItems ys)) ->
    xs <> [] -> ys <> [] ->
    shuf (rng w) (zip xs ys) = (g1, data) ->
    Permutation data (zip xs ys) ->
    shuffle_splits_return tts s (if is_None rs then rs0 else rs) g1 data ys ->
    let n := length (heap w) in
    exists w' xs' ys',
      shuffle item Rng tts shuf self rs w = (Return tt, w')
      /\ attr w' self "_X" = Some (VRef (n + 2))
      /\ items_at (heap w') (VRef (n + 2)) = Some xs'
      /\ attr w' self "_y" = Some (VRef (n + 3))
      /\ items_at (heap w') (VRef (n + 3)) = Some ys'
      /\ Permutation (zip xs' ys') (zip xs ys)
      /\ length xs' = length xs `min` length ys
      /\ length ys' = length xs `min` length ys
      /\ items_at (heap w') (VRef lx) = Some xs
      /\ items_at (heap w') (VRef ly) = Some ys.
Proof.
  intros item Rng tts shuf w self lx ly d xs ys s rs rs0 g1 data
    H HX Hy Hs Hrs Hlx Hly Hxs Hys Hsh Hp Hcalls n.
  destruct data as [| p data].
  { exfalso. destruct xs as [| x xs]; [congruence |].
    destruct ys as [| y0 ys]; [congruence |].
    cbn in Hp. eapply Permutation_nil_cons, Hp. }
  destruct (shuffle_result tts shuf w self d rs rs0 s lx ly xs ys g1 p data
              H HX Hy Hs Hrs Hlx Hly Hsh Hcalls)
    as (w' & Hrun & HX' & HiX & Hy' & Hiy & _ & _ & Hox & Hoy).
  exists w', (p :: data).*1, (p :: data).*2.
  assert (Hlen : length (p :: data) = length xs `min` length ys).
  { rewrite (Permutation_length Hp). apply length_zip_with. }
  repeat split; try assumption.
  - rewrite zip_fst_snd. exact Hp.
  - rewrite length_fmap. exact Hlen.
  - rewrite length_fmap. exact Hlen.
Qed.

(** X9 at features of three elements and labels of two, with the splitter
    that rejects a test size of 1 or more. *)
Lemma shuffle_keeps_pairs_aligned_witness :
  exists w' xs' ys',
    shuffle Z nat Fixture.split Fixture.reversing 2 (VInt 9)
      (World [OArray (NdItems [1; 2; 3]%Z); OArray (NdItems [7; 8]%Z);
              OInstance Fixture.full_attrs] 0) = (Return tt, w')
    /\ attr w' 2 "_X" = Some (VRef 5)
    /\ items_at (heap w') (VRef 5) = Some xs'
    /\ attr w' 2 "_y" = Some (VRef 6)
    /\ items_at (heap w') (VRef 6) = Some ys'
    /\ Permutation (zip xs' ys') (zip [1; 2; 3]%Z [7; 8]%Z)
    /\ length xs' = 2 /\ length ys' = 2
    /\ items_at (heap w') (VRef 0) = Some [1; 2; 3]%Z
    /\ items_at (heap w') (VRef 1) = Some [7; 8]%Z.
Proof.
  refine (shuffle_keeps_pairs_aligned Z nat Fixture.split Fixture.reversing
            (World [OArray (NdItems [1; 2; 3]%Z); OArray (NdItems [7; 8]%Z);
                    OInstance Fixture.full_attrs] 0)
            2 0 1 Fixture.full_attrs [1; 2; 3]%Z [7; 8]%Z
            (VFloat (1 # 5)) (VInt 9) (VInt 0) 1 [(2, 8); (1, 7)]%Z
            _ _ _ _ _ _ _ _ _ _ _ _);
    try (vm_compute; reflexivity); try discriminate.
  - apply (reverse_Permutation [(1, 7); (2, 8)]%Z).
  - split; intros; vm_compute; discriminate.
Defined.

(** X10: the random state given to [shuffle] does not seed the shuffle.
    It is stored in the manager, for the split routine to use, and the
    order of the elements is drawn from the global generator: from the
    same store, two calls with different random states, in each of which
    the calls of the split routine return, leave X and y referring to
    arrays with the same elements in the same order, the one the
    generator gives for the pairs of X and y. *)
Theorem shuffle_order_ignores_random_state :
  forall (item Rng : Type)
    (tts : Rng -> value + obj item -> value + obj item -> value -> value ->
           Rng * (exn + (ndarray item * ndarray item * ndarray item * ndarray item)))
    (shuf : Rng -> list (item * item) -> Rng * list (item * item))
    (w : world item Rng) (self lx ly : nat) (d : gmap string value)
    (xs ys : list item) (s rs1 rs2 rs0 : value)
    (g1 : Rng) (data : list (item * item)),
    heap w !! self = Some (OInstance d) ->
    d !! "_X" = Some (VRef lx) -> d !! "_y" = Some (VRef ly) ->
    d !! "split" = Some s -> d !! "random_state" = Some rs0 ->
    heap w !! lx = Some (OArray (NdItems xs)) ->
    heap w !! ly = Some (OArray (NdItems ys)) ->
    shuf (rng w) (zip xs ys) = (g1, data) -> data <> [] ->
    shuffle_splits_return tts s (if is_None rs1 then rs0 else rs1) g1 data ys ->
    shuffle_splits_return tts s (if is_None rs2 then rs0 else rs2) g1 data ys ->
    let n := length (heap w) in
    exists w1 w2,
      shuffle item Rng tts shuf self rs1 w = (Return tt, w1)
      /\ shuffle item Rng tts shuf self rs2 w = (Return tt, w2)
      /\ attr w1 self "_X" = Some (VRef (n + 2))
      /\ attr w2 self "_X" = Some (VRef (n + 2))
      /\ items_at (heap w1) (VRef (n + 2)) = Some data.*1
      /\ items_at (heap w2) (VRef (n + 2)) = Some data.*1
      /\ attr w1 self "_y" = Some (VRef (n + 3))
      /\ attr w2 self "_y" = Some (VRef (n + 3))
      /\ items_at (heap w1) (VRef (n + 3)) = Some data.*2
      /\ items_at (heap w2) (VRef (n + 3)) = Some data.*2
      /\ attr w1 self "random_state" = Some (if is_None rs1 then rs0 else rs1)
      /\ attr w2 self "random_state" = Some (if is_None rs2 then rs0 else rs2).
Proof.
  intros item Rng tts shuf w self lx ly d xs ys s rs1 rs2 rs0 g1 data
    H HX Hy Hs Hrs Hlx Hly Hsh Hne Hc1 Hc2 n.
  destruct data as [| p data]; [congruence |].
  destruct (shuffle_result tts shuf w self d rs1 rs0 s lx ly xs ys g1 p data
              H HX Hy Hs Hrs Hlx Hly Hsh Hc1)
    as (w1 & Hrun1 & HX1 & HiX1 & Hy1 & Hiy1 & Hrs1 & _).
  destruct (shuffle_result tts shuf w self d rs2 rs0 s lx ly xs ys g1 p data
              H HX Hy Hs Hrs Hlx Hly Hsh Hc2)
    as (w2 & Hrun2 & HX2 & HiX2 & Hy2 & Hiy2 & Hrs2 & _).
  exists w1, w2. repeat split; assumption.
Qed.

(** X10 at the random states 9 and None, with the splitter that rejects a
    test size of 1 or more and advances the generator when it is given no
    random state. *)
Lemma shuffle_order_ignores_random_state_witness :
  exists w1 w2,
    shuffle Z nat Fixture.split Fixture.reversing 2 (VInt 9)
      Fixture.full_manager = (Return tt, w1)
    /\ shuffle Z nat Fixture.split Fixture.reversing 2 VNone
         Fixture.full_manager = (Return tt, w2)
    /\ attr w1 2 "_X" = Some (VRef 5)
    /\ attr w2 2 "_X" = Some (VRef 5)
    /\ items_at (heap w1) (VRef 5) = Some [(3, 9); (2, 8); (1, 7)]%Z.*1
    /\ items_at (heap w2) (VRef 5) = Some [(3, 9); (2, 8); (1, 7)]%Z.*1
    /\ attr w1 2 "_y" = Some (VRef 6)
    /\ attr w2 2 "_y" = Some (VRef 6)
    /\ items_at (heap w1) (VRef 6) = Some [(3, 9); (2, 8); (1, 7)]%Z.*2
    /\ items_at (heap w2) (VRef 6) = Some [(3, 9); (2, 8); (1, 7)]%Z.*2
    /\ attr w1 2 "random_state" = Some (VInt 9)
    /\ attr w2 2 "random_state" = Some (VInt 0).
Proof.
  refine (shuffle_order_ignores_random_state Z nat Fixture.split
            Fixture.reversing Fixture.full_manager 2 0 1 Fixture.full_attrs
            [1; 2; 3]%Z [7; 8; 9]%Z (VFloat (1 # 5)) (VInt 9) VNone (VInt 0)
            1 [(3, 9); (2, 8); (1, 7)]%Z
            _ _ _ _ _ _ _ _ _ _ _);
    try (vm_compute; reflexivity); try discriminate.
  - split; intros; vm_compute; discriminate.
  - split; intros; vm_compute; discriminate.
Defined.

(** X11: when [shuffle] cannot shuffle.  On a manager whose X and y are
    None it raises TypeError, the 0-d arrays that [np.copy] makes of None
    not being iterable; on a manager one of whose arrays is empty it
    raises ValueError, there being no pair to unpack.  In both cases a
    random state that is not None has been stored by then, and X, y and
    the split attributes are as before. *)
Theorem shuffle_without_data_raises :
  forall (item Rng : Type)
    (tts : Rng -> value + obj item -> value + obj item -> value -> value ->
           Rng * (exn + (ndarray item * ndarray item * ndarray item * ndarray item)))
    (shuf : Rng -> list (item * item) -> Rng * list (item * item))
    (w : world item Rng) (self lx ly : nat) (d : gmap string value)
    (xs ys : list item) (rs : value),
    heap w !! self = Some (OInstance d) ->
    let d1 := if is_None rs then d else <["random_state" := rs]> d in
    (d !! "_X" = Some VNone -> d !! "_y" = Some VNone ->
     shuffle item Rng tts shuf self rs w
     = (Raise TypeError,
        World (<[self := OInstance d1]> (heap w)
               ++ [OArray (Nd0 VNone); OArray (Nd0 VNone)]) (rng w)))
    /\ (d !! "_X" = Some (VRef lx) -> d !! "_y" = Some (VRef ly) ->
     heap w !! lx = Some (OArray (NdItems xs)) ->
     heap w !! ly = Some (OArray (NdItems ys)) ->
     xs = [] \/ ys = [] ->
     (forall g l, Permutation (shuf g l).2 l) ->
     shuffle item Rng tts shuf self rs w
     = (Raise (ValueError "not enough values to unpack (expected 2, got 0)"),
        World (<[self := OInstance d1]> (heap w)
               ++ [OArray (NdItems xs); OArray (NdItems ys)])
          (shuf (rng w) []).1)).
Proof.
  intros item Rng tts shuf w self lx ly d xs ys rs H d1. split.
  - intros HX Hy. apply (shuffle_None tts shuf w self d rs H HX Hy).
  - intros HX Hy Hlx Hly Hempty Hperm.
    assert (Hz : zip xs ys = []).
    { destruct Hempty as [-> | ->]; [reflexivity | destruct xs; reflexivity]. }
    destruct (shuf (rng w) []) as [g1 data] eqn:Hsh.
    pose proof (Hperm (rng w) []) as Hp. rewrite Hsh in Hp. cbn in Hp.
    apply Permutation_nil_r in Hp. subst data.
    apply (shuffle_empty tts shuf w self d rs lx ly xs ys g1 H HX Hy Hlx Hly).
    rewrite Hz. exact Hsh.
Qed.

(** X11 at the manager built with all defaults, given the random state 9,
    and at a manager whose features are empty. *)
Lemma shuffle_without_data_raises_witness :
  shuffle Z nat Fixture.total_split Fixture.reversing 0 (VInt 9)
    (World [OInstance (<["name" := VStr "Unnamed"]>
                         (init_attrs ∅ VNone (VFloat (1 # 5))))] 0)
  = (Raise TypeError,
     World ([OInstance (<["random_state" := VInt 9]>
                          (<["name" := VStr "Unnamed"]>
                             (init_attrs ∅ VNone (VFloat (1 # 5)))))]
            ++ [OArray (Nd0 VNone); OArray (Nd0 VNone)]) 0)
  /\ shuffle Z nat Fixture.total_split Fixture.reversing 2 VNone
       (World [OArray (NdItems []); OArray (NdItems [7; 8; 9]%Z);
               OInstance Fixture.full_attrs] 0)
     = (Raise (ValueError "not enough values to unpack (expected 2, got 0)"),
        World ([OArray (NdItems []); OArray (NdItems [7; 8; 9]%Z);
                OInstance Fixture.full_attrs]
               ++ [OArray (NdItems []); OArray (NdItems [7; 8; 9]%Z)]) 1).
Proof.
  split.
  - refine (proj1 (shuffle_without_data_raises Z nat Fixture.total_split
              Fixture.reversing
              (World [OInstance (<["name" := VStr "Unnamed"]>
                                   (init_attrs ∅ VNone (VFloat (1 # 5))))] 0)
              0 0 0 _ [] [] (VInt 9) eq_refl) _ _);
      vm_compute; reflexivity.
  - refine (proj2 (shuffle_without_data_raises Z nat Fixture.total_split
              Fixture.reversing
              (World [OArray (NdItems []); OArray (NdItems [7; 8; 9]%Z);
                      OInstance Fixture.full_attrs] 0)
              2 0 1 Fixture.full_attrs [] [7; 8; 9]%Z VNone eq_refl)
              _ _ _ _ _ _);
      try (vm_compute; reflexivity).
    + left. reflexivity.
    + intros g l. apply reverse_Permutation.
Defined.

(** X12: whatever its outcome, [shuffle] changes no other object of the
    store, so the arrays the manager held keep their contents and order,
    and changes no attribute of the manager but [random_state], [_X], [_y]
    and the four split attributes: [split] and [name] are as before. *)
Theorem shuffle_changes_only_data_attributes :
  forall (item Rng : Type)
    (tts : Rng -> value + obj item -> value + obj item -> value -> value ->
           Rng * (exn + (ndarray item * ndarray item * ndarray item * ndarray item)))
    (shuf : Rng -> list (item * item) -> Rng * list (item * item))
    (w : world item Rng) (self : nat) (d : gmap string value) (rs : value),
    heap w !! self = Some (OInstance d) ->
    let w' := (shuffle item Rng tts shuf self rs w).2 in
    (forall l o, l <> self -> heap w !! l = Some o -> heap w' !! l = Some o)
    /\ (forall k, k ∉ "random_state" :: "_X" :: "_y" :: split_attrs ->
          attr w' self k = d !! k)
    /\ attr w' self "split" = d !! "split"
    /\ attr w' self "name" = d !! "name".
Proof.
  intros item Rng tts shuf w self d rs H w'.
  pose proof (shuffle_modifies tts shuf self rs w) as Hm.
  assert (Hk : forall k, k ∉ "random_state" :: "_X" :: "_y" :: split_attrs ->
                 attr w' self k = d !! k).
  { intros k Hk. eapply modifies_attr; eauto. }
  split; [| split; [exact Hk | split]].
  - intros l o Hne Hl. eapply modifies_other; eauto.
  - apply Hk. apply (bool_decide_unpack _). vm_compute. exact I.
  - apply Hk. apply (bool_decide_unpack _). vm_compute. exact I.
Qed.

(** X12 at the manager of [full_manager]. *)
Lemma shuffle_changes_only_data_attributes_witness :
  let w' := (shuffle Z nat Fixture.total_split Fixture.reversing 2 (VInt 9)
               Fixture.full_manager).2 in
  (forall l o, l <> 2 -> heap Fixture.full_manager !! l = Some o ->
     heap w' !! l = Some o)
  /\ (forall k, k ∉ "random_state" :: "_X" :: "_y" :: split_attrs ->
        attr w' 2 k = Fixture.full_attrs !! k)
  /\ attr w' 2 "split" = Fixture.full_attrs !! "split"
  /\ attr w' 2 "name" = Fixture.full_attrs !! "name".
Proof.
  apply (shuffle_changes_only_data_attributes Z nat Fixture.total_split
           Fixture.reversing Fixture.full_manager 2 Fixture.full_attrs (VInt 9)).
  reflexivity.
Defined.

(** X14: [shuffle] splits twice.  On a manager with a float split whose X
    and y are non-empty arrays of equal length, the two assignments that
    end [shuffle] each call the split routine: first on the shuffled X and
    the old y, whose elements are not in the same order, then on the
    shuffled X and the shuffled y.  When both calls return, [X_train],
    [X_test], [y_train] and [y_test] refer to the arrays of the second
    call, those of the first are left in the store, and the generator is
    in the state the second call left. *)
Theorem shuffle_splits_twice :
  forall (item Rng : Type)
    (tts : Rng -> value + obj item -> value + obj item -> value -> value ->
           Rng * (exn + (ndarray item * ndarray item * ndarray item * ndarray item)))
    (shuf : Rng -> list (item * item) -> Rng * list (item * item))
    (w : world item Rng) (self lx ly : nat) (d : gmap string value)
    (xs ys : list item) (q : Q) (rs rs0 : value)
    (g1 g2 g3 : Rng) (data : list (item * item))
    (a1 b1 c1 e1 a2 b2 c2 e2 : ndarray item),
    heap w !! self = Some (OInstance d) ->
    d !! "_X" = Some (VRef lx) -> d !! "_y" = Some (VRef ly) ->
    d !! "split" = Some (VFloat q) -> d !! "random_state" = Some rs0 ->
    heap w !! lx = Some (OArray (NdItems xs)) ->
    heap w !! ly = Some (OArray (NdItems ys)) ->
    xs <> [] -> length xs = length ys ->
    shuf (rng w) (zip xs ys) = (g1, data) ->
    Permutation data (zip xs ys) ->
    let n := length (heap w) in
    let seed := if is_None rs then rs0 else rs in
    let d1 := if is_None rs then d else <["random_state" := rs]> d in
    tts g1 (inr (OArray (NdItems data.*1))) (inr (OArray (NdItems ys)))
      (VFloat q) seed = (g2, inr (a1, b1, c1, e1)) ->
    tts g2 (inr (OArray (NdItems data.*1))) (inr (OArray (NdItems data.*2)))
      (VFloat q) seed = (g3, inr (a2, b2, c2, e2)) ->
    shuffle item Rng tts shuf self rs w
    = (Return tt,
       World (<[self := OInstance
                  (with_split
                     (<["_y" := VRef (n + 3)]>
                        (with_split (<["_X" := VRef (n + 2)]> d1) (n + 4)))
                     (n + 8))]> (heap w)
              ++ [OArray (NdItems xs); OArray (NdItems ys);
                  OArray (NdItems data.*1); OArray (NdItems data.*2);
                  OArray a1; OArray b1; OArray c1; OArray e1;
                  OArray a2; OArray b2; OArray c2; OArray e2]) g3).
Proof.
  intros item Rng tts shuf w self lx ly d xs ys q rs rs0 g1 g2 g3 data
    a1 b1 c1 e1 a2 b2 c2 e2 H HX Hy Hs Hrs Hlx Hly Hxs Hlen Hsh Hp
    n seed d1 Ht1 Ht2.
  assert (Hdl : length data = length ys).
  { rewrite (Permutation_length Hp), length_zip_with, Hlen. apply Nat.min_id. }
  destruct data as [| p data].
  { exfalso. destruct xs; [congruence |]. destruct ys; discriminate. }
  rewrite (nf_id w self d H) at 1.
  apply (shuffle_splits_nf tts shuf (heap w) self d d (rng w) rs rs0 (VFloat q)
           lx ly xs ys g1 p data g2 a1 b1 c1 e1 g3 a2 b2 c2 e2
           H HX Hy Hs Hrs Hlx Hly eq_refl Hsh Hdl Ht1 Ht2).
Qed.

(** X14 at the manager of [full_manager], with the splitter that counts
    its calls in the generator. *)
Lemma shuffle_splits_twice_witness :
  shuffle Z nat Fixture.total_split Fixture.reversing 2 VNone Fixture.full_manager
  = (Return tt,
     World (<[2 := OInstance
               (with_split
                  (<["_y" := VRef 6]>
                     (with_split (<["_X" := VRef 5]> Fixture.full_attrs) 7))
                  11)]> (heap Fixture.full_manager)
            ++ [OArray (NdItems [1; 2; 3]%Z); OArray (NdItems [7; 8; 9]%Z);
                OArray (NdItems [(3, 9); (2, 8); (1, 7)]%Z.*1);
                OArray (NdItems [(3, 9); (2, 8); (1, 7)]%Z.*2);
                OArray (NdItems [2; 1]%Z); OArray (NdItems [3]%Z);
                OArray (NdItems [8; 9]%Z); OArray (NdItems [7]%Z);
                OArray (NdItems [2; 1]%Z); OArray (NdItems [3]%Z);
                OArray (NdItems [8; 7]%Z); OArray (NdItems [9]%Z)]) 3).
Proof.
  refine (shuffle_splits_twice Z nat Fixture.total_split Fixture.reversing
            Fixture.full_manager 2 0 1 Fixture.full_attrs
            [1; 2; 3]%Z [7; 8; 9]%Z (1 # 5) VNone (VInt 0) 1 2 3
            [(3, 9); (2, 8); (1, 7)]%Z
            (NdItems [2; 1]%Z) (NdItems [3]%Z) (NdItems [8; 9]%Z) (NdItems [7]%Z)
            (NdItems [2; 1]%Z) (NdItems [3]%Z) (NdItems [8; 7]%Z) (NdItems [9]%Z)
            _ _ _ _ _ _ _ _ _ _ _ _ _);
    try (vm_compute; reflexivity); try discriminate.
  apply (reverse_Permutation [(1, 7); (2, 8); (3, 9)]%Z).
Defined.
